(** * instaappfe: the API client's request lifecycle and the dashboard's
      optimistic updates

    A shallow embedding of [src/lib/api.ts] (the [ApiClient] class),
    [src/config/api.ts] (configuration and data types), the feed dashboard
    ([DashboardPage]: [fetchPosts], [loadMorePosts], [handleLike],
    [handleComment], [handlePostCreated]) and the post form
    ([PostForm.handleSubmit]).

    Conventions of the embedding.
    - A JavaScript value that the code only inspects dynamically (a decoded
      JSON body, a thrown value) is a [jsval]; a value the TypeScript
      interfaces give a shape to (Post, Comment, Pagination, ...) is a record.
    - The numbers of the feed (ids, counters, pages) are integers in the
      range where binary64 is exact; they are [Z]. A comment id is a [Q],
      because the provisional id [Date.now() + Math.random()] has a
      fractional part: it is the binary64 number nearest to the sum
      ([Js.binary64]); [===] on it is numeric equality.
    - A promise is a [Settle]: fulfilled or rejected at a time (milliseconds
      since the call was issued), or never settled.
    - React state is a record; a state setter called with a function is a
      function on the current state, a state setter called with a value
      computed from variables of the enclosing render is a function of that
      render's snapshot.
    - [ApiClient] is the client in a browser that lets the page read its
      storage; [Host] adds the read of the token in a browser that may
      deny it. *)

From Stdlib Require Import ZArith NArith Bool List String Ascii Lia.
From Stdlib Require QArith.
From stdpp Require Import base option list strings gmap pretty.
Import ListNotations.

Local Open Scope string_scope.
Local Open Scope Z_scope.
Local Open Scope list_scope.

Set Warnings "-register-all".

Local Abbreviation Q := QArith_base.Q.

(** ** JavaScript values *)

Module Js.

Inductive jsval : Type :=
| JUndefined
| JNull
| JBool (b : bool)
| JNum (q : Q)
| JStr (s : string)
| JArr (items : list jsval)
| JObj (fields : list (string * jsval)).

(** ToBoolean. *)
Definition truthy (v : jsval) : bool :=
  match v with
  | JUndefined | JNull => false
  | JBool b => b
  | JNum q => negb (QArith_base.Qeq_bool q (QArith_base.inject_Z 0))
  | JStr s => negb (String.eqb s "")
  | JArr _ | JObj _ => true
  end.

(** [a || b]. *)
Definition or (a b : jsval) : jsval := if truthy a then a else b.

Fixpoint assoc (key : string) (fields : list (string * jsval)) : jsval :=
  match fields with
  | [] => JUndefined
  | (k, v) :: rest => if String.eqb k key then v else assoc key rest
  end.

Record Error := { error_name : string; error_message : string }.

(** What a [throw] carries: an [Error] instance or anything else. *)
Inductive Thrown : Type :=
| ThrowError (e : Error)
| ThrowOther (v : jsval).

Definition type_error (what key : string) : Error :=
  {| error_name := "TypeError";
     error_message := "Cannot read properties of " +:+ what +:+ " (reading '" +:+ key +:+ "')" |}.

(** [v.key] for the keys the transport reads ([data], [message],
    [errors]); no primitive, string or array has one of these.  Reading a
    property of [null] or [undefined] throws a TypeError. *)
Definition get (v : jsval) (key : string) : Error + jsval :=
  match v with
  | JUndefined => inl (type_error "undefined" key)
  | JNull => inl (type_error "null" key)
  | JObj fields => inr (assoc key fields)
  | JBool _ | JNum _ | JStr _ | JArr _ => inr JUndefined
  end.

(** *** Numbers

    The result of an arithmetic operation is the binary64 number nearest
    to the exact result, ties going to the even significand.  For
    [2^e <= x < 2^(e+1)] the binary64 numbers are the multiples of
    [2^(e-52)].  (Magnitudes beyond [2^1024] or below [2^-1022], where
    binary64 overflows or loses precision, are not met by the sums rounded
    here.) *)

(** The integer nearest to [a / b], for [0 < b]; a tie goes to the even
    one. *)
Definition round_half_even (a b : Z) : Z :=
  let f := a / b in
  match 2 * (a mod b) ?= b with
  | Lt => f
  | Gt => f + 1
  | Eq => if Z.even f then f else f + 1
  end.

(** The [e] with [2^e <= n / d < 2^(e+1)], for [0 < n] and [0 < d]. *)
Definition exponent (n d : Z) : Z :=
  if d <=? n then Z.log2 (n / d) else - Z.log2_up ((d + n - 1) / n).

Definition nearest (n d : Z) : Q :=
  let e := exponent n d in
  if e <? 52 then
    let scale := 2 ^ (52 - e) in
    QArith_base.Qmake (round_half_even (n * scale) d) (Z.to_pos scale)
  else
    let unit := 2 ^ (e - 52) in
    QArith_base.inject_Z (round_half_even n (d * unit) * unit).

Definition binary64 (x : Q) : Q :=
  match QArith_base.Qnum x with
  | 0 => QArith_base.inject_Z 0
  | Zpos n => nearest (Zpos n) (Zpos (QArith_base.Qden x))
  | Zneg n => QArith_base.Qopp (nearest (Zpos n) (Zpos (QArith_base.Qden x)))
  end.

(** [a + b] on numbers. *)
Definition add (a b : Q) : Q := binary64 (QArith_base.Qplus a b).

(** A promise seen from the code that awaits it. Times are milliseconds
    since the enclosing call began. *)
Inductive Settle (A : Type) : Type :=
| Fulfilled (t : N) (a : A)
| Rejected (t : N) (e : Thrown)
| Pending.
Arguments Fulfilled {A} t a.
Arguments Rejected {A} t e.
Arguments Pending {A}.

(** [await m] followed by [k]; the synchronous code after the await runs
    at the time the promise settled. *)
Definition await {A B} (m : Settle A) (k : N -> A -> Settle B) : Settle B :=
  match m with
  | Fulfilled t a => k t a
  | Rejected t e => Rejected t e
  | Pending => Pending
  end.

(** A synchronous step that may throw, at time [t]. *)
Definition step {A B} (t : N) (r : Error + A) (k : A -> Settle B) : Settle B :=
  match r with
  | inl e => Rejected t (ThrowError e)
  | inr a => k a
  end.

(** [try { m } catch (error) { return h error }]. *)
Definition try_catch {A} (m : Settle A) (h : Thrown -> A) : Settle A :=
  match m with
  | Rejected t e => Fulfilled t (h e)
  | Fulfilled t a => Fulfilled t a
  | Pending => Pending
  end.

End Js.
Import Js.

(** ** src/config/api.ts *)

Module Config.

Record Endpoints := {
  LOGIN : string; REGISTER : string; LOGOUT : string;
  PROFILE : string; POSTS : string; USERS : string }.

Record ApiConfig := {
  BASE_URL : string;
  ENDPOINTS : Endpoints;
  TIMEOUT : N }.

(** [process.env.NEXT_PUBLIC_API_URL || 'http://localhost:8000/api'] *)
Definition base_url (env : option string) : string :=
  match env with
  | Some u => if String.eqb u "" then "http://localhost:8000/api" else u
  | None => "http://localhost:8000/api"
  end.

Definition API_CONFIG (env : option string) : ApiConfig :=
  {| BASE_URL := base_url env;
     ENDPOINTS := {| LOGIN := "/login"; REGISTER := "/register";
                     LOGOUT := "/logout"; PROFILE := "/me";
                     POSTS := "/post"; USERS := "/users" |};
     TIMEOUT := 10000 |}.

(** interface ApiResponse<T>, as a caller typed by [T] reads it. *)
Record ApiResponse (T : Type) := {
  success : bool;
  data : option T;
  message : option string;
  errors : option (gmap string (list string)) }.
Arguments success {T}.
Arguments data {T}.
Arguments message {T}.
Arguments errors {T}.

Record Pagination := {
  total : Z; per_page : Z; current_page : Z; last_page : Z }.

Record Permissions := {
  can_like_post : bool; can_create_post : bool; can_create_comment : bool }.

(** The author reference [{ id, name }] carried by posts and comments. *)
Record Author := { author_id : Z; author_name : string }.

End Config.
Import Config.

(** ** The browser: session store and network *)

Module Browser.

(** What the client touches outside itself. [window] says whether a
    browser execution context exists ([typeof window !== 'undefined']). *)
Record State := {
  window : bool;
  localStorage : gmap string string;
  cookies : gmap string string }.

Record File := { file_name : string; file_type : string; file_size : Z }.

Inductive FormValue : Type :=
| FormText (s : string)
| FormFile (f : File).

Inductive Body : Type :=
| BodyJson (v : jsval)                      (* JSON.stringify(v) *)
| BodyForm (fields : list (string * FormValue)) (* FormData *).

(** The arguments [fetch] receives (the abort signal apart). *)
Record FetchCall := {
  url : string;
  method : option string;
  body : option Body;
  headers : gmap string string }.

Record Response := {
  status : Z;
  json : Settle jsval   (* response.json() *) }.

(** *** document.cookie

    Assigning [name=raw; attributes] to [document.cookie] stores a cookie
    whose name-value pair ends at the first [;] of the string; blanks
    (space and horizontal tab) around the value are dropped, and nothing
    is escaped or encoded. *)

Fixpoint before_semicolon (s : string) : string :=
  match s with
  | EmptyString => EmptyString
  | String a rest =>
      if Ascii.eqb a ";" then EmptyString else String a (before_semicolon rest)
  end.

Definition is_blank (a : ascii) : bool := Ascii.eqb a " " || Ascii.eqb a "009".

Fixpoint drop_blanks (s : string) : string :=
  match s with
  | EmptyString => EmptyString
  | String a rest => if is_blank a then drop_blanks rest else s
  end.

Fixpoint drop_blanks_end (s : string) : string :=
  match s with
  | EmptyString => EmptyString
  | String a rest =>
      match drop_blanks_end rest with
      | EmptyString => if is_blank a then EmptyString else String a EmptyString
      | rest' => String a rest'
      end
  end.

(** The value stored for a pair written as [name=raw] and followed by
    [;] and attributes.  What [raw] holds after a [;] of its own is read
    as attributes: the attributes the code writes come after them and
    override a path, max-age or same-site policy given there; a Domain,
    Secure or HttpOnly attribute given there is not interpreted here. *)
Definition cookie_value (raw : string) : string :=
  drop_blanks_end (drop_blanks (before_semicolon raw)).

(** cookie-octet of RFC 6265: a printable US-ASCII character other than
    the blank, the double quote, the comma, the semicolon and the
    backslash. *)
Definition is_cookie_octet (a : ascii) : bool :=
  let n := nat_of_ascii a in
  ((n =? 33) || (35 <=? n) && (n <=? 43) || (45 <=? n) && (n <=? 58)
   || (60 <=? n) && (n <=? 91) || (93 <=? n) && (n <=? 126))%nat.

Fixpoint cookie_octets (s : string) : bool :=
  match s with
  | EmptyString => true
  | String a rest => is_cookie_octet a && cookie_octets rest
  end.

(** A value every browser stores as it is written: cookie octets only,
    and well within the 4096 bytes a name and its value may take. *)
Definition plain (value : string) : bool :=
  cookie_octets value && (String.length value <=? 4000)%nat.

(** response.ok *)
Definition ok (r : Response) : bool := (200 <=? status r) && (status r <=? 299).

Definition AbortError : Error :=
  {| error_name := "AbortError"; error_message := "The user aborted a request." |}.

(** [fetch(url, {..., signal})] where [controller.abort()] is scheduled
    at [abort_at]: the network's answer [net] is delivered if it comes
    strictly before the abort, otherwise the promise rejects with an
    AbortError at [abort_at].  (Which of two events of the same
    millisecond runs first is up to the event loop; the timer is given
    precedence here.) *)
Definition fetch (net : Settle Response) (abort_at : N) : Settle Response :=
  match net with
  | Fulfilled t r =>
      if (t <? abort_at)%N then Fulfilled t r
      else Rejected abort_at (ThrowError AbortError)
  | Rejected t e =>
      if (t <? abort_at)%N then Rejected t e
      else Rejected abort_at (ThrowError AbortError)
  | Pending => Rejected abort_at (ThrowError AbortError)
  end.

(** A network that answers every call at [t] with [status] and delivers
    the decoded body at [t']. *)
Definition answering (t t' : N) (status : Z) (body : jsval)
    : FetchCall -> Settle Response :=
  fun _ => Fulfilled t {| status := status; json := Fulfilled t' body |}.

End Browser.
Import Browser.

(** ** src/lib/api.ts: class ApiClient *)

Module ApiClient.

Record RequestInit := {
  init_method : option string;
  init_body : option Body;
  init_headers : option (gmap string string) }.

(** The object literal [request] returns; it is handed to callers as an
    [ApiResponse<T>] without any check.  Every field is the JavaScript
    value stored under that key ([JUndefined] when the literal has no
    such key or stores [undefined]). *)
Record Envelope := {
  success : bool;
  data : jsval;
  message : jsval;
  errors : jsval }.

Definition no_options : RequestInit :=
  {| init_method := None; init_body := None; init_headers := None |}.

Record t := { baseURL : string; timeout : N }.

(** constructor *)
Definition new (cfg : ApiConfig) : t :=
  {| baseURL := BASE_URL cfg; timeout := TIMEOUT cfg |}.

(** *** Token management *)

(** [localStorage.setItem('auth_token', token)], then
    [document.cookie = `auth_token=${token}; path=/; max-age=604800; SameSite=Lax`]:
    local storage keeps the token as it is, the cookie keeps what the
    browser reads as the value of the pair.  (The storage is taken to
    accept the write.) *)
Definition setToken (token : string) (st : State) : State :=
  if window st then
    {| window := window st;
       localStorage := <["auth_token" := token]> (localStorage st);
       cookies := <["auth_token" := cookie_value token]> (cookies st) |}
  else st.

(** [localStorage.getItem('auth_token')], [None] for [null], in a browser
    that lets the page read its storage.  [Host.getToken] below is the
    same read in a browser that may deny it. *)
Definition getToken (st : State) : option string :=
  if window st then localStorage st !! "auth_token" else None.

Definition removeToken (st : State) : State :=
  if window st then
    {| window := window st;
       localStorage := delete "auth_token" (localStorage st);
       cookies := delete "auth_token" (cookies st) |}
  else st.

(** [!!this.getToken()] *)
Definition isAuthenticated (st : State) : bool :=
  match getToken st with
  | Some tok => negb (String.eqb tok "")
  | None => false
  end.

(** *** The transport *)

(** The [catch (error)] block shared by [request] and
    [createPostWithFile]. *)
Definition on_error (error : Thrown) : Envelope :=
  match error with
  | ThrowError e =>
      if String.eqb (error_name e) "AbortError" then
        {| success := false;
           data := JUndefined;
           message := JStr "Request timeout. Please try again.";
           errors := JUndefined |}
      else
        {| success := false;
           data := JUndefined;
           message := Js.or (JStr (error_message e)) (JStr "Network error occurred");
           errors := JUndefined |}
  | ThrowOther _ =>
      {| success := false;
         data := JUndefined;
         message := JStr "An unexpected error occurred";
         errors := JUndefined |}
  end.

(** The [try] block shared by [request] and [createPostWithFile]:
    [controller], [setTimeout(abort, this.timeout)], [await fetch],
    [clearTimeout], [await response.json()], then the envelope. *)
Definition attempt (c : t) (net : FetchCall -> Settle Response)
    (call : FetchCall) : Settle Envelope :=
  await (fetch (net call) (timeout c)) (fun _ response =>
  (* clearTimeout(timeoutId): nothing aborts the body read *)
  await (json response) (fun t data =>
    if negb (ok response) then
      step t (get data "message") (fun m =>
      step t (get data "errors") (fun e =>
      Fulfilled t
        {| success := false;
           data := JUndefined;
           message := Js.or m (JStr "An error occurred");
           errors := e |}))
    else
      step t (get data "data") (fun d =>
      step t (get data "message") (fun m =>
      Fulfilled t
        {| success := true;
           data := Js.or d data;
           message := m;
           errors := JUndefined |})))).

(** [{...config.headers, 'Authorization': `Bearer ${token}`}] when the
    token is truthy. *)
Definition authorize (st : State) (hs : gmap string string) : gmap string string :=
  match getToken st with
  | Some token =>
      if String.eqb token "" then hs
      else <["Authorization" := "Bearer " +:+ token]> hs
  | None => hs
  end.

(** [{ headers: {defaults, ...options.headers}, ...options }]: the spread
    of [options] comes last, so a [headers] key of [options] replaces
    the merged one. *)
Definition request_headers (options : RequestInit) : gmap string string :=
  match init_headers options with
  | Some hs => hs
  | None => {[ "Content-Type" := "application/json"; "Accept" := "application/json" ]}
  end.

Definition request_call (c : t) (st : State) (endpoint : string)
    (options : RequestInit) : FetchCall :=
  {| url := baseURL c +:+ endpoint;
     method := init_method options;
     body := init_body options;
     headers := authorize st (request_headers options) |}.

(** private async request<T>(endpoint, options = {}), from the token
    read on: [st] is a store the page may read ([Host.request] has the
    read itself). *)
Definition request (c : t) (st : State) (net : FetchCall -> Settle Response)
    (endpoint : string) (options : RequestInit) : Settle Envelope :=
  try_catch (attempt c net (request_call c st endpoint options)) on_error.

Definition createPostWithFile_call (c : t) (cfg : ApiConfig) (st : State)
    (formData : list (string * FormValue)) : FetchCall :=
  {| url := baseURL c +:+ POSTS (ENDPOINTS cfg);
     method := Some "POST";
     body := Some (BodyForm formData);
     headers := authorize st {[ "Accept" := "application/json" ]} |}.

(** async createPostWithFile(formData) *)
Definition createPostWithFile (c : t) (cfg : ApiConfig) (st : State)
    (net : FetchCall -> Settle Response)
    (formData : list (string * FormValue)) : Settle Envelope :=
  try_catch (attempt c net (createPostWithFile_call c cfg st formData)) on_error.

(** *** The public methods *)

Section Methods.
Variables (c : t) (cfg : ApiConfig) (net : FetchCall -> Settle Response).

Definition post_json (v : jsval) : RequestInit :=
  {| init_method := Some "POST"; init_body := Some (BodyJson v); init_headers := None |}.

Definition with_method (m : string) : RequestInit :=
  {| init_method := Some m; init_body := None; init_headers := None |}.

Definition login (st : State) (email password : string) : Settle Envelope :=
  request c st net (LOGIN (ENDPOINTS cfg))
    (post_json (JObj [("email", JStr email); ("password", JStr password)])).

Definition register (st : State) (name email password password_confirmation : string)
    : Settle Envelope :=
  request c st net (REGISTER (ENDPOINTS cfg))
    (post_json (JObj [("name", JStr name); ("email", JStr email);
                      ("password", JStr password);
                      ("password_confirmation", JStr password_confirmation)])).

(** async logout(): the token is removed once the response is known
    and only if it reports success. *)
Definition logout (st : State) : Settle Envelope * State :=
  let response := request c st net (LOGOUT (ENDPOINTS cfg)) (with_method "POST") in
  match response with
  | Fulfilled _ r => (response, if success r then removeToken st else st)
  | Rejected _ _ | Pending => (response, st)
  end.

Definition getProfile (st : State) : Settle Envelope :=
  request c st net (PROFILE (ENDPOINTS cfg)) no_options.

(** async getPosts(): no parameter, no query string. *)
Definition getPosts (st : State) : Settle Envelope :=
  request c st net (POSTS (ENDPOINTS cfg)) no_options.

Definition createPost (st : State) (content image : string) : Settle Envelope :=
  request c st net (POSTS (ENDPOINTS cfg))
    (post_json (JObj [("content", JStr content); ("image", JStr image)])).

Definition like_endpoint (postId : Z) : string :=
  POSTS (ENDPOINTS cfg) +:+ "/" +:+ pretty postId +:+ "/like".

Definition comment_endpoint (postId : Z) : string :=
  POSTS (ENDPOINTS cfg) +:+ "/" +:+ pretty postId +:+ "/comment".

Definition likePost (st : State) (postId : Z) : Settle Envelope :=
  request c st net (like_endpoint postId) (with_method "POST").

Definition unlikePost (st : State) (postId : Z) : Settle Envelope :=
  request c st net (like_endpoint postId) (with_method "DELETE").

Definition createComment (st : State) (post_id : Z) (content : string) : Settle Envelope :=
  request c st net (comment_endpoint post_id)
    (post_json (JObj [("content", JStr content)])).

Definition getPostComments (st : State) (postId : Z) : Settle Envelope :=
  request c st net (comment_endpoint postId) no_options.

End Methods.

End ApiClient.

(** ** The client in a browser that may deny the storage

    [localStorage] throws (a SecurityError) in a page that is denied
    its storage.  [request] and [createPostWithFile] read the token
    before they enter their [try] block, so the exception leaves the
    async function: the promise they return rejects. *)

Module Host.

(** The store, and the exception its local storage throws when touched,
    if it throws one. *)
Record t := { store : Browser.State; denied : option Error }.

(** getToken() *)
Definition getToken (h : t) : Error + option string :=
  if window (store h) then
    match denied h with
    | Some e => inl e
    | None => inr (localStorage (store h) !! "auth_token")
    end
  else inr None.

(** An async method of the client: its first step reads the token, the
    steps that follow are those of [method] on the store that was
    read. *)
Definition call (h : t) (method : Browser.State -> Settle ApiClient.Envelope)
    : Settle ApiClient.Envelope :=
  step 0 (getToken h) (fun _ => method (store h)).

Definition request (c : ApiClient.t) (h : t) (net : FetchCall -> Settle Response)
    (endpoint : string) (options : ApiClient.RequestInit) : Settle ApiClient.Envelope :=
  call h (fun st => ApiClient.request c st net endpoint options).

Definition createPostWithFile (c : ApiClient.t) (cfg : ApiConfig) (h : t)
    (net : FetchCall -> Settle Response) (formData : list (string * FormValue))
    : Settle ApiClient.Envelope :=
  call h (fun st => ApiClient.createPostWithFile c cfg st net formData).

(** async logout(): a rejection of the awaited [request] leaves the
    method before [removeToken]. *)
Definition logout (c : ApiClient.t) (cfg : ApiConfig)
    (net : FetchCall -> Settle Response) (h : t)
    : Settle ApiClient.Envelope * Browser.State :=
  match getToken h with
  | inl e => (Rejected 0 (ThrowError e), store h)
  | inr _ => ApiClient.logout c cfg net (store h)
  end.

End Host.

(** ** The feed's data (interfaces Comment, Post, User of src/config/api.ts) *)

Module Comment.
Record t := {
  id : Q;
  post_id : Z;
  user_id : Z;
  content : string;
  created_at : Z;
  user : Author }.

(** [a.id === b.id] *)
Definition same_id (a : Q) (b : Q) : bool := QArith_base.Qeq_bool a b.
End Comment.

Module Post.
Record t := {
  id : Z;
  user_id : Z;
  content : string;
  image_url : string;
  likes_count : Z;
  comments_count : Z;
  created_at : Z;
  updated_at : Z;
  user : Author;
  comments : list Comment.t;
  is_liked : bool }.

(** [{ ...p, is_liked, likes_count }] *)
Definition with_like (p : t) (liked : bool) (count : Z) : t :=
  {| id := id p; user_id := user_id p; content := content p;
     image_url := image_url p; likes_count := count;
     comments_count := comments_count p; created_at := created_at p;
     updated_at := updated_at p; user := user p; comments := comments p;
     is_liked := liked |}.

(** [{ ...p, comments, comments_count }] *)
Definition with_comments (p : t) (cs : list Comment.t) (count : Z) : t :=
  {| id := id p; user_id := user_id p; content := content p;
     image_url := image_url p; likes_count := likes_count p;
     comments_count := count; created_at := created_at p;
     updated_at := updated_at p; user := user p; comments := cs;
     is_liked := is_liked p |}.
End Post.

Module User.
Record t := {
  id : Z;
  name : string;
  email : string;
  permissions : Permissions }.
End User.

(** Payloads of the typed responses. *)
Record PostsResponse := { posts_of : list Post.t; pagination_of : Pagination }.
Record CommentResponse := { comment_of : Comment.t }.
Record LikeResponse := { liked_of : bool; count_of : Z }.

(** ** String.prototype.trim *)

Module Text.

(** White space and line terminators among the code units below 256. *)
Definition is_space (a : ascii) : bool :=
  let n := nat_of_ascii a in
  ((9 <=? n)%nat && (n <=? 13)%nat) || (n =? 32)%nat || (n =? 160)%nat.

Fixpoint trimStart (s : string) : string :=
  match s with
  | EmptyString => EmptyString
  | String a rest => if is_space a then trimStart rest else s
  end.

Fixpoint trimEnd (s : string) : string :=
  match s with
  | EmptyString => EmptyString
  | String a rest =>
      let r := trimEnd rest in
      if is_space a && String.eqb r "" then EmptyString else String a r
  end.

Definition trim (s : string) : string := trimEnd (trimStart s).

(** [s || fallback] for an optional string. *)
Definition or_else (s : option string) (fallback : string) : string :=
  match s with
  | Some m => if String.eqb m "" then fallback else m
  | None => fallback
  end.

End Text.

(** ** Event handlers

    A handler runs synchronously up to its single [await] of a client call
    and resumes when that call settles.  [Done u]: the handler returns
    without calling the client, having applied [u] to the state.
    [Await u call k]: it applies [u], issues [call], and when the call
    settles with outcome [o] applies [k o] to the state of that moment. *)

Module Handler.

(** The calls the components make on [apiClient], with the arguments
    written at the call site. *)
Inductive ApiCall : Type :=
| getPosts (page perPage : Z)
| likePost (postId : Z)
| unlikePost (postId : Z)
| createComment (post_id : Z) (content : string)
| createPostWithFile (formData : list (string * FormValue)).

(** What the call site receives.  JavaScript discards the two arguments
    of [getPosts(page, 10)]: the method declares none. *)
Definition perform (c : ApiClient.t) (cfg : ApiConfig)
    (net : FetchCall -> Settle Response) (st : Browser.State)
    (call : ApiCall) : Settle ApiClient.Envelope :=
  match call with
  | getPosts _ _ => ApiClient.getPosts c cfg net st
  | likePost postId => ApiClient.likePost c cfg net st postId
  | unlikePost postId => ApiClient.unlikePost c cfg net st postId
  | createComment post_id content => ApiClient.createComment c cfg net st post_id content
  | createPostWithFile formData => ApiClient.createPostWithFile c cfg st net formData
  end.

(** How an awaited call ends for the [try]/[catch] around it. *)
Inductive Outcome (T : Type) : Type :=
| Resolved (response : ApiResponse T)
| Threw.
Arguments Resolved {T} response.
Arguments Threw {T}.

Inductive t (St T : Type) : Type :=
| Done (upd : St -> St)
| Await (upd : St -> St) (call : ApiCall) (k : Outcome T -> St -> St).
Arguments Done {St T} upd.
Arguments Await {St T} upd call k.

(** The request a handler issues, if any. *)
Definition issued {St T} (h : t St T) : option ApiCall :=
  match h with
  | Done _ => None
  | Await _ call _ => Some call
  end.

(** The state once the handler has reached its await (or returned). *)
Definition before {St T} (h : t St T) (s : St) : St :=
  match h with
  | Done u => u s
  | Await u _ _ => u s
  end.

(** The state change when the awaited call settles. *)
Definition after {St T} (h : t St T) (o : Outcome T) (s : St) : St :=
  match h with
  | Done _ => s
  | Await _ _ k => k o s
  end.

(** A handler run with nothing else happening in between. *)
Definition run {St T} (h : t St T) (o : Outcome T) (s : St) : St :=
  after h o (before h s).

End Handler.

(** ** The feed dashboard (DashboardPage) *)

Module Dashboard.
Import Handler.

Record State := {
  user : option User.t;
  isLoading : bool;
  isLoggingOut : bool;
  posts : list Post.t;
  newComment : gmap Z string;
  isLoadingPosts : bool;
  isLoadingMore : bool;
  error : option string;
  expandedComments : gmap Z bool;
  pagination : option Pagination;
  hasMorePosts : bool;
  scrollY : Z   (* the window's scroll offset, moved by window.scrollTo *) }.

(** The state setters. *)
Definition setPosts (f : list Post.t -> list Post.t) (s : State) : State :=
  {| user := user s; isLoading := isLoading s; isLoggingOut := isLoggingOut s;
     posts := f (posts s); newComment := newComment s;
     isLoadingPosts := isLoadingPosts s; isLoadingMore := isLoadingMore s;
     error := error s; expandedComments := expandedComments s;
     pagination := pagination s; hasMorePosts := hasMorePosts s;
     scrollY := scrollY s |}.

Definition setNewComment (m : gmap Z string) (s : State) : State :=
  {| user := user s; isLoading := isLoading s; isLoggingOut := isLoggingOut s;
     posts := posts s; newComment := m;
     isLoadingPosts := isLoadingPosts s; isLoadingMore := isLoadingMore s;
     error := error s; expandedComments := expandedComments s;
     pagination := pagination s; hasMorePosts := hasMorePosts s;
     scrollY := scrollY s |}.

Definition setIsLoadingPosts (b : bool) (s : State) : State :=
  {| user := user s; isLoading := isLoading s; isLoggingOut := isLoggingOut s;
     posts := posts s; newComment := newComment s;
     isLoadingPosts := b; isLoadingMore := isLoadingMore s;
     error := error s; expandedComments := expandedComments s;
     pagination := pagination s; hasMorePosts := hasMorePosts s;
     scrollY := scrollY s |}.

Definition setIsLoadingMore (b : bool) (s : State) : State :=
  {| user := user s; isLoading := isLoading s; isLoggingOut := isLoggingOut s;
     posts := posts s; newComment := newComment s;
     isLoadingPosts := isLoadingPosts s; isLoadingMore := b;
     error := error s; expandedComments := expandedComments s;
     pagination := pagination s; hasMorePosts := hasMorePosts s;
     scrollY := scrollY s |}.

Definition setError (e : option string) (s : State) : State :=
  {| user := user s; isLoading := isLoading s; isLoggingOut := isLoggingOut s;
     posts := posts s; newComment := newComment s;
     isLoadingPosts := isLoadingPosts s; isLoadingMore := isLoadingMore s;
     error := e; expandedComments := expandedComments s;
     pagination := pagination s; hasMorePosts := hasMorePosts s;
     scrollY := scrollY s |}.

Definition setPagination (p : option Pagination) (s : State) : State :=
  {| user := user s; isLoading := isLoading s; isLoggingOut := isLoggingOut s;
     posts := posts s; newComment := newComment s;
     isLoadingPosts := isLoadingPosts s; isLoadingMore := isLoadingMore s;
     error := error s; expandedComments := expandedComments s;
     pagination := p; hasMorePosts := hasMorePosts s;
     scrollY := scrollY s |}.

Definition setHasMorePosts (b : bool) (s : State) : State :=
  {| user := user s; isLoading := isLoading s; isLoggingOut := isLoggingOut s;
     posts := posts s; newComment := newComment s;
     isLoadingPosts := isLoadingPosts s; isLoadingMore := isLoadingMore s;
     error := error s; expandedComments := expandedComments s;
     pagination := pagination s; hasMorePosts := b;
     scrollY := scrollY s |}.

(** window.scrollTo(0, y) *)
Definition scrollTo (y : Z) (s : State) : State :=
  {| user := user s; isLoading := isLoading s; isLoggingOut := isLoggingOut s;
     posts := posts s; newComment := newComment s;
     isLoadingPosts := isLoadingPosts s; isLoadingMore := isLoadingMore s;
     error := error s; expandedComments := expandedComments s;
     pagination := pagination s; hasMorePosts := hasMorePosts s;
     scrollY := y |}.

(** *** fetchPosts, loadMorePosts, handlePostCreated *)

(** The [if (response.success && response.data && ...posts)] branch of
    [fetchPosts]: the feed is replaced. *)
Definition fetched (response : ApiResponse PostsResponse) (s : State) : State :=
  match success response, data response with
  | true, Some d =>
      setHasMorePosts (current_page (pagination_of d) <? last_page (pagination_of d))
        (setPagination (Some (pagination_of d))
          (setPosts (fun _ => posts_of d) s))
  | _, _ => setError (Some (Text.or_else (message response) "Failed to load posts")) s
  end.

Definition fetchPosts : Handler.t State PostsResponse :=
  Await (fun s => setError None (setIsLoadingPosts true s))
    (getPosts 1 10)
    (fun o s =>
       setIsLoadingPosts false
         match o with
         | Resolved response => fetched response s
         | Threw => setError (Some "Network error. Please try again.") s
         end).

(** The success branch of [loadMorePosts]: the page is appended. *)
Definition loaded (response : ApiResponse PostsResponse) (s : State) : State :=
  match success response, data response with
  | true, Some d =>
      setHasMorePosts (current_page (pagination_of d) <? last_page (pagination_of d))
        (setPagination (Some (pagination_of d))
          (setPosts (fun prevPosts => (prevPosts ++ posts_of d)%list) s))
  | _, _ => setError (Some (Text.or_else (message response) "Failed to load more posts")) s
  end.

(** [r] is the render whose [pagination], [hasMorePosts] and
    [isLoadingMore] the callback closes over. *)
Definition loadMorePosts (r : State) : Handler.t State PostsResponse :=
  match pagination r with
  | None => Done (fun s => s)
  | Some pg =>
      if negb (hasMorePosts r) || isLoadingMore r then Done (fun s => s)
      else
        let nextPage := current_page pg + 1 in
        Await (setIsLoadingMore true)
          (getPosts nextPage 10)
          (fun o s =>
             setIsLoadingMore false
               match o with
               | Resolved response => loaded response s
               | Threw => setError (Some "Network error. Please try again.") s
               end)
  end.

Definition handlePostCreated : Handler.t State PostsResponse :=
  Await (fun s => before fetchPosts (setHasMorePosts true (setPagination None s)))
    (getPosts 1 10)
    (after fetchPosts).

(** *** handleLike *)

(** [!user?.permissions.can_like_post] *)
Definition may_not_like (r : State) : bool :=
  match user r with
  | Some u => negb (can_like_post (User.permissions u))
  | None => true
  end.

(** The optimistic update of one post. *)
Definition like_toggle (postId : Z) (p : Post.t) : Post.t :=
  if Post.id p =? postId then
    Post.with_like p (negb (Post.is_liked p))
      (if Post.is_liked p then Post.likes_count p - 1 else Post.likes_count p + 1)
  else p.

(** The revert of one post: it writes back the fields of [post], the
    post the handler found when it was triggered. *)
Definition like_revert (postId : Z) (post : Post.t) (p : Post.t) : Post.t :=
  if Post.id p =? postId then
    Post.with_like p (Post.is_liked post) (Post.likes_count post)
  else p.

(** [r] is the render whose [user] and [posts] the handler closes over. *)
Definition handleLike (r : State) (postId : Z) : Handler.t State LikeResponse :=
  if may_not_like r then
    Done (fun s => setError (Some "You do not have permission to like posts.") (scrollTo 0 s))
  else
    match List.find (fun p => Post.id p =? postId) (posts r) with
    | None => Done (fun s => s)
    | Some post =>
        Await (setPosts (List.map (like_toggle postId)))
          (if Post.is_liked post then unlikePost postId else likePost postId)
          (fun o s =>
             match o with
             | Resolved response =>
                 if negb (success response) then
                   setError (Some (Text.or_else (message response) "Failed to update like"))
                     (setPosts (List.map (like_revert postId post)) s)
                 else s
             | Threw =>
                 setError (Some "Network error. Please try again.")
                   (setPosts (List.map (like_revert postId post)) s)
             end)
    end.

(** *** handleComment *)

(** The values [Date.now()], [Math.random()] and [Date.now()] return
    while the provisional comment is built, in evaluation order. *)
Record Ambient := { now_id : Z; random : Q; now_created : Z }.

Definition tempComment (a : Ambient) (u : User.t) (postId : Z) (commentText : string)
    : Comment.t :=
  {| Comment.id := Js.add (QArith_base.inject_Z (now_id a)) (random a);
     Comment.post_id := postId;
     Comment.user_id := User.id u;
     Comment.content := commentText;
     Comment.created_at := now_created a / 1000;
     Comment.user := {| author_id := User.id u; author_name := User.name u |} |}.
Arguments tempComment : simpl never.

Definition comment_append (postId : Z) (temp : Comment.t) (post : Post.t) : Post.t :=
  if Post.id post =? postId then
    Post.with_comments post (Post.comments post ++ [temp])%list (Post.comments_count post + 1)
  else post.

Definition comment_confirm (postId : Z) (temp real : Comment.t) (post : Post.t) : Post.t :=
  if Post.id post =? postId then
    Post.with_comments post
      (List.map (fun c => if Comment.same_id (Comment.id c) (Comment.id temp) then real else c)
         (Post.comments post))
      (Post.comments_count post)
  else post.

Definition comment_remove (postId : Z) (temp : Comment.t) (post : Post.t) : Post.t :=
  if Post.id post =? postId then
    Post.with_comments post
      (List.filter (fun c => negb (Comment.same_id (Comment.id c) (Comment.id temp)))
         (Post.comments post))
      (Post.comments_count post - 1)
  else post.

(** [newComment[postId]?.trim()], [None] for [undefined]. *)
Definition commentText (r : State) (postId : Z) : option string :=
  Text.trim <$> (newComment r !! postId).

(** [r] is the render whose [newComment] and [user] the handler closes
    over. *)
Definition handleComment (a : Ambient) (r : State) (postId : Z)
    : Handler.t State CommentResponse :=
  match commentText r postId, user r with
  | Some text, Some u =>
      if String.eqb text "" then Done (fun s => s)
      else
        let temp := tempComment a u postId text in
        Await
          (fun s =>
             setNewComment (<[postId := ""]> (newComment r))
               (setPosts (List.map (comment_append postId temp)) s))
          (createComment postId text)
          (fun o s =>
             match o with
             | Resolved response =>
                 match success response, data response with
                 | true, Some d =>
                     setPosts (List.map (comment_confirm postId temp (comment_of d))) s
                 | _, _ =>
                     setError (Some (Text.or_else (message response) "Failed to add comment"))
                       (setPosts (List.map (comment_remove postId temp)) s)
                 end
             | Threw =>
                 setError (Some "Network error. Please try again.")
                   (setPosts (List.map (comment_remove postId temp)) s)
             end)
  | _, _ => Done (fun s => s)
  end.

(** handleCommentChange *)
Definition handleCommentChange (r : State) (postId : Z) (value : string) (s : State) : State :=
  setNewComment (<[postId := value]> (newComment r)) s.

End Dashboard.

(** ** The post form (PostForm) *)

Module PostForm.
Import Handler.

Record FormData := { content : string; image : string }.

Record State := {
  isOpen : bool;
  isSubmitting : bool;
  selectedFile : option File;
  imagePreview : option string;
  formData : FormData }.

Definition setIsSubmitting (b : bool) (s : State) : State :=
  {| isOpen := isOpen s; isSubmitting := b; selectedFile := selectedFile s;
     imagePreview := imagePreview s; formData := formData s |}.

(** The four setters of the success branch: the form is reset and
    closed. *)
Definition reset (s : State) : State :=
  {| isOpen := false; isSubmitting := isSubmitting s; selectedFile := None;
     imagePreview := None; formData := {| content := ""; image := "" |} |}.

Section Props.
(** The parent's state and the two callbacks it passes down. *)
Variable Parent : Type.
Variable onPostCreated : Parent -> Parent.
Variable onError : string -> Parent -> Parent.

Definition on_form (f : State -> State) (s : State * Parent) : State * Parent :=
  (f (fst s), snd s).

Definition on_parent (f : Parent -> Parent) (s : State * Parent) : State * Parent :=
  (fst s, f (snd s)).

(** [r] is the render whose [formData] and [selectedFile] the handler
    closes over. *)
Definition handleSubmit (r : State) : Handler.t (State * Parent) Post.t :=
  match selectedFile r with
  | Some file =>
      if String.eqb (Text.trim (content (formData r))) "" then
        Done (on_parent (onError "Please fill in all fields and select an image"))
      else
        Await (on_form (setIsSubmitting true))
          (createPostWithFile
             [("content", FormText (content (formData r))); ("image", FormFile file)])
          (fun o s =>
             on_form (setIsSubmitting false)
               match o with
               | Resolved response =>
                   if success response then on_parent onPostCreated (on_form reset s)
                   else on_parent
                          (onError (Text.or_else (message response) "Failed to create post")) s
               | Threw => on_parent (onError "Network error. Please try again.") s
               end)
  | None => Done (on_parent (onError "Please fill in all fields and select an image"))
  end.

End Props.

End PostForm.

(** ** Worked inputs and statement vocabulary *)

Module Sample.

Definition cfg : ApiConfig := API_CONFIG None.
Definition client : ApiClient.t := ApiClient.new cfg.

(** A browser holding the credential "tok" in both places. *)
Definition browser : Browser.State :=
  {| window := true;
     localStorage := {[ "auth_token" := "tok" ]};
     cookies := {[ "auth_token" := "tok" ]} |}.

(** The same, after 120 ms and 150 ms. *)
Definition replies (status : Z) (body : jsval) : FetchCall -> Settle Response :=
  answering 120 150 status body.

(** A network that refuses every connection after 20 ms. *)
Definition refuses : FetchCall -> Settle Response :=
  fun _ => Rejected 20
    (ThrowError {| error_name := "TypeError"; error_message := "Failed to fetch" |}).

(** A network whose response arrives after 50 ms and whose body never
    does. *)
Definition stalls : FetchCall -> Settle Response :=
  fun _ => Fulfilled 50 {| status := 200; json := Pending |}.

(** A network that never answers. *)
Definition silent : FetchCall -> Settle Response := fun _ => Pending.

Definition ann : User.t :=
  {| User.id := 7; User.name := "ann"; User.email := "ann@example.org";
     User.permissions := {| can_like_post := true; can_create_post := true;
                            can_create_comment := true |} |}.

Definition author : Author := {| author_id := 3; author_name := "bob" |}.

(** A comment the server already knows, with id 5. *)
Definition old_comment : Comment.t :=
  {| Comment.id := QArith_base.inject_Z 5; Comment.post_id := 42; Comment.user_id := 3;
     Comment.content := "first"; Comment.created_at := 1700000000;
     Comment.user := author |}.

(** Post 42: not liked, 10 likes, one comment. *)
Definition post42 : Post.t :=
  {| Post.id := 42; Post.user_id := 3; Post.content := "hello";
     Post.image_url := "https://img.example.org/42.png";
     Post.likes_count := 10; Post.comments_count := 1;
     Post.created_at := 1700000000; Post.updated_at := 1700000000;
     Post.user := author; Post.comments := [old_comment]; Post.is_liked := false |}.

Definition post43 : Post.t :=
  {| Post.id := 43; Post.user_id := 7; Post.content := "again";
     Post.image_url := "https://img.example.org/43.png";
     Post.likes_count := 2; Post.comments_count := 0;
     Post.created_at := 1700000100; Post.updated_at := 1700000100;
     Post.user := author; Post.comments := []; Post.is_liked := true |}.

Definition page (current last : Z) : Pagination :=
  {| total := 30; per_page := 10; current_page := current; last_page := last |}.

(** The dashboard showing page [current] of 3, with [typed] in the
    comment box of post 42. *)
Definition dashboard (current : Z) (typed : string) : Dashboard.State :=
  {| Dashboard.user := Some ann;
     Dashboard.isLoading := false;
     Dashboard.isLoggingOut := false;
     Dashboard.posts := [post42; post43];
     Dashboard.newComment := {[ 42 := typed ]};
     Dashboard.isLoadingPosts := false;
     Dashboard.isLoadingMore := false;
     Dashboard.error := None;
     Dashboard.expandedComments := ∅;
     Dashboard.pagination := Some (page current 3);
     Dashboard.hasMorePosts := true;
     Dashboard.scrollY := 0 |}.

Definition feed : Dashboard.State := dashboard 1 "  nice one ".

(** Clock and random values at a submission: the provisional id is
    1700000200000.25. *)
Definition ambient : Dashboard.Ambient :=
  {| Dashboard.now_id := 1700000200000;
     Dashboard.random := QArith_base.Qmake 1 4;
     Dashboard.now_created := 1700000200000 |}.

(** A second submission 400 ms later: provisional id 1700000200400.5. *)
Definition ambient_later : Dashboard.Ambient :=
  {| Dashboard.now_id := 1700000200400;
     Dashboard.random := QArith_base.Qmake 1 2;
     Dashboard.now_created := 1700000200400 |}.

(** The comment the server creates for the submission, with id 6. *)
Definition new_comment : Comment.t :=
  {| Comment.id := QArith_base.inject_Z 6; Comment.post_id := 42; Comment.user_id := 7;
     Comment.content := "nice one"; Comment.created_at := 1700000200;
     Comment.user := {| author_id := 7; author_name := "ann" |} |}.

Definition failure {T} (text : string) : ApiResponse T :=
  {| success := false; data := None; message := Some text; errors := None |}.

Definition success_with {T} (d : T) : ApiResponse T :=
  {| success := true; data := Some d; message := None; errors := None |}.

(** Two like actions on post 42 that overlap: the second is triggered
    from the render that shows the first one's optimistic update, and
    both calls then fail, the first one's failure arriving first. *)
Definition too_many : Handler.Outcome LikeResponse :=
  Handler.Resolved (failure "Too many requests").

Definition first_like := Dashboard.handleLike feed 42.
Definition after_first_click : Dashboard.State := Handler.before first_like feed.
Definition second_like := Dashboard.handleLike after_first_click 42.
Definition after_second_click : Dashboard.State :=
  Handler.before second_like after_first_click.
Definition after_both_failed : Dashboard.State :=
  Handler.after second_like too_many (Handler.after first_like too_many after_second_click).

(** A post form filled in, and one with no file chosen. *)
Definition picture : File :=
  {| file_name := "cat.png"; file_type := "image/png"; file_size := 2048 |}.

Definition form (text : string) (file : option File) : PostForm.State :=
  {| PostForm.isOpen := true; PostForm.isSubmitting := false;
     PostForm.selectedFile := file; PostForm.imagePreview := None;
     PostForm.formData := {| PostForm.content := text; PostForm.image := "" |} |}.

End Sample.

Module Facts.

Definition timeout_envelope : ApiClient.Envelope :=
  {| ApiClient.success := false;
     ApiClient.data := JUndefined;
     ApiClient.message := JStr "Request timeout. Please try again.";
     ApiClient.errors := JUndefined |}.

(** The envelope of a fault: a flag and a text, nothing else. *)
Definition fault_envelope (description : string) : ApiClient.Envelope :=
  {| ApiClient.success := false;
     ApiClient.data := JUndefined;
     ApiClient.message := JStr description;
     ApiClient.errors := JUndefined |}.

(** The network's answer does not reach [fetch] strictly before the
    abort timer of client [c] fires. *)
Definition unanswered (c : ApiClient.t) (answer : Settle Response) : Prop :=
  match answer with
  | Fulfilled t _ | Rejected t _ => (ApiClient.timeout c <= t)%N
  | Pending => True
  end.

(** The response arrived in time but its body never does. *)
Definition body_stalls (c : ApiClient.t) (answer : Settle Response) : Prop :=
  exists t r, answer = Fulfilled t r /\ (t < ApiClient.timeout c)%N /\ json r = Pending.

(** How the result of a transport call relates to what its [try] block
    did: a fault becomes a fault envelope at the same instant, an
    envelope is passed on, and the call stays pending only while the
    body is awaited. *)
Definition captured (c : ApiClient.t) (net : FetchCall -> Settle Response)
    (call : FetchCall) (result : Settle ApiClient.Envelope) : Prop :=
  match ApiClient.attempt c net call with
  | Rejected t e =>
      exists description,
        description <> "" /\ result = Fulfilled t (fault_envelope description)
  | Fulfilled t env => result = Fulfilled t env
  | Pending => result = Pending /\ body_stalls c (net call)
  end.

(** The logout call settled with [success: true]. *)
Definition succeeded (response : Settle ApiClient.Envelope) : bool :=
  match response with
  | Fulfilled _ r => ApiClient.success r
  | Rejected _ _ | Pending => false
  end.

(** The awaited call reported failure or threw. *)
Definition failed {T} (o : Handler.Outcome T) : Prop :=
  match o with
  | Handler.Resolved r => success r = false
  | Handler.Threw => True
  end.

(** The awaited call takes the failure path of [handleComment]: it
    threw, or reported failure, or carried no payload. *)
Definition unconfirmed (o : Handler.Outcome CommentResponse) : Prop :=
  match o with
  | Handler.Resolved r => success r = false \/ data r = None
  | Handler.Threw => True
  end.

(** No comment of a post [postId] of the feed has the id [id]. *)
Definition fresh (id : Q) (postId : Z) (feed : list Post.t) : Prop :=
  forall post c,
    In post feed -> Post.id post = postId -> In c (Post.comments post) ->
    Comment.same_id (Comment.id c) id = false.

(** The posts other than [postId] are the same, at the same places, in
    [feed'] as in [feed]. *)
Definition untouched (postId : Z) (feed feed' : list Post.t) : Prop :=
  length feed' = length feed
  /\ forall (i : nat) (p : Post.t),
       feed !! i = Some p -> Post.id p <> postId -> feed' !! i = Some p.

(** The comment [c] carries the id of the provisional comment [temp]. *)
Definition is_temp (temp c : Comment.t) : bool :=
  Comment.same_id (Comment.id c) (Comment.id temp).

(** How many comments of a list carry the id [id]. *)
Definition occurrences (id : Q) (cs : list Comment.t) : nat :=
  length (List.filter (fun c => Comment.same_id (Comment.id c) id) cs).

(** The posts [postId] of the feed, each with [c] appended to its
    comments and its counter one higher. *)
Definition with_comment (postId : Z) (c : Comment.t) (feed : list Post.t) : list Post.t :=
  List.map
    (fun post =>
       if Post.id post =? postId then
         Post.with_comments post (Post.comments post ++ [c])%list (Post.comments_count post + 1)
       else post)
    feed.

(** The id [handleComment] gives its provisional comment. *)
Definition provisional_id (a : Dashboard.Ambient) : Q :=
  Js.add (QArith_base.inject_Z (Dashboard.now_id a)) (Dashboard.random a).

(** The comment a call outcome confirms, if any, does not carry [id]. *)
Definition confirms_other (o : Handler.Outcome CommentResponse) (id : Q) : Prop :=
  forall r d,
    o = Handler.Resolved r -> data r = Some d ->
    Comment.same_id (Comment.id (comment_of d)) id = false.

(** The one request every [getPosts] call sends. *)
Definition posts_request (c : ApiClient.t) (cfg : ApiConfig) (st : Browser.State)
    : FetchCall :=
  {| url := ApiClient.baseURL c +:+ POSTS (ENDPOINTS cfg);
     method := None;
     body := None;
     headers := ApiClient.authorize st
                  {[ "Content-Type" := "application/json"; "Accept" := "application/json" ]} |}.

End Facts.

(** ** src/middleware.ts: the route guard *)

Module Middleware.

(** What the guard answers: a redirect to [pathname], with the value of the
    [redirect] search parameter when one is set, or [NextResponse.next()]. *)
Inductive Decision : Type :=
| Redirect (pathname : string) (redirect : option string)
| Next.

Definition publicRoutes : list string := ["/login"; "/register"].

Definition protectedRoutes : list string := ["/dashboard"].

(** Truthiness of [request.cookies.get('auth_token')?.value]. *)
Definition present (token : option string) : bool :=
  match token with
  | Some v => negb (String.eqb v "")
  | None => false
  end.

(** export function middleware(request), on the request's pathname and
    its [auth_token] cookie. *)
Definition middleware (pathname : string) (token : option string) : Decision :=
  let isPublicRoute := existsb (String.eqb pathname) publicRoutes in
  let isProtectedRoute := existsb (fun route => String.prefix route pathname) protectedRoutes in
  if isProtectedRoute && negb (present token) then Redirect "/login" (Some pathname)
  else if isPublicRoute && present token then Redirect "/dashboard" None
  else if String.eqb pathname "/" then
    if present token then Redirect "/dashboard" None else Redirect "/login" None
  else Next.

(** The guard as the browser of a session meets it: the cookie is the
    one [setToken] mirrors for it. *)
Definition guard (st : Browser.State) (pathname : string) : Decision :=
  middleware pathname (cookies st !! "auth_token").

End Middleware.

(** ** src/components/SafeImage.tsx *)

Module SafeImage.

(** [s.includes(sub)] *)
Fixpoint includes (sub s : string) : bool :=
  String.prefix sub s
  || match s with
     | EmptyString => false
     | String _ rest => includes sub rest
     end.

(** The props the component reads once the defaults are applied ([alt],
    [width], [height] and [className] are passed through to the image). *)
Record Props := { src : string; fallbackSrc : string; useProxy : bool }.

Definition default_fallback : string :=
  "https://images.unsplash.com/photo-1506905925346-21bda4d32df4?w=600&h=600&fit=crop".

(** The destructuring of the props with its defaults. *)
Definition props (src : string) (fallbackSrc : option string) (useProxy : option bool) : Props :=
  {| src := src;
     fallbackSrc := match fallbackSrc with Some f => f | None => default_fallback end;
     useProxy := match useProxy with Some b => b | None => false end |}.

Record State := { imageSrc : string; hasError : bool }.

(** useState(src), useState(false) *)
Definition initial (p : Props) : State := {| imageSrc := src p; hasError := false |}.

Section Encoding.
(** encodeURIComponent *)
Variable encodeURIComponent : string -> string.

Definition proxied (p : Props) : string :=
  "/api/image-proxy?url=" +:+ encodeURIComponent (src p).

(** [r] is the render whose [hasError] and [imageSrc] the handler closes
    over; both setters are called with values. *)
Definition handleError (p : Props) (r : State) (s : State) : State :=
  if negb (hasError r) then
    if useProxy p && negb (includes "/api/image-proxy" (imageSrc r)) then
      {| imageSrc := proxied p; hasError := true |}
    else
      {| imageSrc := fallbackSrc p; hasError := true |}
  else s.

Definition finalSrc (p : Props) (r : State) : string :=
  if useProxy p && negb (includes "/api/image-proxy" (src p)) then proxied p
  else imageSrc r.

(** The [unoptimized] prop given to the image. *)
Definition unoptimized (p : Props) (r : State) : bool :=
  useProxy p || includes "/api/image-proxy" (finalSrc p r).

(** [n] load errors in a row, each handled by the render that follows
    the previous one. *)
Fixpoint errors (n : nat) (p : Props) (s : State) : State :=
  match n with
  | O => s
  | S n' => errors n' p (handleError p s s)
  end.

End Encoding.

End SafeImage.

(** ** The feed dashboard, continued: rendering conditions, the scroll
    observer, logout and the first load *)

Module Page.
Import Handler.

Definition setExpandedComments (f : gmap Z bool -> gmap Z bool) (s : Dashboard.State)
    : Dashboard.State :=
  {| Dashboard.user := Dashboard.user s; Dashboard.isLoading := Dashboard.isLoading s;
     Dashboard.isLoggingOut := Dashboard.isLoggingOut s; Dashboard.posts := Dashboard.posts s;
     Dashboard.newComment := Dashboard.newComment s;
     Dashboard.isLoadingPosts := Dashboard.isLoadingPosts s;
     Dashboard.isLoadingMore := Dashboard.isLoadingMore s; Dashboard.error := Dashboard.error s;
     Dashboard.expandedComments := f (Dashboard.expandedComments s);
     Dashboard.pagination := Dashboard.pagination s;
     Dashboard.hasMorePosts := Dashboard.hasMorePosts s; Dashboard.scrollY := Dashboard.scrollY s |}.

Definition setIsLoggingOut (b : bool) (s : Dashboard.State) : Dashboard.State :=
  {| Dashboard.user := Dashboard.user s; Dashboard.isLoading := Dashboard.isLoading s;
     Dashboard.isLoggingOut := b; Dashboard.posts := Dashboard.posts s;
     Dashboard.newComment := Dashboard.newComment s;
     Dashboard.isLoadingPosts := Dashboard.isLoadingPosts s;
     Dashboard.isLoadingMore := Dashboard.isLoadingMore s; Dashboard.error := Dashboard.error s;
     Dashboard.expandedComments := Dashboard.expandedComments s;
     Dashboard.pagination := Dashboard.pagination s;
     Dashboard.hasMorePosts := Dashboard.hasMorePosts s; Dashboard.scrollY := Dashboard.scrollY s |}.



(** [expandedComments[postId]] as a condition. *)
Definition expanded (s : Dashboard.State) (postId : Z) : bool :=
  default false (Dashboard.expandedComments s !! postId).

(** toggleComments: [prev => ({ ...prev, [postId]: !prev[postId] })] *)
Definition toggleComments (postId : Z) (s : Dashboard.State) : Dashboard.State :=
  setExpandedComments (fun prev => <[postId := negb (default false (prev !! postId))]> prev) s.

(** [cs.slice(-n)] *)
Definition slice_last {A : Type} (n : nat) (cs : list A) : list A :=
  skipn (length cs - n) cs.

(** The comments rendered under a post:
    [expandedComments[post.id] ? post.comments : post.comments.slice(-2)]. *)
Definition visibleComments (r : Dashboard.State) (post : Post.t) : list Comment.t :=
  if expanded r (Post.id post) then Post.comments post
  else slice_last 2 (Post.comments post).

(** Whether the "View all n comments" / "Hide comments" button is
    rendered: [post.comments.length > 2]. *)
Definition showsToggle (post : Post.t) : bool := (2 <? length (Post.comments post))%nat.

(** The [disabled] attribute of the Post button:
    [!newComment[post.id]?.trim()]. *)
Definition postDisabled (r : Dashboard.State) (postId : Z) : bool :=
  match Dashboard.commentText r postId with
  | Some text => String.eqb text ""
  | None => true
  end.

(** Whether the comment input is rendered at all:
    [user?.permissions.can_create_comment]. *)
Definition showsCommentInput (r : Dashboard.State) : bool :=
  match Dashboard.user r with
  | Some u => can_create_comment (User.permissions u)
  | None => false
  end.

(** The IntersectionObserver callback of render [r], on [entries[0]]. *)
Definition onIntersect (r : Dashboard.State) (isIntersecting : bool)
    : Handler.t Dashboard.State PostsResponse :=
  if isIntersecting && Dashboard.hasMorePosts r && negb (Dashboard.isLoadingMore r)
  then Dashboard.loadMorePosts r
  else Done (fun s => s).

(** The page together with what it reaches outside React: the session
    store and the router ([route] is the last [router.push]). *)
Record World := {
  ui : Dashboard.State;
  store : Browser.State;
  route : option string }.

Definition on_ui (f : Dashboard.State -> Dashboard.State) (w : World) : World :=
  {| ui := f (ui w); store := store w; route := route w |}.

Definition on_store (f : Browser.State -> Browser.State) (w : World) : World :=
  {| ui := ui w; store := f (store w); route := route w |}.

(** router.push(path) *)
Definition push (path : string) (w : World) : World :=
  {| ui := ui w; store := store w; route := Some path |}.

Section Client.
Variables (c : ApiClient.t) (cfg : ApiConfig) (net : FetchCall -> Settle Response).

(** handleLogout of the feed dashboard (and of the later profile page).
    [r] is the render whose [isLoggingOut] the handler closes over,
    [confirmed] the answer to [window.confirm].  While the call has not
    settled the [finally] block has not run. *)
Definition handleLogout (r : Dashboard.State) (confirmed : bool) (w : World) : World :=
  if Dashboard.isLoggingOut r then w
  else if negb confirmed then w
  else
    let w1 := on_ui (setIsLoggingOut true) w in
    match ApiClient.logout c cfg net (store w1) with
    | (Pending, _) => w1
    | (_, st') => push "/login" (on_store (fun _ => ApiClient.removeToken st') w1)
    end.

End Client.




End Page.

(** ** src/app/dashboard/page.tsx, first document: the early profile page *)

Module ProfilePage.

(** handleLogout: [try { await apiClient.logout() } catch {} finally {
    router.push('/') }], on the session store and the router. *)
Definition handleLogout (c : ApiClient.t) (cfg : ApiConfig)
    (net : FetchCall -> Settle Response) (w : Browser.State * option string)
    : Browser.State * option string :=
  match ApiClient.logout c cfg net (fst w) with
  | (Pending, _) => w
  | (_, st') => (st', Some "/")
  end.

End ProfilePage.

(** ** The post form, continued: file choice, text input, submit button *)

Module PostFormFields.

Definition setSelectedFile (f : option File) (s : PostForm.State) : PostForm.State :=
  {| PostForm.isOpen := PostForm.isOpen s; PostForm.isSubmitting := PostForm.isSubmitting s;
     PostForm.selectedFile := f; PostForm.imagePreview := PostForm.imagePreview s;
     PostForm.formData := PostForm.formData s |}.

Definition setImagePreview (p : option string) (s : PostForm.State) : PostForm.State :=
  {| PostForm.isOpen := PostForm.isOpen s; PostForm.isSubmitting := PostForm.isSubmitting s;
     PostForm.selectedFile := PostForm.selectedFile s; PostForm.imagePreview := p;
     PostForm.formData := PostForm.formData s |}.

Definition setFormData (f : PostForm.FormData -> PostForm.FormData) (s : PostForm.State)
    : PostForm.State :=
  {| PostForm.isOpen := PostForm.isOpen s; PostForm.isSubmitting := PostForm.isSubmitting s;
     PostForm.selectedFile := PostForm.selectedFile s;
     PostForm.imagePreview := PostForm.imagePreview s;
     PostForm.formData := f (PostForm.formData s) |}.

(** 10 * 1024 * 1024 *)
Definition maxSize : Z := 10 * 1024 * 1024.

(** [file.type.startsWith('image/')] and not [file.size > 10MB]. *)
Definition acceptable (f : File) : bool :=
  String.prefix "image/" (file_type f) && negb (maxSize <? file_size f).

Section Props.
Variable Parent : Type.
Variable onError : string -> Parent -> Parent.

(** handleFileChange, on [e.target.files?.[0]]; the preview is set later,
    when the reader has loaded the file. *)
Definition handleFileChange (file : option File) (s : PostForm.State * Parent)
    : PostForm.State * Parent :=
  match file with
  | Some f =>
      if negb (String.prefix "image/" (file_type f)) then
        PostForm.on_parent Parent (onError "Please select a valid image file") s
      else if maxSize <? file_size f then
        PostForm.on_parent Parent (onError "Image size must be less than 10MB") s
      else PostForm.on_form Parent (setSelectedFile (Some f)) s
  | None => s
  end.

End Props.

(** reader.onload: [setImagePreview(e.target?.result)] *)
Definition previewLoaded (result : option string) (s : PostForm.State) : PostForm.State :=
  setImagePreview result s.

(** handleInputChange: [prev => ({ ...prev, [name]: value })], for the
    two fields the form data has. *)
Definition handleInputChange (name value : string) (s : PostForm.State) : PostForm.State :=
  setFormData
    (fun prev =>
       if String.eqb name "content" then
         {| PostForm.content := value; PostForm.image := PostForm.image prev |}
       else if String.eqb name "image" then
         {| PostForm.content := PostForm.content prev; PostForm.image := value |}
       else prev)
    s.

(** The [disabled] attribute of the submit button. *)
Definition submitDisabled (r : PostForm.State) : bool :=
  PostForm.isSubmitting r
  || String.eqb (Text.trim (PostForm.content (PostForm.formData r))) ""
  || match PostForm.selectedFile r with Some _ => false | None => true end.

End PostFormFields.

(** ** Vocabulary of the further properties *)

Module Laws.

(** The shape every envelope of the transport has. *)
Definition well_formed (env : ApiClient.Envelope) : Prop :=
  (ApiClient.success env = false ->
   ApiClient.data env = JUndefined /\ Js.truthy (ApiClient.message env) = true)
  /\ (ApiClient.success env = true -> ApiClient.errors env = JUndefined).

(** A client call never rejects, and what it returns is well formed. *)
Definition dependable (result : Settle ApiClient.Envelope) : Prop :=
  match result with
  | Fulfilled _ env => well_formed env
  | Rejected _ _ => False
  | Pending => True
  end.

(** Local storage and the cookie jar hold the same credential, or none. *)
Definition mirrored (st : Browser.State) : Prop :=
  localStorage st !! "auth_token" = cookies st !! "auth_token".

(** What a page can do to the session store. *)
Inductive StoreOp : Type :=
| SetToken (token : string)
| RemoveToken
| Logout (net : FetchCall -> Settle Response).

Definition apply (c : ApiClient.t) (cfg : ApiConfig) (st : Browser.State) (op : StoreOp)
    : Browser.State :=
  match op with
  | SetToken token => ApiClient.setToken token st
  | RemoveToken => ApiClient.removeToken st
  | Logout net => snd (ApiClient.logout c cfg net st)
  end.

(** A series of like clicks on one post, each handled by the render that
    shows the result of the previous one and each settled, with the given
    outcome, before the next click. *)
Definition like_clicks (postId : Z) (outcomes : list (Handler.Outcome LikeResponse))
    (s : Dashboard.State) : Dashboard.State :=
  fold_left (fun s o => Handler.run (Dashboard.handleLike s postId) o s) outcomes s.

(** The call reported success. *)
Definition succeeded {T} (o : Handler.Outcome T) : Prop :=
  match o with
  | Handler.Resolved r => success r = true
  | Handler.Threw => False
  end.

(** The awaited [getPosts] takes the failure path: it threw, reported
    failure, or carried no payload. *)
Definition unloaded (o : Handler.Outcome PostsResponse) : Prop :=
  match o with
  | Handler.Resolved r => success r = false \/ data r = None
  | Handler.Threw => True
  end.

(** What the failure path of a posts fetch shows. *)
Definition shown_error (fallback : string) (o : Handler.Outcome PostsResponse) : string :=
  match o with
  | Handler.Resolved r => Text.or_else (message r) fallback
  | Handler.Threw => "Network error. Please try again."
  end.

(** The cursor of the feed. *)
Definition cursor (s : Dashboard.State) : list Post.t * option Pagination * bool :=
  (Dashboard.posts s, Dashboard.pagination s, Dashboard.hasMorePosts s).

(** Every file the form holds passed the checks of the file input. *)
Definition holds_valid_file (s : PostForm.State) : Prop :=
  match PostForm.selectedFile s with
  | Some f => PostFormFields.acceptable f = true
  | None => True
  end.

(** A decoded body that is a payload by itself: an array, a string, a
    number or a boolean. *)
Definition bare (body : jsval) : Prop :=
  match body with
  | JBool _ | JNum _ | JStr _ | JArr _ => True
  | JUndefined | JNull | JObj _ => False
  end.


(** What a call does in a browser [h], by what reading the token does
    there: it rejects with the exception of the read, at once, or it is
    dependable. *)
Definition rejects_on_denial (h : Host.t) (result : Settle ApiClient.Envelope) : Prop :=
  match Host.getToken h with
  | inl e => result = Rejected 0 (ThrowError e)
  | inr _ => dependable result
  end.

End Laws.

(** ** Scenarios *)

Module Cases.

(** The like state of a feed: id, [is_liked] and [likes_count] of each
    post, in order. *)
Definition likes (s : Dashboard.State) : list (Z * bool * Z) :=
  List.map (fun p => (Post.id p, Post.is_liked p, Post.likes_count p)) (Dashboard.posts s).

(** The comments of the first post [postId] of the feed: their contents,
    and the post's counter. *)
Definition thread (s : Dashboard.State) (postId : Z) : option (list string * Z) :=
  (fun p => (List.map Comment.content (Post.comments p), Post.comments_count p))
    <$> List.find (fun p => Post.id p =? postId) (Dashboard.posts s).

(** How many comments of the first post [postId] carry the id [id]. *)
Definition carrying (s : Dashboard.State) (postId : Z) (id : Q) : option nat :=
  (fun p => Facts.occurrences id (Post.comments p))
    <$> List.find (fun p => Post.id p =? postId) (Dashboard.posts s).

(** Post 43 as the server has it a little later: a third like. *)
Definition post43_later : Post.t :=
  {| Post.id := 43; Post.user_id := 7; Post.content := "again";
     Post.image_url := "https://img.example.org/43.png";
     Post.likes_count := 3; Post.comments_count := 0;
     Post.created_at := 1700000100; Post.updated_at := 1700000100;
     Post.user := Sample.author; Post.comments := []; Post.is_liked := true |}.

(** The answer to the load-more request: [getPosts] sends no page
    number, so the server answers with the first page again. *)
Definition first_page_again : Handler.Outcome PostsResponse :=
  Handler.Resolved
    (Sample.success_with
       {| posts_of := [Sample.post42; post43_later];
          pagination_of := Sample.page 1 3 |}).

(** The feed after one load-more. *)
Definition doubled : Dashboard.State :=
  Handler.run (Dashboard.loadMorePosts Sample.feed) first_page_again Sample.feed.

(** A click on the heart of post 43 in that feed. *)
Definition unlike43 : Handler.t Dashboard.State LikeResponse :=
  Dashboard.handleLike doubled 43.

(** A second submission in the millisecond of [Sample.ambient], with
    another random number: 0.25 + 2^-20. *)
Definition twin : Dashboard.Ambient :=
  {| Dashboard.now_id := 1700000200000;
     Dashboard.random := QArith_base.Qmake 262145 1048576;
     Dashboard.now_created := 1700000200000 |}.

(** Two submissions for post 42 from the same render. *)
Definition first_comment : Handler.t Dashboard.State CommentResponse :=
  Dashboard.handleComment Sample.ambient Sample.feed 42.
Definition second_comment : Handler.t Dashboard.State CommentResponse :=
  Dashboard.handleComment twin Sample.feed 42.
Definition one_pending : Dashboard.State := Handler.before first_comment Sample.feed.
Definition two_pending : Dashboard.State := Handler.before second_comment one_pending.

Definition SecurityError : Error :=
  {| error_name := "SecurityError"; error_message := "The operation is insecure." |}.

(** A page that is denied its storage. *)
Definition locked : Host.t :=
  {| Host.store := Sample.browser; Host.denied := Some SecurityError |}.

End Cases.

(** * Properties *)

(** ** The transport *)

Section Transport.
Variables (c : ApiClient.t) (net : FetchCall -> Settle Response).

Lemma fetch_answered (t : N) (r : Response) :
  (t < ApiClient.timeout c)%N ->
  fetch (Fulfilled t r) (ApiClient.timeout c) = Fulfilled t r.
Proof.
  intros Ht. unfold fetch.
  destruct (N.ltb_spec t (ApiClient.timeout c)) as [_ | Hge]; [reflexivity | lia].
Qed.

Lemma fetch_unanswered (answer : Settle Response) :
  Facts.unanswered c answer ->
  fetch answer (ApiClient.timeout c)
  = Rejected (ApiClient.timeout c) (ThrowError AbortError).
Proof.
  destruct answer as [t r | t e |]; simpl; intros H; try reflexivity;
    destruct (N.ltb_spec t (ApiClient.timeout c)); (reflexivity || lia).
Qed.

(** A response with an object body, arrived in time: the envelope of the
    [try] block. *)
Lemma attempt_object (call : FetchCall) (t t' : N) (status : Z)
    (fields : list (string * jsval)) :
  (t < ApiClient.timeout c)%N ->
  net call = Fulfilled t {| status := status; json := Fulfilled t' (JObj fields) |} ->
  ApiClient.attempt c net call
  = Fulfilled t'
      (if ok {| status := status; json := Fulfilled t' (JObj fields) |} then
         {| ApiClient.success := true;
            ApiClient.data := Js.or (Js.assoc "data" fields) (JObj fields);
            ApiClient.message := Js.assoc "message" fields;
            ApiClient.errors := JUndefined |}
       else
         {| ApiClient.success := false;
            ApiClient.data := JUndefined;
            ApiClient.message := Js.or (Js.assoc "message" fields) (JStr "An error occurred");
            ApiClient.errors := Js.assoc "errors" fields |}).
Proof.
  intros Ht Hnet. unfold ApiClient.attempt. rewrite Hnet, (fetch_answered _ _ Ht).
  simpl. destruct (ok _); reflexivity.
Qed.

Lemma on_error_is_fault (e : Thrown) :
  exists description,
    description <> "" /\ ApiClient.on_error e = Facts.fault_envelope description.
Proof.
  destruct e as [[name msg] | v]; simpl.
  - destruct (String.eqb name "AbortError").
    + eexists; split; [| reflexivity]. discriminate.
    + unfold Js.or; simpl. destruct msg as [| a msg']; simpl.
      * eexists; split; [| reflexivity]. discriminate.
      * eexists; split; [| reflexivity]. discriminate.
  - eexists; split; [| reflexivity]. discriminate.
Qed.

Lemma attempt_pending (call : FetchCall) :
  ApiClient.attempt c net call = Pending -> Facts.body_stalls c (net call).
Proof.
  unfold ApiClient.attempt, Facts.body_stalls, fetch.
  destruct (net call) as [t r | t e |]; simpl; try discriminate.
  - destruct (N.ltb_spec t (ApiClient.timeout c)) as [Hlt | Hge]; simpl; try discriminate.
    destruct (json r) as [t' body | t' e |] eqn:Hjson; simpl.
    + destruct (negb (ok r)); destruct body; simpl; discriminate.
    + discriminate.
    + intros _. exists t, r. auto.
  - destruct (t <? ApiClient.timeout c)%N; discriminate.
Qed.

Lemma try_catch_captured (call : FetchCall) :
  Facts.captured c net call (try_catch (ApiClient.attempt c net call) ApiClient.on_error).
Proof.
  unfold Facts.captured.
  destruct (ApiClient.attempt c net call) as [t env | t e |] eqn:Hattempt; simpl.
  - reflexivity.
  - destruct (on_error_is_fault e) as (d & Hd & ->). eauto.
  - split; [reflexivity | apply attempt_pending; assumption].
Qed.

Lemma try_catch_never_rejects (call : FetchCall) (t : N) (e : Thrown) :
  try_catch (ApiClient.attempt c net call) ApiClient.on_error <> Rejected t e.
Proof. destruct (ApiClient.attempt c net call); simpl; discriminate. Qed.

Lemma try_catch_settles (call : FetchCall) :
  ~ Facts.body_stalls c (net call) ->
  exists t env,
    try_catch (ApiClient.attempt c net call) ApiClient.on_error = Fulfilled t env.
Proof.
  intros Hbody.
  destruct (ApiClient.attempt c net call) as [t env | t e |] eqn:Hattempt; simpl; eauto.
  exfalso. apply Hbody. apply attempt_pending. assumption.
Qed.

Lemma attempt_unanswered (call : FetchCall) :
  Facts.unanswered c (net call) ->
  try_catch (ApiClient.attempt c net call) ApiClient.on_error
  = Fulfilled (ApiClient.timeout c) Facts.timeout_envelope.
Proof.
  intros H. unfold ApiClient.attempt. rewrite (fetch_unanswered _ H). reflexivity.
Qed.

Lemma or_truthy (a b : jsval) : Js.truthy b = true -> Js.truthy (Js.or a b) = true.
Proof. intros Hb. unfold Js.or. destruct (Js.truthy a) eqn:Ha; assumption. Qed.

Lemma on_error_truthy (e : Thrown) :
  Js.truthy (ApiClient.message (ApiClient.on_error e)) = true.
Proof.
  destruct (on_error_is_fault e) as (d & Hd & ->). simpl.
  destruct d; [contradiction | reflexivity].
Qed.

(** A failure envelope always carries a truthy message, so a caller's
    [response.message || fallback] shows the envelope's message. *)
Lemma failure_has_message (call : FetchCall) (t : N) (env : ApiClient.Envelope) :
  try_catch (ApiClient.attempt c net call) ApiClient.on_error = Fulfilled t env ->
  ApiClient.success env = false ->
  Js.truthy (ApiClient.message env) = true.
Proof.
  unfold ApiClient.attempt.
  destruct (fetch (net call) (ApiClient.timeout c)) as [t0 response | t0 e |];
    [| intros [= _ <-] _; exact (on_error_truthy e) | discriminate].
  cbn [await try_catch].
  destruct (json response) as [t1 body | t1 e |];
    [| intros [= _ <-] _; exact (on_error_truthy e) | discriminate].
  cbn [await].
  destruct (negb (ok response)).
  - destruct (get body "message") as [e | m];
      [intros [= _ <-] _; exact (on_error_truthy (ThrowError e)) |].
    destruct (get body "errors") as [e | errs];
      [intros [= _ <-] _; exact (on_error_truthy (ThrowError e)) |].
    intros [= _ <-] _. cbn. apply or_truthy. reflexivity.
  - destruct (get body "data") as [e | d];
      [intros [= _ <-] _; exact (on_error_truthy (ThrowError e)) |].
    destruct (get body "message") as [e | m];
      [intros [= _ <-] _; exact (on_error_truthy (ThrowError e)) |].
    intros [= _ <-]. cbn. discriminate.
Qed.

End Transport.

(** Sanity checks of the transport on the outcomes a network can have. *)

Example request_connection_refused :
  ApiClient.request Sample.client Sample.browser Sample.refuses "/me" ApiClient.no_options
  = Fulfilled 20 (Facts.fault_envelope "Failed to fetch").
Proof. reflexivity. Qed.

Example request_malformed_body :
  ApiClient.request Sample.client Sample.browser
    (fun _ => Fulfilled 120
       {| status := 200;
          json := Rejected 130
            (ThrowError {| error_name := "SyntaxError";
                           error_message := "Unexpected token < in JSON" |}) |})
    "/me" ApiClient.no_options
  = Fulfilled 130 (Facts.fault_envelope "Unexpected token < in JSON").
Proof. reflexivity. Qed.

Example request_null_body :
  ApiClient.request Sample.client Sample.browser (Sample.replies 200 JNull)
    "/me" ApiClient.no_options
  = Fulfilled 150 (Facts.fault_envelope "Cannot read properties of null (reading 'data')").
Proof. reflexivity. Qed.

Example request_non_error_throw :
  ApiClient.request Sample.client Sample.browser
    (fun _ => Rejected 5 (ThrowOther (JStr "boom"))) "/me" ApiClient.no_options
  = Fulfilled 5 (Facts.fault_envelope "An unexpected error occurred").
Proof. reflexivity. Qed.

Example request_sends_bearer :
  headers (ApiClient.request_call Sample.client Sample.browser "/me" ApiClient.no_options)
    !! "Authorization" = Some "Bearer tok".
Proof. reflexivity. Qed.

(** C3, as the code has it.  A response that arrives in time with status
    200 and body [{data: X}] yields [{success: true, data: X}] when [X] is
    truthy, and the whole body as [data] when [X] is falsy; with status 422
    and body [{message: M, errors: E}] it yields [{success: false, message:
    M, errors: E}] when [M] is truthy, and the message "An error occurred"
    when [M] is falsy. *)
Theorem request_envelope_of_response (c : ApiClient.t) (st : Browser.State)
    (endpoint : string) (options : ApiClient.RequestInit) (t t' : N) (X M E : jsval) :
  (t < ApiClient.timeout c)%N ->
  ApiClient.request c st (answering t t' 200 (JObj [("data", X)])) endpoint options
  = Fulfilled t'
      {| ApiClient.success := true;
         ApiClient.data := if Js.truthy X then X else JObj [("data", X)];
         ApiClient.message := JUndefined;
         ApiClient.errors := JUndefined |}
  /\
  ApiClient.request c st
    (answering t t' 422 (JObj [("message", M); ("errors", E)])) endpoint options
  = Fulfilled t'
      {| ApiClient.success := false;
         ApiClient.data := JUndefined;
         ApiClient.message := if Js.truthy M then M else JStr "An error occurred";
         ApiClient.errors := E |}.
Proof.
  intros Ht. split; unfold ApiClient.request.
  - rewrite (attempt_object c _ _ t t' 200 [("data", X)] Ht eq_refl). reflexivity.
  - rewrite (attempt_object c _ _ t t' 422 [("message", M); ("errors", E)] Ht eq_refl).
    reflexivity.
Qed.

Lemma request_envelope_of_response_witness :
  ApiClient.request Sample.client Sample.browser
    (answering 120 150 200 (JObj [("data", JStr "payload")]))
    "/me" ApiClient.no_options
  = Fulfilled 150
      {| ApiClient.success := true;
         ApiClient.data := JStr "payload";
         ApiClient.message := JUndefined;
         ApiClient.errors := JUndefined |}.
Proof.
  apply (proj1 (request_envelope_of_response Sample.client Sample.browser "/me"
                  ApiClient.no_options 120 150 (JStr "payload") JNull JNull eq_refl)).
Defined.

(** C3 as stated fails: the 200 body [{data: false}] does not yield
    [data: false] but the whole body. *)
Lemma request_falsy_data_keeps_body :
  ApiClient.request Sample.client Sample.browser
    (Sample.replies 200 (JObj [("data", JBool false)])) "/me" ApiClient.no_options
  = Fulfilled 150
      {| ApiClient.success := true;
         ApiClient.data := JObj [("data", JBool false)];
         ApiClient.message := JUndefined;
         ApiClient.errors := JUndefined |}
  /\ JObj [("data", JBool false)] <> JBool false.
Proof. split; [reflexivity | discriminate]. Qed.

(** The budget is 10,000 ms.  When the network's answer has not reached
    [fetch] by the time the abort timer fires, the request is aborted and
    both transport calls return exactly the timeout envelope at that
    instant, whatever the network would have delivered later; a [logout]
    waiting on such a call leaves the stored credential as it was. *)
Theorem request_times_out (env : option string) (st : Browser.State)
    (net : FetchCall -> Settle Response) (endpoint : string)
    (options : ApiClient.RequestInit) (formData : list (string * FormValue)) :
  let cfg := API_CONFIG env in
  let c := ApiClient.new cfg in
  (forall call, Facts.unanswered c (net call)) ->
  ApiClient.timeout c = 10000%N
  /\ ApiClient.request c st net endpoint options = Fulfilled 10000 Facts.timeout_envelope
  /\ ApiClient.createPostWithFile c cfg st net formData
     = Fulfilled 10000 Facts.timeout_envelope
  /\ ApiClient.logout c cfg net st = (Fulfilled 10000 Facts.timeout_envelope, st).
Proof.
  intros cfg c Hlate. split; [reflexivity |].
  assert (Hreq : forall ep opts,
             ApiClient.request c st net ep opts = Fulfilled 10000 Facts.timeout_envelope).
  { intros ep opts. unfold ApiClient.request.
    rewrite (attempt_unanswered c net _ (Hlate _)). reflexivity. }
  split; [apply Hreq |]. split.
  - unfold ApiClient.createPostWithFile.
    rewrite (attempt_unanswered c net _ (Hlate _)). reflexivity.
  - unfold ApiClient.logout. rewrite Hreq. reflexivity.
Qed.

Lemma request_times_out_witness :
  ApiClient.request Sample.client Sample.browser Sample.silent "/me" ApiClient.no_options
  = Fulfilled 10000 Facts.timeout_envelope
  /\ ApiClient.logout Sample.client Sample.cfg Sample.silent Sample.browser
     = (Fulfilled 10000 Facts.timeout_envelope, Sample.browser).
Proof.
  pose proof (request_times_out None Sample.browser Sample.silent "/me"
                ApiClient.no_options [] (fun _ => I)) as (_ & Hreq & _ & Hout).
  exact (conj Hreq Hout).
Defined.

(** C4 on the code.  The abort timer is cleared as soon as [fetch]
    resolves, before the body is read.  So when the response arrives
    after 50 ms, whatever its status, and its body never finishes, the
    request is not settled within the budget and yet it is never aborted:
    [request], [createPostWithFile] and a [logout] waiting on the request
    stay unsettled for ever, and no timeout envelope is returned. *)
Theorem request_body_stall_never_settles (env : option string) (st : Browser.State)
    (endpoint : string) (options : ApiClient.RequestInit)
    (formData : list (string * FormValue)) (status : Z) :
  let cfg := API_CONFIG env in
  let c := ApiClient.new cfg in
  let net : FetchCall -> Settle Response :=
    fun _ => Fulfilled 50 {| status := status; json := Pending |} in
  ApiClient.timeout c = 10000%N
  /\ ApiClient.request c st net endpoint options = Pending
  /\ ApiClient.createPostWithFile c cfg st net formData = Pending
  /\ ApiClient.logout c cfg net st = (Pending, st)
  /\ ApiClient.request c st net endpoint options <> Fulfilled 10000 Facts.timeout_envelope
  /\ ApiClient.request Sample.client Sample.browser Sample.stalls "/me" ApiClient.no_options
     = Pending.
Proof.
  intros cfg c net.
  split; [reflexivity |]. split; [reflexivity |]. split; [reflexivity |].
  split; [reflexivity |]. split; [discriminate | reflexivity].
Qed.

(** From the token read on, neither [request] nor [createPostWithFile]
    rejects.  Whatever the [try] block throws (a failed connection, a body that is not JSON,
    an abort, a property read on a [null] body, a thrown non-Error) comes
    back as [{success: false, message: description}] with a non-empty text
    and no other field; an envelope built from a response is returned as
    it is; and the call returns an envelope unless a response arrived in
    time whose body never does. *)
Theorem transport_captures_faults (c : ApiClient.t) (cfg : ApiConfig) (st : Browser.State)
    (net : FetchCall -> Settle Response) (endpoint : string)
    (options : ApiClient.RequestInit) (formData : list (string * FormValue)) :
  let sent := ApiClient.request_call c st endpoint options in
  let uploaded := ApiClient.createPostWithFile_call c cfg st formData in
  (forall t e, ApiClient.request c st net endpoint options <> Rejected t e)
  /\ (forall t e, ApiClient.createPostWithFile c cfg st net formData <> Rejected t e)
  /\ Facts.captured c net sent (ApiClient.request c st net endpoint options)
  /\ Facts.captured c net uploaded (ApiClient.createPostWithFile c cfg st net formData)
  /\ (~ Facts.body_stalls c (net sent) ->
      exists t env, ApiClient.request c st net endpoint options = Fulfilled t env)
  /\ (~ Facts.body_stalls c (net uploaded) ->
      exists t env, ApiClient.createPostWithFile c cfg st net formData = Fulfilled t env).
Proof.
  intros sent uploaded.
  split; [intros t e; apply try_catch_never_rejects |].
  split; [intros t e; apply try_catch_never_rejects |].
  split; [apply try_catch_captured |].
  split; [apply try_catch_captured |].
  split; apply try_catch_settles.
Qed.

(** C5 on the code.  [request] and [createPostWithFile] read the token
    before their [try] block.  In a page whose local storage throws when
    it is touched, the exception [e] of that read is not caught: both
    calls, and a [logout] awaiting the request, reject with [e] at once,
    whatever the endpoint, the options and the network, and no envelope is
    returned.  A page denied its storage gets a SecurityError this way
    from [getProfile]'s request.  And in a page that may read its storage,
    a response whose body never finishes leaves the call without an
    envelope for ever. *)
Theorem request_rejects_when_storage_throws (c : ApiClient.t) (cfg : ApiConfig)
    (net : FetchCall -> Settle Response) (endpoint : string)
    (options : ApiClient.RequestInit) (formData : list (string * FormValue))
    (e : Error) (stored cookie : gmap string string) :
  let h := {| Host.store := {| window := true; localStorage := stored; cookies := cookie |};
              Host.denied := Some e |} in
  Host.getToken h = inl e
  /\ Host.request c h net endpoint options = Rejected 0 (ThrowError e)
  /\ Host.createPostWithFile c cfg h net formData = Rejected 0 (ThrowError e)
  /\ Host.logout c cfg net h = (Rejected 0 (ThrowError e), Host.store h)
  /\ Host.request Sample.client Cases.locked (Sample.replies 200 (JObj [])) "/me"
       ApiClient.no_options
     = Rejected 0 (ThrowError Cases.SecurityError)
  /\ Host.request Sample.client {| Host.store := Sample.browser; Host.denied := None |}
       Sample.stalls "/me" ApiClient.no_options
     = Pending.
Proof.
  intros h.
  split; [reflexivity |]. split; [reflexivity |]. split; [reflexivity |].
  split; [reflexivity |]. split; reflexivity.
Qed.

(** ** The session store *)

Lemma getToken_removeToken (st : Browser.State) :
  ApiClient.getToken (ApiClient.removeToken st) = None.
Proof.
  unfold ApiClient.getToken, ApiClient.removeToken.
  destruct (window st) eqn:Hw; simpl; rewrite ?Hw; [apply lookup_delete_eq | reflexivity].
Qed.

Lemma removeToken_clears_both (st : Browser.State) :
  window st = true ->
  localStorage (ApiClient.removeToken st) !! "auth_token" = None
  /\ cookies (ApiClient.removeToken st) !! "auth_token" = None.
Proof.
  intros Hw. unfold ApiClient.removeToken. rewrite Hw. simpl.
  split; apply lookup_delete_eq.
Qed.

Lemma removeToken_idempotent (st : Browser.State) :
  ApiClient.removeToken (ApiClient.removeToken st) = ApiClient.removeToken st.
Proof.
  unfold ApiClient.removeToken. destruct (window st) eqn:Hw; simpl; rewrite ?Hw; [| reflexivity].
  f_equal; apply delete_delete_eq.
Qed.

Lemma octet_not_semicolon (a : ascii) :
  Browser.is_cookie_octet a = true -> Ascii.eqb a ";" = false.
Proof.
  intros Ha. destruct (Ascii.eqb_spec a ";") as [-> |]; [discriminate Ha | reflexivity].
Qed.

Lemma octet_not_blank (a : ascii) :
  Browser.is_cookie_octet a = true -> Browser.is_blank a = false.
Proof.
  intros Ha. unfold Browser.is_blank.
  destruct (Ascii.eqb_spec a " ") as [-> |]; [discriminate Ha |].
  destruct (Ascii.eqb_spec a "009") as [-> |]; [discriminate Ha | reflexivity].
Qed.

Lemma octets_before_semicolon (s : string) :
  Browser.cookie_octets s = true -> Browser.before_semicolon s = s.
Proof.
  induction s as [| a s IH]; simpl; [reflexivity |].
  intros H. apply andb_true_iff in H as [Ha Hs].
  rewrite (octet_not_semicolon a Ha), (IH Hs). reflexivity.
Qed.

Lemma octets_drop_blanks (s : string) :
  Browser.cookie_octets s = true -> Browser.drop_blanks s = s.
Proof.
  destruct s as [| a s]; simpl; [reflexivity |].
  intros H. apply andb_true_iff in H as [Ha _].
  rewrite (octet_not_blank a Ha). reflexivity.
Qed.

Lemma octets_drop_blanks_end (s : string) :
  Browser.cookie_octets s = true -> Browser.drop_blanks_end s = s.
Proof.
  induction s as [| a s IH]; simpl; [reflexivity |].
  intros H. apply andb_true_iff in H as [Ha Hs].
  rewrite (IH Hs), (octet_not_blank a Ha). destruct s; reflexivity.
Qed.

(** A plain token is the value of the cookie written for it. *)
Lemma plain_cookie_value (token : string) :
  Browser.plain token = true -> Browser.cookie_value token = token.
Proof.
  unfold Browser.plain, Browser.cookie_value. intros H.
  apply andb_true_iff in H as [H _].
  rewrite (octets_before_semicolon token H), (octets_drop_blanks token H).
  apply octets_drop_blanks_end, H.
Qed.

Lemma setToken_getToken (st : Browser.State) (token : string) :
  window st = true ->
  ApiClient.getToken (ApiClient.setToken token st) = Some token
  /\ cookies (ApiClient.setToken token st) !! "auth_token"
     = Some (Browser.cookie_value token).
Proof.
  intros Hw. unfold ApiClient.getToken, ApiClient.setToken. rewrite Hw. simpl.
  split; apply lookup_insert_eq.
Qed.

(** C8.  [logout] removes the stored credential exactly when the remote
    call settles with [success: true]: then neither local storage nor the
    cookie jar holds it any more; in every other case (a failure envelope,
    or a call that does not settle) the browser state is left as it was.
    So a credential that was present is gone afterwards if and only if the
    remote call succeeded. *)
Theorem logout_clears_iff_success (c : ApiClient.t) (cfg : ApiConfig)
    (net : FetchCall -> Settle Response) (st : Browser.State) :
  let response := fst (ApiClient.logout c cfg net st) in
  let st' := snd (ApiClient.logout c cfg net st) in
  response = ApiClient.request c st net (LOGOUT (ENDPOINTS cfg)) (ApiClient.with_method "POST")
  /\ (Facts.succeeded response = true ->
      ApiClient.getToken st' = None
      /\ (window st = true ->
          localStorage st' !! "auth_token" = None /\ cookies st' !! "auth_token" = None))
  /\ (Facts.succeeded response = false -> st' = st)
  /\ (forall token, ApiClient.getToken st = Some token ->
      (ApiClient.getToken st' = None <-> Facts.succeeded response = true)).
Proof.
  cbv zeta. unfold ApiClient.logout.
  destruct (ApiClient.request c st net (LOGOUT (ENDPOINTS cfg)) (ApiClient.with_method "POST"))
    as [t r | t e |]; simpl.
  - destruct (ApiClient.success r); simpl; repeat split; try discriminate; try reflexivity.
    + apply getToken_removeToken.
    + apply removeToken_clears_both; assumption.
    + apply removeToken_clears_both; assumption.
    + intros _. apply getToken_removeToken.
    + intros H'. congruence.
  - repeat split; try discriminate; try reflexivity. intros H'. congruence.
  - repeat split; try discriminate; try reflexivity. intros H'. congruence.
Qed.

Example logout_success_clears :
  ApiClient.logout Sample.client Sample.cfg
    (Sample.replies 200 (JObj [("message", JStr "Logged out")])) Sample.browser
  = (Fulfilled 150
       {| ApiClient.success := true;
          ApiClient.data := JObj [("message", JStr "Logged out")];
          ApiClient.message := JStr "Logged out";
          ApiClient.errors := JUndefined |},
     {| window := true; localStorage := ∅; cookies := ∅ |}).
Proof. reflexivity. Qed.

Example logout_failure_keeps :
  ApiClient.logout Sample.client Sample.cfg
    (Sample.replies 401 (JObj [("message", JStr "Unauthenticated.")])) Sample.browser
  = (Fulfilled 150
       {| ApiClient.success := false;
          ApiClient.data := JUndefined;
          ApiClient.message := JStr "Unauthenticated.";
          ApiClient.errors := JUndefined |},
     Sample.browser).
Proof. reflexivity. Qed.

(** ** The dashboard's handlers *)

Section Feed.
Import Dashboard.

Lemma lookup_map {A B : Type} (f : A -> B) (l : list A) (i : nat) :
  List.map f l !! i = f <$> (l !! i).
Proof.
  revert i. induction l as [| a l IH]; intros [| i]; simpl; auto.
Qed.

Lemma with_like_same (p : Post.t) :
  Post.with_like p (Post.is_liked p) (Post.likes_count p) = p.
Proof. destruct p; reflexivity. Qed.

Lemma with_comments_same (p : Post.t) :
  Post.with_comments p (Post.comments p) (Post.comments_count p) = p.
Proof. destruct p; reflexivity. Qed.

(** A map that changes only posts [postId], and never their id, leaves
    the others where they are. *)
Lemma untouched_map (postId : Z) (f : Post.t -> Post.t) (feed : list Post.t) :
  (forall p, Post.id p <> postId -> f p = p) ->
  Facts.untouched postId feed (List.map f feed).
Proof.
  intros Hf. split; [apply length_map |].
  intros i p Hi Hp. rewrite lookup_map, Hi. simpl. f_equal. auto.
Qed.

Lemma untouched_refl (postId : Z) (feed : list Post.t) : Facts.untouched postId feed feed.
Proof. split; auto. Qed.

Lemma other_post (postId : Z) (p : Post.t) :
  Post.id p <> postId -> (Post.id p =? postId) = false.
Proof. intros H. apply Z.eqb_neq. assumption. Qed.

Lemma like_toggle_other postId p : Post.id p <> postId -> like_toggle postId p = p.
Proof. intros H. unfold like_toggle. rewrite (other_post _ _ H). reflexivity. Qed.

Lemma like_revert_other postId post p :
  Post.id p <> postId -> like_revert postId post p = p.
Proof. intros H. unfold like_revert. rewrite (other_post _ _ H). reflexivity. Qed.

Lemma comment_append_other postId temp p :
  Post.id p <> postId -> comment_append postId temp p = p.
Proof. intros H. unfold comment_append. rewrite (other_post _ _ H). reflexivity. Qed.

Lemma comment_confirm_other postId temp real p :
  Post.id p <> postId -> comment_confirm postId temp real p = p.
Proof. intros H. unfold comment_confirm. rewrite (other_post _ _ H). reflexivity. Qed.

Lemma comment_remove_other postId temp p :
  Post.id p <> postId -> comment_remove postId temp p = p.
Proof. intros H. unfold comment_remove. rewrite (other_post _ _ H). reflexivity. Qed.

(** In a feed without duplicate ids, [find] by id returns the post that
    is there under that id. *)
Lemma find_by_id (feed : list Post.t) (post : Post.t) :
  List.NoDup (List.map Post.id feed) -> In post feed ->
  List.find (fun p => Post.id p =? Post.id post) feed = Some post.
Proof.
  induction feed as [| q feed IH]; simpl; intros Hnd Hin; [contradiction |].
  apply List.NoDup_cons_iff in Hnd as [Hq Hnd].
  destruct Hin as [-> | Hin].
  - rewrite Z.eqb_refl. reflexivity.
  - destruct (Z.eqb_spec (Post.id q) (Post.id post)) as [Heq | Hne].
    + exfalso. apply Hq. rewrite Heq. apply in_map. assumption.
    + auto.
Qed.

Lemma same_id_unique (feed : list Post.t) (p q : Post.t) :
  List.NoDup (List.map Post.id feed) -> In p feed -> In q feed ->
  Post.id p = Post.id q -> p = q.
Proof.
  intros Hnd Hp Hq Heq.
  pose proof (find_by_id feed p Hnd Hp) as H1.
  pose proof (find_by_id feed q Hnd Hq) as H2.
  rewrite Heq in H1. congruence.
Qed.

(** Toggling and then writing back the fields of the post found restores
    a feed in which that post is the only one with its id. *)
Lemma revert_after_toggle (feed : list Post.t) (post : Post.t) :
  List.NoDup (List.map Post.id feed) -> In post feed ->
  List.map (like_revert (Post.id post) post) (List.map (like_toggle (Post.id post)) feed)
  = feed.
Proof.
  intros Hnd Hin. rewrite List.map_map.
  rewrite <- (List.map_id feed) at 2. apply List.map_ext_in.
  intros p Hp. unfold like_revert, like_toggle.
  destruct (Z.eqb_spec (Post.id p) (Post.id post)) as [Heq | Hne]; simpl.
  - rewrite Heq, Z.eqb_refl.
    rewrite (same_id_unique feed p post Hnd Hp Hin Heq).
    destruct post; reflexivity.
  - destruct (Z.eqb_spec (Post.id p) (Post.id post)); [contradiction | reflexivity].
Qed.

End Feed.

Lemma or_else_message (m fallback : string) :
  m <> "" -> Text.or_else (Some m) fallback = m.
Proof.
  intros H. unfold Text.or_else.
  destruct (String.eqb_spec m ""); [contradiction | reflexivity].
Qed.

(** In a feed whose posts have distinct ids, a like action on a post
    that the signed-in user may like issues the unlike call if the post
    was liked and the like call otherwise, and at once shows the post with
    [is_liked] negated and [likes_count] one lower or one higher, its
    other fields as they were.  If the
    call then reports [success: false] or throws, the feed is again what
    it was before the action (so the post has its former [is_liked] and
    [likes_count]), and the error shown is the envelope's message (the
    text "Failed to update like" if it has none), or "Network error.
    Please try again." after a throw. *)
Theorem handleLike_failure_restores (s : Dashboard.State) (post : Post.t)
    (o : Handler.Outcome LikeResponse) :
  Dashboard.may_not_like s = false ->
  List.NoDup (List.map Post.id (Dashboard.posts s)) ->
  In post (Dashboard.posts s) ->
  Facts.failed o ->
  let h := Dashboard.handleLike s (Post.id post) in
  Handler.issued h
  = Some (if Post.is_liked post then Handler.unlikePost (Post.id post)
          else Handler.likePost (Post.id post))
  /\ (forall i : nat,
        Dashboard.posts s !! i = Some post ->
        exists shown,
          Dashboard.posts (Handler.before h s) !! i = Some shown
          /\ Post.is_liked shown = negb (Post.is_liked post)
          /\ Post.likes_count shown
             = (if Post.is_liked post then Post.likes_count post - 1
                else Post.likes_count post + 1)
          /\ Post.with_like shown (Post.is_liked post) (Post.likes_count post) = post)
  /\ Dashboard.posts (Handler.run h o s) = Dashboard.posts s
  /\ match o with
     | Handler.Resolved r =>
         Dashboard.error (Handler.run h o s)
         = Some (Text.or_else (message r) "Failed to update like")
         /\ (forall m, message r = Some m -> m <> "" ->
             Dashboard.error (Handler.run h o s) = Some m)
     | Handler.Threw =>
         Dashboard.error (Handler.run h o s) = Some "Network error. Please try again."
     end.
Proof.
  intros Hmay Hnd Hin Hfail h. subst h. unfold Dashboard.handleLike.
  rewrite Hmay, (find_by_id _ _ Hnd Hin). simpl.
  split; [reflexivity |]. split.
  - intros i Hi. rewrite lookup_map, Hi. simpl.
    unfold Dashboard.like_toggle. rewrite Z.eqb_refl.
    eexists. split; [reflexivity |]. split; [reflexivity |]. split; [reflexivity |].
    destruct post; reflexivity.
  - unfold Handler.run. simpl.
    destruct o as [r |]; simpl in *.
    + rewrite Hfail. simpl. rewrite (revert_after_toggle _ _ Hnd Hin).
      split; [reflexivity |]. split; [reflexivity |].
      intros m Hm Hne. rewrite Hm, (or_else_message _ _ Hne). reflexivity.
    + rewrite (revert_after_toggle _ _ Hnd Hin). split; reflexivity.
Qed.

Lemma sample_feed_ids : List.NoDup (List.map Post.id (Dashboard.posts Sample.feed)).
Proof.
  simpl. constructor.
  - intros [H | []]. discriminate H.
  - constructor; [intros [] | constructor].
Defined.

Lemma handleLike_failure_restores_witness :
  let h := Dashboard.handleLike Sample.feed 42 in
  Handler.issued h = Some (Handler.likePost 42)
  /\ (exists shown,
        Dashboard.posts (Handler.before h Sample.feed) !! 0%nat = Some shown
        /\ Post.is_liked shown = true
        /\ Post.likes_count shown = 11
        /\ Post.with_like shown false 10 = Sample.post42)
  /\ Dashboard.posts (Handler.run h (Handler.Resolved (Sample.failure "Too many requests"))
                        Sample.feed)
     = [Sample.post42; Sample.post43]
  /\ Dashboard.error (Handler.run h (Handler.Resolved (Sample.failure "Too many requests"))
                        Sample.feed)
     = Some "Too many requests".
Proof.
  pose proof (handleLike_failure_restores Sample.feed Sample.post42
                (Handler.Resolved (Sample.failure "Too many requests"))
                eq_refl sample_feed_ids (or_introl eq_refl) eq_refl)
    as (Hcall & Hshown & Hback & Herr & _).
  exact (conj Hcall (conj (Hshown 0%nat eq_refl) (conj Hback Herr))).
Defined.

(** C1 on the code.  A load-more appends the first page once more
    ([getPosts] sends no page number), so the feed shows posts 42 and 43
    twice; the second copy of post 43 has the like that came in between:
    liked, 3 likes, against liked, 2 likes on the first copy.  An unlike
    of post 43 first shows both copies not liked, with 1 and 2 likes.
    When the call then fails or throws, the revert writes the values of
    the first copy, the one the handler found, into both: the second copy
    ends liked with 2 likes, not with the 3 likes it had before the
    toggle. *)
Theorem failed_like_overwrites_duplicate :
  Handler.issued (Dashboard.loadMorePosts Sample.feed) = Some (Handler.getPosts 2 10)
  /\ Cases.likes Sample.feed = [(42, false, 10); (43, true, 2)]
  /\ Cases.likes Cases.doubled
     = [(42, false, 10); (43, true, 2); (42, false, 10); (43, true, 3)]
  /\ Handler.issued Cases.unlike43 = Some (Handler.unlikePost 43)
  /\ Cases.likes (Handler.before Cases.unlike43 Cases.doubled)
     = [(42, false, 10); (43, false, 1); (42, false, 10); (43, false, 2)]
  /\ Cases.likes (Handler.run Cases.unlike43 Sample.too_many Cases.doubled)
     = [(42, false, 10); (43, true, 2); (42, false, 10); (43, true, 2)]
  /\ Cases.likes (Handler.run Cases.unlike43 Handler.Threw Cases.doubled)
     = [(42, false, 10); (43, true, 2); (42, false, 10); (43, true, 2)]
  /\ Dashboard.error (Handler.run Cases.unlike43 Sample.too_many Cases.doubled)
     = Some "Too many requests"
  /\ Cases.likes (Handler.run Cases.unlike43 Sample.too_many Cases.doubled)
     <> Cases.likes Cases.doubled.
Proof.
  split; [reflexivity |]. split; [reflexivity |]. split; [reflexivity |].
  split; [reflexivity |]. split; [reflexivity |]. split; [reflexivity |].
  split; [reflexivity |]. split; [reflexivity |]. discriminate.
Qed.

(** C10.  Whatever render [r] the handler closes over and whatever the
    feed is when a step runs, the optimistic step and the step taken when
    the call settles (success, failure or throw) of [handleLike] and of
    [handleComment] for post [postId] keep the feed's length and leave
    every post whose id differs from [postId] unchanged at its place. *)
Theorem handlers_leave_other_posts (a : Dashboard.Ambient) (r s : Dashboard.State)
    (postId : Z) (ol : Handler.Outcome LikeResponse)
    (oc : Handler.Outcome CommentResponse) :
  Facts.untouched postId (Dashboard.posts s)
    (Dashboard.posts (Handler.before (Dashboard.handleLike r postId) s))
  /\ Facts.untouched postId (Dashboard.posts s)
       (Dashboard.posts (Handler.after (Dashboard.handleLike r postId) ol s))
  /\ Facts.untouched postId (Dashboard.posts s)
       (Dashboard.posts (Handler.before (Dashboard.handleComment a r postId) s))
  /\ Facts.untouched postId (Dashboard.posts s)
       (Dashboard.posts (Handler.after (Dashboard.handleComment a r postId) oc s)).
Proof.
  assert (Hlike : forall post,
             Facts.untouched postId (Dashboard.posts s)
               (List.map (Dashboard.like_revert postId post) (Dashboard.posts s))).
  { intros post. apply untouched_map. intros p. apply like_revert_other. }
  assert (Hremove : forall temp,
             Facts.untouched postId (Dashboard.posts s)
               (List.map (Dashboard.comment_remove postId temp) (Dashboard.posts s))).
  { intros temp. apply untouched_map. intros p. apply comment_remove_other. }
  assert (Happend : forall temp,
             Facts.untouched postId (Dashboard.posts s)
               (List.map (Dashboard.comment_append postId temp) (Dashboard.posts s))).
  { intros temp. apply untouched_map. intros p. apply comment_append_other. }
  assert (Hconfirm : forall temp real,
             Facts.untouched postId (Dashboard.posts s)
               (List.map (Dashboard.comment_confirm postId temp real) (Dashboard.posts s))).
  { intros temp real. apply untouched_map. intros p. apply comment_confirm_other. }
  assert (Hsame := untouched_refl postId (Dashboard.posts s)).
  split; [| split; [| split]].
  - unfold Dashboard.handleLike.
    destruct (Dashboard.may_not_like r); simpl; [exact Hsame |].
    destruct (List.find _ (Dashboard.posts r)) as [post |]; simpl; [| exact Hsame].
    apply untouched_map. intros p. apply like_toggle_other.
  - unfold Dashboard.handleLike.
    destruct (Dashboard.may_not_like r); simpl; [exact Hsame |].
    destruct (List.find _ (Dashboard.posts r)) as [post |]; simpl; [| exact Hsame].
    destruct ol as [resp |]; simpl; [| apply Hlike].
    destruct (success resp); simpl; [exact Hsame | apply Hlike].
  - unfold Dashboard.handleComment.
    destruct (Dashboard.commentText r postId) as [text |]; simpl; [| exact Hsame].
    destruct (Dashboard.user r) as [u |]; simpl; [| exact Hsame].
    destruct (String.eqb text ""); simpl; [exact Hsame | apply Happend].
  - unfold Dashboard.handleComment.
    destruct (Dashboard.commentText r postId) as [text |]; simpl; [| exact Hsame].
    destruct (Dashboard.user r) as [u |]; simpl; [| exact Hsame].
    destruct (String.eqb text ""); simpl; [exact Hsame |].
    destruct oc as [resp |]; simpl; [| apply Hremove].
    destruct (success resp); [| apply Hremove].
    destruct (data resp) as [d |]; [apply Hconfirm | apply Hremove].
Qed.

(** ** Comments *)

Section Comments.
Import Dashboard.

Lemma same_id_refl (x : Q) : Comment.same_id x x = true.
Proof. apply QArith_base.Qeq_bool_iff. apply QArith_base.Qeq_refl. Qed.

Lemma same_id_sym (x y : Q) : Comment.same_id x y = Comment.same_id y x.
Proof.
  unfold Comment.same_id.
  destruct (QArith_base.Qeq_bool x y) eqn:Hxy, (QArith_base.Qeq_bool y x) eqn:Hyx; auto.
  - apply QArith_base.Qeq_bool_iff, QArith_base.Qeq_sym, QArith_base.Qeq_bool_iff in Hxy.
    congruence.
  - apply QArith_base.Qeq_bool_iff, QArith_base.Qeq_sym, QArith_base.Qeq_bool_iff in Hyx.
    congruence.
Qed.

(** Equal ids are interchangeable in a comparison. *)
Lemma same_id_trans (x y z : Q) :
  Comment.same_id x y = true -> Comment.same_id x z = Comment.same_id y z.
Proof.
  unfold Comment.same_id. intros Hxy. apply QArith_base.Qeq_bool_iff in Hxy.
  destruct (QArith_base.Qeq_bool x z) eqn:Hxz, (QArith_base.Qeq_bool y z) eqn:Hyz; auto.
  - apply QArith_base.Qeq_bool_iff in Hxz.
    assert (H : QArith_base.Qeq y z)
      by (eapply QArith_base.Qeq_trans; [apply QArith_base.Qeq_sym; eassumption | assumption]).
    apply QArith_base.Qeq_bool_iff in H. congruence.
  - apply QArith_base.Qeq_bool_iff in Hyz.
    assert (H : QArith_base.Qeq x z) by (eapply QArith_base.Qeq_trans; eassumption).
    apply QArith_base.Qeq_bool_iff in H. congruence.
Qed.

Variable temp : Comment.t.

Lemma replace_fresh (real : Comment.t) (cs : list Comment.t) :
  (forall c, In c cs -> Facts.is_temp temp c = false) ->
  List.map (fun c => if Facts.is_temp temp c then real else c) cs = cs.
Proof.
  intros H. rewrite <- (List.map_id cs) at 2. apply List.map_ext_in.
  intros c Hc. rewrite (H c Hc). reflexivity.
Qed.

Lemma replace_appended (real : Comment.t) (cs : list Comment.t) :
  (forall c, In c cs -> Facts.is_temp temp c = false) ->
  List.map (fun c => if Facts.is_temp temp c then real else c) (cs ++ [temp]) = cs ++ [real].
Proof.
  intros H. rewrite List.map_app, (replace_fresh real cs H). simpl.
  unfold Facts.is_temp. rewrite same_id_refl. reflexivity.
Qed.

Lemma remove_fresh (cs : list Comment.t) :
  (forall c, In c cs -> Facts.is_temp temp c = false) ->
  List.filter (fun c => negb (Facts.is_temp temp c)) cs = cs.
Proof.
  induction cs as [| c cs IH]; simpl; intros H; [reflexivity |].
  rewrite (H c (or_introl eq_refl)). simpl. f_equal. apply IH. auto.
Qed.

Lemma remove_appended (cs : list Comment.t) :
  (forall c, In c cs -> Facts.is_temp temp c = false) ->
  List.filter (fun c => negb (Facts.is_temp temp c)) (cs ++ [temp]) = cs.
Proof.
  intros H. rewrite List.filter_app, (remove_fresh cs H). simpl.
  unfold Facts.is_temp. rewrite same_id_refl. simpl. apply List.app_nil_r.
Qed.

Variables (postId : Z) (feed : list Post.t).
Hypothesis temp_fresh : Facts.fresh (Comment.id temp) postId feed.

Lemma confirm_after_append (real : Comment.t) :
  List.map (comment_confirm postId temp real) (List.map (comment_append postId temp) feed)
  = Facts.with_comment postId real feed.
Proof.
  rewrite List.map_map. apply List.map_ext_in. intros post Hpost.
  unfold comment_confirm, comment_append.
  destruct (Z.eqb_spec (Post.id post) postId) as [Heq | Hne]; simpl.
  - rewrite Heq, Z.eqb_refl.
    unfold Post.with_comments; simpl. f_equal.
    apply (replace_appended real). intros c Hc. exact (temp_fresh post c Hpost Heq Hc).
  - destruct (Z.eqb_spec (Post.id post) postId); [contradiction | reflexivity].
Qed.

Lemma remove_after_append :
  List.map (comment_remove postId temp) (List.map (comment_append postId temp) feed) = feed.
Proof.
  rewrite List.map_map. rewrite <- (List.map_id feed) at 2.
  apply List.map_ext_in. intros post Hpost.
  unfold comment_remove, comment_append.
  destruct (Z.eqb_spec (Post.id post) postId) as [Heq | Hne]; simpl.
  - rewrite Heq, Z.eqb_refl.
    unfold Post.with_comments; simpl.
    pose proof (remove_appended (Post.comments post)) as Hrm.
    unfold Facts.is_temp in Hrm. rewrite Hrm.
    + replace (Post.comments_count post + 1 - 1) with (Post.comments_count post) by lia.
      destruct post; simpl in *; subst; reflexivity.
    + intros c Hc. exact (temp_fresh post c Hpost Heq Hc).
  - destruct (Z.eqb_spec (Post.id post) postId); [contradiction | reflexivity].
Qed.

End Comments.

Lemma occurrences_app (id : Q) (cs ds : list Comment.t) :
  Facts.occurrences id (cs ++ ds) = (Facts.occurrences id cs + Facts.occurrences id ds)%nat.
Proof. unfold Facts.occurrences. rewrite List.filter_app. apply List.length_app. Qed.

Lemma occurrences_fresh (id : Q) (cs : list Comment.t) :
  (forall c, In c cs -> Comment.same_id (Comment.id c) id = false) ->
  Facts.occurrences id cs = 0%nat.
Proof.
  unfold Facts.occurrences. induction cs as [| c cs IH]; simpl; intros H; [reflexivity |].
  rewrite (H c (or_introl eq_refl)). apply IH. auto.
Qed.

Lemma in_with_comment (postId : Z) (c : Comment.t) (feed : list Post.t) (post : Post.t) :
  In post (Facts.with_comment postId c feed) -> Post.id post = postId ->
  exists before,
    In before feed /\ Post.id before = postId
    /\ Post.comments post = Post.comments before ++ [c]
    /\ Post.comments_count post = Post.comments_count before + 1.
Proof.
  unfold Facts.with_comment. intros Hin Hid.
  apply List.in_map_iff in Hin as (p & Hp & Hin).
  destruct (Z.eqb_spec (Post.id p) postId) as [Heq | Hne].
  - exists p. subst post. simpl. auto.
  - subst post. contradiction.
Qed.

Lemma with_comment_counts (postId : Z) (real : Comment.t) (provisional : Q)
    (feed : list Post.t) (post : Post.t) :
  Facts.fresh (Comment.id real) postId feed ->
  Facts.fresh provisional postId feed ->
  Comment.same_id (Comment.id real) provisional = false ->
  In post (Facts.with_comment postId real feed) -> Post.id post = postId ->
  Facts.occurrences (Comment.id real) (Post.comments post) = 1%nat
  /\ Facts.occurrences provisional (Post.comments post) = 0%nat
  /\ In real (Post.comments post).
Proof.
  intros Hnew Hfresh Hdiff Hin Hid.
  destruct (in_with_comment _ _ _ _ Hin Hid) as (p & Hp & Hpid & Hcs & _).
  rewrite Hcs, !occurrences_app.
  rewrite (occurrences_fresh (Comment.id real) (Post.comments p))
    by (intros c Hc; exact (Hnew p c Hp Hpid Hc)).
  rewrite (occurrences_fresh provisional (Post.comments p))
    by (intros c Hc; exact (Hfresh p c Hp Hpid Hc)).
  unfold Facts.occurrences. simpl. rewrite same_id_refl, Hdiff. simpl.
  split; [reflexivity |]. split; [reflexivity |].
  apply List.in_or_app. right. left. reflexivity.
Qed.

(** A signed-in user submits the text typed for post [postId], whose
    trimmed form [text] is not empty; the provisional id, the binary64 sum
    of the clock and the random number, is carried by no comment of that
    post yet.  The provisional comment has that id, the trimmed text, the
    post, the user and the clock's seconds.  Before the call settles the post has the
    provisional comment appended and its counter one higher, and the input
    buffer of the post is empty.  When the call succeeds with a comment,
    the provisional comment is replaced by it and the counter stays as
    incremented: the post then has its former comments followed by the
    server's comment; if the server's id is new to the post and differs
    from the provisional id, that id occurs exactly once, on the server's
    comment (which has the submitted content when the server returned
    it), and the provisional id no longer occurs.  When the call fails,
    throws or carries no comment, the feed is what it was before the
    submission. *)
Theorem handleComment_reconciles (a : Dashboard.Ambient) (s : Dashboard.State)
    (postId : Z) (u : User.t) (raw : string) :
  let text := Text.trim raw in
  let temp := Dashboard.tempComment a u postId text in
  let h := Dashboard.handleComment a s postId in
  Dashboard.user s = Some u ->
  Dashboard.newComment s !! postId = Some raw ->
  text <> "" ->
  Facts.fresh (Comment.id temp) postId (Dashboard.posts s) ->
  Handler.issued h = Some (Handler.createComment postId text)
  /\ temp = {| Comment.id := Js.binary64
                                (QArith_base.Qplus
                                   (QArith_base.inject_Z (Dashboard.now_id a))
                                   (Dashboard.random a));
               Comment.post_id := postId;
               Comment.user_id := User.id u;
               Comment.content := text;
               Comment.created_at := Dashboard.now_created a / 1000;
               Comment.user := {| author_id := User.id u; author_name := User.name u |} |}
  /\ Dashboard.posts (Handler.before h s) = Facts.with_comment postId temp (Dashboard.posts s)
  /\ (forall post, In post (Dashboard.posts (Handler.before h s)) -> Post.id post = postId ->
      exists p, In p (Dashboard.posts s) /\ Post.id p = postId
                /\ Post.comments post = (Post.comments p ++ [temp])%list
                /\ Post.comments_count post = Post.comments_count p + 1)
  /\ Dashboard.newComment (Handler.before h s) !! postId = Some ""
  /\ (forall r d,
        success r = true -> data r = Some d ->
        Dashboard.posts (Handler.run h (Handler.Resolved r) s)
        = Facts.with_comment postId (comment_of d) (Dashboard.posts s)
        /\ (Facts.fresh (Comment.id (comment_of d)) postId (Dashboard.posts s) ->
            Comment.same_id (Comment.id (comment_of d)) (Comment.id temp) = false ->
            forall post,
              In post (Dashboard.posts (Handler.run h (Handler.Resolved r) s)) ->
              Post.id post = postId ->
              Facts.occurrences (Comment.id (comment_of d)) (Post.comments post) = 1%nat
              /\ Facts.occurrences (Comment.id temp) (Post.comments post) = 0%nat
              /\ In (comment_of d) (Post.comments post)
              /\ (Comment.content (comment_of d) = text ->
                  exists c, In c (Post.comments post)
                            /\ Comment.id c = Comment.id (comment_of d)
                            /\ Comment.content c = text)))
  /\ (forall o, Facts.unconfirmed o ->
        Dashboard.posts (Handler.run h o s) = Dashboard.posts s).
Proof.
  intros text temp h Huser Hraw Htext Hfresh. subst h.
  unfold Dashboard.handleComment, Dashboard.commentText.
  rewrite Hraw, Huser. simpl. fold text.
  destruct (String.eqb_spec text "") as [Hempty | _]; [contradiction |].
  fold temp. simpl.
  split; [reflexivity |]. split; [reflexivity |]. split; [reflexivity |].
  split; [intros post Hin Hid; exact (in_with_comment _ _ _ _ Hin Hid) |].
  split; [apply lookup_insert_eq |]. split.
  - intros r d Hok Hdata. unfold Handler.run. simpl. rewrite Hok, Hdata. simpl.
    rewrite (confirm_after_append temp postId _ Hfresh). split; [reflexivity |].
    intros Hnew Hdiff post Hin Hid.
    destruct (with_comment_counts postId (comment_of d) (Comment.id temp) _ post
                Hnew Hfresh Hdiff Hin Hid) as (Hone & Hnone & Hthere).
    split; [exact Hone |]. split; [exact Hnone |]. split; [exact Hthere |].
    intros Hcontent. exists (comment_of d). auto.
  - intros o Ho. unfold Handler.run. simpl.
    destruct o as [r |]; simpl in *.
    + destruct Ho as [Hno | Hno]; rewrite Hno; [| destruct (success r)]; simpl;
        apply (remove_after_append temp postId _ Hfresh).
    + apply (remove_after_append temp postId _ Hfresh).
Qed.

Lemma sample_provisional_id_fresh :
  Facts.fresh
    (Comment.id (Dashboard.tempComment Sample.ambient Sample.ann 42 (Text.trim "  nice one ")))
    42 (Dashboard.posts Sample.feed).
Proof.
  intros post c [<- | [<- | []]] _ Hc; simpl in Hc.
  - destruct Hc as [<- | []]. reflexivity.
  - destruct Hc.
Defined.

Lemma handleComment_reconciles_witness :
  let h := Dashboard.handleComment Sample.ambient Sample.feed 42 in
  Handler.issued h = Some (Handler.createComment 42 "nice one")
  /\ Dashboard.newComment (Handler.before h Sample.feed) !! 42 = Some ""
  /\ Dashboard.posts
       (Handler.run h (Handler.Resolved (Sample.success_with {| comment_of := Sample.new_comment |}))
          Sample.feed)
     = Facts.with_comment 42 Sample.new_comment [Sample.post42; Sample.post43]
  /\ Dashboard.posts (Handler.run h (Handler.Resolved (Sample.failure "Too many requests"))
                        Sample.feed)
     = [Sample.post42; Sample.post43].
Proof.
  pose proof (handleComment_reconciles Sample.ambient Sample.feed 42 Sample.ann "  nice one "
                eq_refl eq_refl
                (fun H : Text.trim "  nice one " = "" =>
                   eq_ind "nice one" (fun x => match x with
                                               | EmptyString => False
                                               | String _ _ => True
                                               end) I "" H)
                sample_provisional_id_fresh)
    as (Hcall & _ & _ & _ & Hbuffer & Hok & Hfail).
  exact (conj Hcall
          (conj Hbuffer
             (conj (proj1 (Hok (Sample.success_with {| comment_of := Sample.new_comment |})
                             {| comment_of := Sample.new_comment |} eq_refl eq_refl))
                (Hfail (Handler.Resolved (Sample.failure "Too many requests"))
                   (or_introl eq_refl))))).
Defined.

(** C2 on the code.  Two submissions for post 42 run in the same
    millisecond, with the random numbers 0.25 and 0.25 + 2^-20.  The
    binary64 numbers near 1.7e12 are 2^-12 apart, so both provisional
    comments get the id 1700000200000.25.  The post, which had one comment,
    has two while the first call is pending and three, with a counter of
    three, while both are.  When the second call then throws or reports
    failure, the filter on the provisional id removes both provisional
    comments: the post is left with the one old comment and a counter of
    two, not with the two comments it had before that submission.  When
    it succeeds, both provisional comments are replaced by the server's
    comment, whose id is then carried twice. *)
Theorem colliding_provisional_ids :
  QArith_base.Qeq_bool (Dashboard.random Sample.ambient) (Dashboard.random Cases.twin) = false
  /\ QArith_base.Qeq_bool (Facts.provisional_id Sample.ambient)
       (QArith_base.Qmake 6800000800001 4) = true
  /\ Comment.same_id (Facts.provisional_id Sample.ambient) (Facts.provisional_id Cases.twin)
     = true
  /\ Handler.issued Cases.second_comment = Some (Handler.createComment 42 "nice one")
  /\ Cases.thread Sample.feed 42 = Some (["first"], 1)
  /\ Cases.thread Cases.one_pending 42 = Some (["first"; "nice one"], 2)
  /\ Cases.thread Cases.two_pending 42 = Some (["first"; "nice one"; "nice one"], 3)
  /\ Cases.thread (Handler.after Cases.second_comment Handler.Threw Cases.two_pending) 42
     = Some (["first"], 2)
  /\ Cases.thread
       (Handler.after Cases.second_comment
          (Handler.Resolved (Sample.failure "Too many requests")) Cases.two_pending) 42
     = Some (["first"], 2)
  /\ Cases.carrying
       (Handler.after Cases.second_comment
          (Handler.Resolved (Sample.success_with {| comment_of := Sample.new_comment |}))
          Cases.two_pending) 42 (QArith_base.inject_Z 6)
     = Some 2%nat.
Proof.
  split; [reflexivity |]. split; [reflexivity |]. split; [reflexivity |].
  split; [reflexivity |]. split; [reflexivity |]. split; [reflexivity |].
  split; [reflexivity |]. split; [reflexivity |]. split; reflexivity.
Qed.

(** ** Validation *)

(** C9.  When the text typed for a post is missing or trims to the empty
    string, [handleComment] issues no request and leaves the whole
    dashboard state as it is.  When the form's content trims to the empty
    string or no file is selected, [handleSubmit] issues no request,
    leaves the form as it is and reports "Please fill in all fields and
    select an image" through [onError]. *)
Theorem validation_short_circuits (a : Dashboard.Ambient) (r s : Dashboard.State)
    (postId : Z) (oc : Handler.Outcome CommentResponse)
    (Parent : Type) (onPostCreated : Parent -> Parent) (onError : string -> Parent -> Parent)
    (form current : PostForm.State) (parent : Parent) (op : Handler.Outcome Post.t) :
  (forall raw, Dashboard.newComment r !! postId = Some raw -> Text.trim raw = "") ->
  (Text.trim (PostForm.content (PostForm.formData form)) = ""
   \/ PostForm.selectedFile form = None) ->
  let hc := Dashboard.handleComment a r postId in
  let hs := PostForm.handleSubmit Parent onPostCreated onError form in
  Handler.issued hc = None
  /\ Handler.run hc oc s = s
  /\ Handler.issued hs = None
  /\ Handler.run hs op (current, parent)
     = (current, onError "Please fill in all fields and select an image" parent).
Proof.
  intros Hempty Hform hc hs. subst hc hs.
  assert (Hc : Dashboard.handleComment a r postId = Handler.Done (fun s => s)).
  { unfold Dashboard.handleComment, Dashboard.commentText.
    destruct (Dashboard.newComment r !! postId) as [raw |] eqn:Hraw; simpl; [| reflexivity].
    rewrite (Hempty raw eq_refl). destruct (Dashboard.user r); reflexivity. }
  assert (Hs : PostForm.handleSubmit Parent onPostCreated onError form
               = Handler.Done
                   (PostForm.on_parent Parent
                      (onError "Please fill in all fields and select an image"))).
  { unfold PostForm.handleSubmit.
    destruct (PostForm.selectedFile form) as [file |]; [| reflexivity].
    destruct Hform as [Hblank | Hnone]; [| discriminate].
    rewrite Hblank. reflexivity. }
  rewrite Hc, Hs. repeat split.
Qed.

Lemma validation_short_circuits_witness :
  Handler.issued (Dashboard.handleComment Sample.ambient (Sample.dashboard 1 "   ") 42) = None
  /\ Handler.issued
       (PostForm.handleSubmit (option string) (fun p => p) (fun m _ => Some m)
          (Sample.form "a caption" None)) = None
  /\ Handler.run
       (PostForm.handleSubmit (option string) (fun p => p) (fun m _ => Some m)
          (Sample.form "a caption" None))
       Handler.Threw (Sample.form "a caption" None, None)
     = (Sample.form "a caption" None, Some "Please fill in all fields and select an image").
Proof.
  pose proof (validation_short_circuits Sample.ambient (Sample.dashboard 1 "   ")
                Sample.feed 42 Handler.Threw (option string) (fun p => p)
                (fun m _ => Some m) (Sample.form "a caption" None)
                (Sample.form "a caption" None) None Handler.Threw
                (fun raw (H : Dashboard.newComment (Sample.dashboard 1 "   ") !! 42 = Some raw) =>
                   eq_ind "   " (fun x => Text.trim x = "") eq_refl raw
                     (f_equal (fun o => match o with Some x => x | None => "   " end) H))
                (or_intror eq_refl))
    as (Hc & _ & Hs & Hrun).
  exact (conj Hc (conj Hs Hrun)).
Defined.

Example blank_form_is_refused :
  Handler.issued
    (PostForm.handleSubmit (option string) (fun p => p) (fun m _ => Some m)
       (Sample.form (String (ascii_of_nat 9) "  ") (Some Sample.picture))) = None.
Proof. reflexivity. Qed.

Example filled_form_is_sent :
  Handler.issued
    (PostForm.handleSubmit (option string) (fun p => p) (fun m _ => Some m)
       (Sample.form "a caption" (Some Sample.picture)))
  = Some (Handler.createPostWithFile
            [("content", FormText "a caption"); ("image", FormFile Sample.picture)]).
Proof. reflexivity. Qed.

(** ** Overlapping actions *)

Section Overlap.
Import Dashboard.

Lemma like_toggle_twice (postId : Z) (p : Post.t) :
  like_toggle postId (like_toggle postId p) = p.
Proof.
  unfold like_toggle.
  destruct (Z.eqb_spec (Post.id p) postId) as [Heq | Hne]; simpl.
  - rewrite Heq, Z.eqb_refl. destruct p as [? ? ? ? ? ? ? ? ? ? liked]; simpl.
    unfold Post.with_like; simpl. destruct liked; simpl; f_equal; lia.
  - destruct (Z.eqb_spec (Post.id p) postId); [contradiction | reflexivity].
Qed.

Lemma map_commute {A : Type} (f g : A -> A) (l : list A) :
  (forall x, f (g x) = g (f x)) ->
  List.map f (List.map g l) = List.map g (List.map f l).
Proof. intros H. rewrite !List.map_map. apply List.map_ext. exact H. Qed.

Variables (t1 t2 : Comment.t).
Hypothesis distinct : Comment.same_id (Comment.id t1) (Comment.id t2) = false.

Lemma not_both (c : Comment.t) :
  Facts.is_temp t1 c = true -> Facts.is_temp t2 c = false.
Proof.
  unfold Facts.is_temp. intros H1.
  rewrite (same_id_trans _ _ (Comment.id t2) H1). exact distinct.
Qed.

Lemma replace_replace (r1 r2 : Comment.t) (cs : list Comment.t) :
  Facts.is_temp t2 r1 = false -> Facts.is_temp t1 r2 = false ->
  List.map (fun c => if Facts.is_temp t1 c then r1 else c)
    (List.map (fun c => if Facts.is_temp t2 c then r2 else c) cs)
  = List.map (fun c => if Facts.is_temp t2 c then r2 else c)
      (List.map (fun c => if Facts.is_temp t1 c then r1 else c) cs).
Proof.
  intros H1 H2. apply map_commute. intros c.
  destruct (Facts.is_temp t1 c) eqn:Hc1.
  - rewrite (not_both c Hc1), Hc1, H1. reflexivity.
  - destruct (Facts.is_temp t2 c) eqn:Hc2; [rewrite H2 | rewrite Hc1]; reflexivity.
Qed.

Lemma remove_replace (r2 : Comment.t) (cs : list Comment.t) :
  Facts.is_temp t1 r2 = false ->
  List.filter (fun c => negb (Facts.is_temp t1 c))
    (List.map (fun c => if Facts.is_temp t2 c then r2 else c) cs)
  = List.map (fun c => if Facts.is_temp t2 c then r2 else c)
      (List.filter (fun c => negb (Facts.is_temp t1 c)) cs).
Proof.
  intros H2. induction cs as [| c cs IH]; simpl; [reflexivity |].
  destruct (Facts.is_temp t1 c) eqn:Hc1.
  - rewrite (not_both c Hc1), Hc1. simpl. exact IH.
  - destruct (Facts.is_temp t2 c) eqn:Hc2; simpl.
    + rewrite H2. simpl. rewrite Hc2. f_equal. exact IH.
    + rewrite Hc1. simpl. rewrite Hc2. f_equal. exact IH.
Qed.

Lemma remove_remove (cs : list Comment.t) :
  List.filter (fun c => negb (Facts.is_temp t1 c))
    (List.filter (fun c => negb (Facts.is_temp t2 c)) cs)
  = List.filter (fun c => negb (Facts.is_temp t2 c))
      (List.filter (fun c => negb (Facts.is_temp t1 c)) cs).
Proof.
  induction cs as [| c cs IH]; simpl; [reflexivity |].
  destruct (Facts.is_temp t1 c) eqn:Hc1, (Facts.is_temp t2 c) eqn:Hc2; simpl;
    rewrite ?Hc1, ?Hc2; simpl; rewrite ?IH; reflexivity.
Qed.

End Overlap.

Section Reconcile.
Import Dashboard.
Variables (postId : Z) (t1 t2 : Comment.t).
Hypothesis distinct : Comment.same_id (Comment.id t1) (Comment.id t2) = false.

Lemma confirm_confirm (r1 r2 : Comment.t) (post : Post.t) :
  Comment.same_id (Comment.id r1) (Comment.id t2) = false ->
  Comment.same_id (Comment.id r2) (Comment.id t1) = false ->
  comment_confirm postId t1 r1 (comment_confirm postId t2 r2 post)
  = comment_confirm postId t2 r2 (comment_confirm postId t1 r1 post).
Proof.
  intros H1 H2. unfold comment_confirm.
  destruct (Z.eqb_spec (Post.id post) postId) as [Heq | Hne]; simpl.
  - rewrite Heq, Z.eqb_refl. unfold Post.with_comments; simpl. f_equal.
    exact (replace_replace t1 t2 distinct r1 r2 (Post.comments post) H1 H2).
  - destruct (Z.eqb_spec (Post.id post) postId); [contradiction | reflexivity].
Qed.

Lemma remove_confirm (r2 : Comment.t) (post : Post.t) :
  Comment.same_id (Comment.id r2) (Comment.id t1) = false ->
  comment_remove postId t1 (comment_confirm postId t2 r2 post)
  = comment_confirm postId t2 r2 (comment_remove postId t1 post).
Proof.
  intros H2. unfold comment_remove, comment_confirm.
  destruct (Z.eqb_spec (Post.id post) postId) as [Heq | Hne]; simpl.
  - rewrite Heq, Z.eqb_refl. unfold Post.with_comments; simpl. f_equal.
    exact (remove_replace t1 t2 distinct r2 (Post.comments post) H2).
  - destruct (Z.eqb_spec (Post.id post) postId); [contradiction | reflexivity].
Qed.

Lemma remove_remove_post (post : Post.t) :
  comment_remove postId t1 (comment_remove postId t2 post)
  = comment_remove postId t2 (comment_remove postId t1 post).
Proof.
  unfold comment_remove.
  destruct (Z.eqb_spec (Post.id post) postId) as [Heq | Hne]; simpl.
  - rewrite Heq, Z.eqb_refl. unfold Post.with_comments; simpl. f_equal.
    exact (remove_remove t1 t2 (Post.comments post)).
  - destruct (Z.eqb_spec (Post.id post) postId); [contradiction | reflexivity].
Qed.

End Reconcile.

(** What the step of [handleComment] taken when the call settles does to
    the feed: nothing, or the removal of the provisional comment, or its
    replacement by the comment the call returned. *)
Lemma handleComment_after (a : Dashboard.Ambient) (r : Dashboard.State) (postId : Z)
    (o : Handler.Outcome CommentResponse) :
  let h := Dashboard.handleComment a r postId in
  (forall s, Dashboard.posts (Handler.after h o s) = Dashboard.posts s)
  \/ (exists temp,
        Comment.id temp = Facts.provisional_id a
        /\ forall s, Dashboard.posts (Handler.after h o s)
                     = List.map (Dashboard.comment_remove postId temp) (Dashboard.posts s))
  \/ (exists temp resp d,
        Comment.id temp = Facts.provisional_id a
        /\ o = Handler.Resolved resp /\ data resp = Some d
        /\ forall s, Dashboard.posts (Handler.after h o s)
                     = List.map (Dashboard.comment_confirm postId temp (comment_of d))
                         (Dashboard.posts s)).
Proof.
  cbv zeta. unfold Dashboard.handleComment.
  destruct (Dashboard.commentText r postId) as [text |]; simpl; [| left; reflexivity].
  destruct (Dashboard.user r) as [u |]; simpl; [| left; reflexivity].
  destruct (String.eqb text ""); simpl; [left; reflexivity |].
  destruct o as [resp |]; simpl.
  - destruct (success resp); simpl.
    + destruct (data resp) as [d |] eqn:Hd; simpl.
      * right. right. exists (Dashboard.tempComment a u postId text), resp, d.
        repeat split; auto.
      * right. left. exists (Dashboard.tempComment a u postId text). split; reflexivity.
    + right. left. exists (Dashboard.tempComment a u postId text). split; reflexivity.
  - right. left. exists (Dashboard.tempComment a u postId text). split; reflexivity.
Qed.

(** The optimistic step of a like is a function
    of the feed at the time it runs, keyed by post id: applied twice it
    gives the feed back.  The rollback of a like is not: whatever the feed
    is when the call fails, every post with that id is given the
    [is_liked] and [likes_count] that the handler read from its own render
    when it was triggered.  The steps of two comment submissions on one
    post are keyed by provisional id: when the two provisional ids differ
    and neither returned comment carries the other's provisional id, the
    two settling steps give the same feed in either order. *)
Theorem overlapping_actions (r s : Dashboard.State) (postId : Z) (post : Post.t)
    (ol : Handler.Outcome LikeResponse)
    (a1 a2 : Dashboard.Ambient) (r1 r2 : Dashboard.State)
    (o1 o2 : Handler.Outcome CommentResponse) :
  Dashboard.may_not_like r = false ->
  List.find (fun p => Post.id p =? postId) (Dashboard.posts r) = Some post ->
  Facts.failed ol ->
  Comment.same_id (Facts.provisional_id a1) (Facts.provisional_id a2) = false ->
  Facts.confirms_other o1 (Facts.provisional_id a2) ->
  Facts.confirms_other o2 (Facts.provisional_id a1) ->
  let hl := Dashboard.handleLike r postId in
  let h1 := Dashboard.handleComment a1 r1 postId in
  let h2 := Dashboard.handleComment a2 r2 postId in
  (forall feed,
     List.map (Dashboard.like_toggle postId) (List.map (Dashboard.like_toggle postId) feed)
     = feed)
  /\ (forall p,
        In p (Dashboard.posts (Handler.after hl ol s)) -> Post.id p = postId ->
        Post.is_liked p = Post.is_liked post /\ Post.likes_count p = Post.likes_count post)
  /\ Dashboard.posts (Handler.after h1 o1 (Handler.after h2 o2 s))
     = Dashboard.posts (Handler.after h2 o2 (Handler.after h1 o1 s)).
Proof.
  intros Hmay Hfind Hfail Hdistinct Hother1 Hother2 hl h1 h2. split; [| split].
  - intros feed. rewrite List.map_map. rewrite <- (List.map_id feed) at 2.
    apply List.map_ext. intros p. apply like_toggle_twice.
  - subst hl. unfold Dashboard.handleLike. rewrite Hmay, Hfind. simpl.
    assert (Hrev : forall p,
               In p (List.map (Dashboard.like_revert postId post) (Dashboard.posts s)) ->
               Post.id p = postId ->
               Post.is_liked p = Post.is_liked post
               /\ Post.likes_count p = Post.likes_count post).
    { intros p Hin Hid. apply List.in_map_iff in Hin as (q & <- & _).
      unfold Dashboard.like_revert in *.
      destruct (Z.eqb_spec (Post.id q) postId) as [_ | Hne]; [split; reflexivity |].
      contradiction. }
    destruct ol as [resp |]; simpl in *; [rewrite Hfail; simpl |]; exact Hrev.
  - assert (Hsym : Comment.same_id (Facts.provisional_id a2) (Facts.provisional_id a1) = false)
      by (rewrite same_id_sym; exact Hdistinct).
    destruct (handleComment_after a1 r1 postId o1)
      as [Hid1 | [(t1 & Ht1 & Hrm1) | (t1 & resp1 & d1 & Ht1 & Ho1 & Hd1 & Hcf1)]];
    destruct (handleComment_after a2 r2 postId o2)
      as [Hid2 | [(t2 & Ht2 & Hrm2) | (t2 & resp2 & d2 & Ht2 & Ho2 & Hd2 & Hcf2)]];
    subst h1 h2;
    rewrite ?Hid1, ?Hid2, ?Hrm1, ?Hrm2, ?Hcf1, ?Hcf2, ?Hid1, ?Hid2, ?Hrm1, ?Hrm2, ?Hcf1, ?Hcf2;
    try reflexivity.
    + apply map_commute. intros p. apply remove_remove_post.
    + apply map_commute. intros p. apply remove_confirm.
      * rewrite Ht1, Ht2. exact Hdistinct.
      * rewrite Ht1. exact (Hother2 resp2 d2 Ho2 Hd2).
    + apply map_commute. intros p. symmetry. apply remove_confirm.
      * rewrite Ht1, Ht2. exact Hsym.
      * rewrite Ht2. exact (Hother1 resp1 d1 Ho1 Hd1).
    + apply map_commute. intros p. apply confirm_confirm.
      * rewrite Ht1, Ht2. exact Hdistinct.
      * rewrite Ht2. exact (Hother1 resp1 d1 Ho1 Hd1).
      * rewrite Ht1. exact (Hother2 resp2 d2 Ho2 Hd2).
Qed.

Lemma sample_confirms_other :
  Facts.confirms_other
    (Handler.Resolved (Sample.success_with {| comment_of := Sample.new_comment |}))
    (Facts.provisional_id Sample.ambient_later).
Proof.
  intros r d Ho Hd. injection Ho as <-. simpl in Hd. injection Hd as <-. reflexivity.
Defined.

Lemma sample_threw_confirms_other :
  Facts.confirms_other Handler.Threw (Facts.provisional_id Sample.ambient).
Proof. intros r d Ho. discriminate Ho. Defined.

Lemma overlapping_actions_witness :
  (forall p,
     In p (Dashboard.posts
             (Handler.after (Dashboard.handleLike Sample.feed 42) Sample.too_many
                Sample.after_second_click)) ->
     Post.id p = 42 ->
     Post.is_liked p = false /\ Post.likes_count p = 10)
  /\ Dashboard.posts
       (Handler.after (Dashboard.handleComment Sample.ambient Sample.feed 42)
          (Handler.Resolved (Sample.success_with {| comment_of := Sample.new_comment |}))
          (Handler.after (Dashboard.handleComment Sample.ambient_later Sample.feed 42)
             Handler.Threw Sample.feed))
     = Dashboard.posts
         (Handler.after (Dashboard.handleComment Sample.ambient_later Sample.feed 42)
            Handler.Threw
            (Handler.after (Dashboard.handleComment Sample.ambient Sample.feed 42)
               (Handler.Resolved (Sample.success_with {| comment_of := Sample.new_comment |}))
               Sample.feed)).
Proof.
  pose proof (overlapping_actions Sample.feed Sample.after_second_click 42 Sample.post42
                Sample.too_many Sample.ambient Sample.ambient_later Sample.feed Sample.feed
                (Handler.Resolved (Sample.success_with {| comment_of := Sample.new_comment |}))
                Handler.Threw
                eq_refl eq_refl eq_refl eq_refl
                sample_confirms_other sample_threw_confirms_other)
    as (_ & Hlike & Hcomments).
  exact (conj Hlike Hcomments).
Defined.

(** C7 on the code.  Two like actions on post 42 overlap: the second
    click comes from the render that shows the first one's optimistic
    update, so the first issues the like call and the second the unlike
    call.  Both calls fail, the first one's failure arriving first, so the
    server still has the post not liked with 10 likes.  The two optimistic
    steps cancel, and the first rollback writes back "not liked, 10"; the
    second rollback then writes back what its own render showed, "liked,
    11".  The dashboard ends on a state that no successful call produced
    and that is not the feed before the two actions; with the failures in
    the other order it ends on "not liked, 10", so the final state depends
    on the arrival order. *)
Theorem overlapping_likes_lose_a_rollback :
  Handler.issued Sample.first_like = Some (Handler.likePost 42)
  /\ Handler.issued Sample.second_like = Some (Handler.unlikePost 42)
  /\ Cases.likes Sample.feed = [(42, false, 10); (43, true, 2)]
  /\ Cases.likes Sample.after_first_click = [(42, true, 11); (43, true, 2)]
  /\ Cases.likes Sample.after_second_click = [(42, false, 10); (43, true, 2)]
  /\ Cases.likes (Handler.after Sample.first_like Sample.too_many Sample.after_second_click)
     = [(42, false, 10); (43, true, 2)]
  /\ Cases.likes Sample.after_both_failed = [(42, true, 11); (43, true, 2)]
  /\ Cases.likes
       (Handler.after Sample.first_like Sample.too_many
          (Handler.after Sample.second_like Sample.too_many Sample.after_second_click))
     = [(42, false, 10); (43, true, 2)]
  /\ Cases.likes Sample.after_both_failed <> Cases.likes Sample.feed.
Proof.
  split; [reflexivity |]. split; [reflexivity |]. split; [reflexivity |].
  split; [reflexivity |]. split; [reflexivity |]. split; [reflexivity |].
  split; [reflexivity |]. split; [reflexivity |]. discriminate.
Qed.

(** ** Pagination *)

Lemma loaded_has_more (response : ApiResponse PostsResponse) (d : PostsResponse)
    (s : Dashboard.State) :
  success response = true -> data response = Some d ->
  current_page (pagination_of d) <= last_page (pagination_of d) ->
  (Dashboard.hasMorePosts (Dashboard.loaded response s) = false
   <-> current_page (pagination_of d) = last_page (pagination_of d))
  /\ Dashboard.pagination (Dashboard.loaded response s) = Some (pagination_of d)
  /\ Dashboard.posts (Dashboard.loaded response s) = Dashboard.posts s ++ posts_of d.
Proof.
  intros Hok Hd Hle. unfold Dashboard.loaded. rewrite Hok, Hd. simpl.
  split; [| split; reflexivity].
  rewrite Z.ltb_ge. lia.
Qed.

Lemma loadMorePosts_guard (r : Dashboard.State) :
  Dashboard.hasMorePosts r = false \/ Dashboard.isLoadingMore r = true
  \/ Dashboard.pagination r = None ->
  Handler.issued (Dashboard.loadMorePosts r) = None.
Proof.
  unfold Dashboard.loadMorePosts. intros [H | [H | H]]; rewrite H;
    destruct (Dashboard.pagination r); simpl; try reflexivity;
    destruct (Dashboard.hasMorePosts r); reflexivity.
Qed.

(** C6 on the code.  With page 1 of 3 shown, [loadMorePosts] calls
    [getPosts(2, 10)], and with page 2 shown [getPosts(3, 10)]; but
    [getPosts] takes no parameter, so for every page and page size the
    client sends the one request for the posts endpoint, without a query
    string, and the two calls (like the first fetch of page 1) get the
    same answer from any network. *)
Theorem loadMorePosts_refetches_same_request (c : ApiClient.t) (cfg : ApiConfig)
    (net : FetchCall -> Settle Response) (st : Browser.State) :
  Handler.issued (Dashboard.loadMorePosts (Sample.dashboard 1 "")) = Some (Handler.getPosts 2 10)
  /\ Handler.issued (Dashboard.loadMorePosts (Sample.dashboard 2 "")) = Some (Handler.getPosts 3 10)
  /\ Handler.issued Dashboard.fetchPosts = Some (Handler.getPosts 1 10)
  /\ (forall page perPage,
        Handler.perform c cfg net st (Handler.getPosts page perPage)
        = try_catch (ApiClient.attempt c net (Facts.posts_request c cfg st)) ApiClient.on_error)
  /\ Handler.perform c cfg net st (Handler.getPosts 2 10)
     = Handler.perform c cfg net st (Handler.getPosts 3 10)
  /\ url (Facts.posts_request Sample.client Sample.cfg Sample.browser)
     = "http://localhost:8000/api/post".
Proof. repeat split. Qed.

(** * Further properties *)

(** ** The session store *)

(** The token is written into the cookie unescaped: the cookie keeps
    what precedes the first [;], without the blanks around it. *)
Example unescaped_token_is_cut :
  cookies (ApiClient.setToken "a;b" Sample.browser) !! "auth_token" = Some "a"
  /\ cookies (ApiClient.setToken ";x" Sample.browser) !! "auth_token" = Some ""
  /\ cookies (ApiClient.setToken " a b " Sample.browser) !! "auth_token" = Some "a b"
  /\ ApiClient.getToken (ApiClient.setToken "a;b" Sample.browser) = Some "a;b"
  /\ ~ Laws.mirrored (ApiClient.setToken "a;b" Sample.browser).
Proof.
  split; [reflexivity |]. split; [reflexivity |]. split; [reflexivity |].
  split; [reflexivity |]. intros H. discriminate H.
Qed.






(** X3.  Where there is no browser context, the session store is inert:
    no token is read, nothing counts as a session, [setToken] and
    [removeToken] change nothing, and a request carries the headers it
    would carry without a token. *)
Theorem no_window_is_inert (c : ApiClient.t) (st : Browser.State) (token endpoint : string)
    (options : ApiClient.RequestInit) :
  window st = false ->
  ApiClient.getToken st = None
  /\ ApiClient.isAuthenticated st = false
  /\ ApiClient.setToken token st = st
  /\ ApiClient.removeToken st = st
  /\ ApiClient.getToken (ApiClient.setToken token st) = None
  /\ headers (ApiClient.request_call c st endpoint options)
     = ApiClient.request_headers options.
Proof.
  intros Hw.
  unfold ApiClient.request_call, ApiClient.authorize, ApiClient.isAuthenticated,
    ApiClient.getToken, ApiClient.setToken, ApiClient.removeToken.
  rewrite Hw. simpl. rewrite ?Hw. repeat split.
Qed.

Lemma no_window_is_inert_witness :
  ApiClient.setToken "tok"
    {| window := false; localStorage := ∅; cookies := ∅ |}
  = {| window := false; localStorage := ∅; cookies := ∅ |}.
Proof.
  exact (proj1 (proj2 (proj2
    (no_window_is_inert Sample.client {| window := false; localStorage := ∅; cookies := ∅ |}
       "tok" "/me" ApiClient.no_options eq_refl)))).
Defined.

(** X4.  A request carries [Authorization: Bearer token] exactly when the
    store holds a session, and then with the stored token, replacing any
    such header of the caller; otherwise its headers are the caller's, or
    the two JSON defaults when the caller gives none.  Headers given by
    the caller replace the defaults altogether.  The file upload never
    carries a [Content-Type] header of its own. *)
Theorem authorization_header (c : ApiClient.t) (cfg : ApiConfig) (st : Browser.State)
    (endpoint : string) (options : ApiClient.RequestInit)
    (formData : list (string * FormValue)) :
  let sent := headers (ApiClient.request_call c st endpoint options) in
  (ApiClient.isAuthenticated st = true ->
   exists token,
     ApiClient.getToken st = Some token
     /\ sent !! "Authorization" = Some ("Bearer " +:+ token)
     /\ forall key, key <> "Authorization" ->
                    sent !! key = ApiClient.request_headers options !! key)
  /\ (ApiClient.isAuthenticated st = false -> sent = ApiClient.request_headers options)
  /\ (forall hs, ApiClient.init_headers options = Some hs ->
                 ApiClient.request_headers options = hs)
  /\ (ApiClient.init_headers options = None ->
      ApiClient.request_headers options !! "Content-Type" = Some "application/json"
      /\ ApiClient.request_headers options !! "Accept" = Some "application/json")
  /\ headers (ApiClient.createPostWithFile_call c cfg st formData) !! "Content-Type" = None
  /\ headers (ApiClient.createPostWithFile_call c cfg st formData) !! "Accept"
     = Some "application/json".
Proof.
  cbv zeta. unfold ApiClient.request_call, ApiClient.createPostWithFile_call,
    ApiClient.authorize, ApiClient.isAuthenticated, ApiClient.request_headers.
  cbn [headers].
  destruct (ApiClient.getToken st) as [token |]; [destruct (String.eqb token "") |]; simpl.
  all: split; [| split; [| split; [| split; [| split]]]].
  all: try discriminate; try reflexivity.
  all: try (intros hs ->; reflexivity).
  all: try (intros ->; split; reflexivity).
  intros _. exists token. split; [reflexivity |]. split.
  - apply lookup_insert_eq.
  - intros key Hkey. apply lookup_insert_ne. congruence.
Qed.

(** ** The transport, continued *)

Lemma on_error_well_formed (e : Thrown) : Laws.well_formed (ApiClient.on_error e).
Proof.
  split.
  - intros _. split; [| apply on_error_truthy].
    destruct (on_error_is_fault e) as (d & _ & ->). reflexivity.
  - destruct (on_error_is_fault e) as (d & _ & ->). discriminate.
Qed.

Lemma try_catch_dependable (c : ApiClient.t) (net : FetchCall -> Settle Response)
    (call : FetchCall) :
  Laws.dependable (try_catch (ApiClient.attempt c net call) ApiClient.on_error).
Proof.
  unfold ApiClient.attempt.
  destruct (fetch (net call) (ApiClient.timeout c)) as [t0 response | t0 e |];
    [| exact (on_error_well_formed e) | exact I].
  cbn [await try_catch].
  destruct (json response) as [t1 body | t1 e |];
    [| exact (on_error_well_formed e) | exact I].
  cbn [await].
  destruct (negb (ok response)).
  - destruct (get body "message") as [e | m];
      [exact (on_error_well_formed (ThrowError e)) |].
    destruct (get body "errors") as [e | errs];
      [exact (on_error_well_formed (ThrowError e)) |].
    cbn. split; [| discriminate].
    intros _. split; [reflexivity | apply or_truthy; reflexivity].
  - destruct (get body "data") as [e | d];
      [exact (on_error_well_formed (ThrowError e)) |].
    destruct (get body "message") as [e | m];
      [exact (on_error_well_formed (ThrowError e)) |].
    cbn. split; [discriminate | reflexivity].
Qed.

(** From the token read on, every public method is dependable. *)
Lemma methods_dependable (c : ApiClient.t) (cfg : ApiConfig)
    (net : FetchCall -> Settle Response) (st : Browser.State)
    (name email password confirmation content image : string) (postId : Z)
    (formData : list (string * FormValue)) :
  Laws.dependable (ApiClient.login c cfg net st email password)
  /\ Laws.dependable (ApiClient.register c cfg net st name email password confirmation)
  /\ Laws.dependable (fst (ApiClient.logout c cfg net st))
  /\ Laws.dependable (ApiClient.getProfile c cfg net st)
  /\ Laws.dependable (ApiClient.getPosts c cfg net st)
  /\ Laws.dependable (ApiClient.createPost c cfg net st content image)
  /\ Laws.dependable (ApiClient.createPostWithFile c cfg st net formData)
  /\ Laws.dependable (ApiClient.likePost c cfg net st postId)
  /\ Laws.dependable (ApiClient.unlikePost c cfg net st postId)
  /\ Laws.dependable (ApiClient.createComment c cfg net st postId content)
  /\ Laws.dependable (ApiClient.getPostComments c cfg net st postId).
Proof.
  assert (Hlogout : Laws.dependable (fst (ApiClient.logout c cfg net st))).
  { unfold ApiClient.logout.
    pose proof (try_catch_dependable c net
                  (ApiClient.request_call c st (LOGOUT (ENDPOINTS cfg))
                     (ApiClient.with_method "POST"))) as H.
    fold (ApiClient.request c st net (LOGOUT (ENDPOINTS cfg)) (ApiClient.with_method "POST"))
      in H.
    destruct (ApiClient.request c st net (LOGOUT (ENDPOINTS cfg))
                (ApiClient.with_method "POST")); exact H. }
  split; [apply try_catch_dependable |].
  split; [apply try_catch_dependable |].
  split; [exact Hlogout |].
  repeat (split; [apply try_catch_dependable |]).
  apply try_catch_dependable.
Qed.

(** X5.  Every public method of the client reads the token before any
    [try] block.  Where that read throws, the method rejects at once with
    the exception thrown.  Where it does not, the method never rejects, on
    any network: a failure envelope has no data and a truthy message, and
    a success envelope has no errors.  The read throws only in a browser
    context whose local storage is denied. *)
Theorem client_calls_dependable (c : ApiClient.t) (cfg : ApiConfig)
    (net : FetchCall -> Settle Response) (h : Host.t)
    (name email password confirmation content image : string) (postId : Z)
    (formData : list (string * FormValue)) :
  List.Forall (Laws.rejects_on_denial h)
    [ Host.call h (fun st => ApiClient.login c cfg net st email password);
      Host.call h (fun st => ApiClient.register c cfg net st name email password confirmation);
      fst (Host.logout c cfg net h);
      Host.call h (ApiClient.getProfile c cfg net);
      Host.call h (ApiClient.getPosts c cfg net);
      Host.call h (fun st => ApiClient.createPost c cfg net st content image);
      Host.createPostWithFile c cfg h net formData;
      Host.call h (fun st => ApiClient.likePost c cfg net st postId);
      Host.call h (fun st => ApiClient.unlikePost c cfg net st postId);
      Host.call h (fun st => ApiClient.createComment c cfg net st postId content);
      Host.call h (fun st => ApiClient.getPostComments c cfg net st postId) ]
  /\ (forall e, Host.getToken h = inl e <->
                window (Host.store h) = true /\ Host.denied h = Some e)
  /\ (forall token, Host.getToken h = inr token ->
                    token = ApiClient.getToken (Host.store h)).
Proof.
  split; [| split].
  - pose proof (methods_dependable c cfg net (Host.store h) name email password confirmation
                  content image postId formData)
      as (H1 & H2 & H3 & H4 & H5 & H6 & H7 & H8 & H9 & H10 & H11).
    unfold Laws.rejects_on_denial, Host.createPostWithFile, Host.call, Host.logout.
    destruct (Host.getToken h) as [e | token]; cbn [step fst].
    + repeat (constructor; [reflexivity |]). constructor.
    + repeat (constructor; [assumption |]). constructor.
  - intros e. unfold Host.getToken.
    destruct (window (Host.store h)); [| split; [discriminate | intros [H _]; discriminate H]].
    destruct (Host.denied h) as [e' |].
    + split; [intros H; injection H as ->; auto | intros [_ H]; injection H as ->; reflexivity].
    + split; [discriminate | intros [_ H]; discriminate H].
  - intros token. unfold Host.getToken, ApiClient.getToken.
    destruct (window (Host.store h)); [| intros H; injection H as <-; reflexivity].
    destruct (Host.denied h); [discriminate |]. intros H; injection H as <-. reflexivity.
Qed.

(** X6.  A response that arrives in time is still reported as a failure,
    whatever its status, when its body cannot be decoded (the decoding
    error's message is passed on) or decodes to [null] (the TypeError of
    the first property read is passed on). *)
Theorem undecodable_body_is_failure (c : ApiClient.t) (st : Browser.State)
    (endpoint : string) (options : ApiClient.RequestInit) (t t' : N) (status : Z)
    (e : Thrown) :
  (t < ApiClient.timeout c)%N ->
  ApiClient.request c st
    (fun _ => Fulfilled t {| status := status; json := Rejected t' e |}) endpoint options
  = Fulfilled t' (ApiClient.on_error e)
  /\ ApiClient.request c st (answering t t' status JNull) endpoint options
     = Fulfilled t'
         (Facts.fault_envelope
            ("Cannot read properties of null (reading '"
             +:+ (if ok {| status := status; json := Pending |} then "data" else "message")
             +:+ "')")).
Proof.
  intros Ht. unfold ApiClient.request, ApiClient.attempt, answering.
  rewrite !(fetch_answered c t _ Ht). cbn [await json]. split; [reflexivity |].
  unfold ok. cbn [Browser.status]. destruct ((200 <=? status) && (status <=? 299)); reflexivity.
Qed.

Lemma undecodable_body_is_failure_witness :
  ApiClient.request Sample.client Sample.browser (answering 120 150 204 JNull)
    "/me" ApiClient.no_options
  = Fulfilled 150
      (Facts.fault_envelope "Cannot read properties of null (reading 'data')").
Proof.
  exact (proj2 (undecodable_body_is_failure Sample.client Sample.browser "/me"
                  ApiClient.no_options 120 150 204 (ThrowOther JNull) eq_refl)).
Defined.

(** X7.  For a response that arrives in time with an object as body, the
    envelope reports success exactly when the status lies in 200..299. *)
Theorem success_iff_2xx (c : ApiClient.t) (st : Browser.State) (endpoint : string)
    (options : ApiClient.RequestInit) (t t' : N) (status : Z)
    (fields : list (string * jsval)) :
  (t < ApiClient.timeout c)%N ->
  exists env,
    ApiClient.request c st (answering t t' status (JObj fields)) endpoint options
    = Fulfilled t' env
    /\ (ApiClient.success env = true <-> 200 <= status <= 299).
Proof.
  intros Ht. unfold ApiClient.request.
  rewrite (attempt_object c _ _ t t' status fields Ht eq_refl).
  unfold ok. cbn [Browser.status].
  destruct (Z.leb_spec 200 status), (Z.leb_spec status 299); simpl;
    eexists; (split; [reflexivity |]); simpl; split; intros; (lia || congruence).
Qed.

Lemma success_iff_2xx_witness :
  exists env,
    ApiClient.request Sample.client Sample.browser
      (answering 120 150 300 (JObj [("data", JStr "moved")])) "/me" ApiClient.no_options
    = Fulfilled 150 env
    /\ (ApiClient.success env = true <-> 200 <= 300 <= 299).
Proof.
  exact (success_iff_2xx Sample.client Sample.browser "/me" ApiClient.no_options
           120 150 300 [("data", JStr "moved")] eq_refl).
Defined.

(** X8.  A 2xx response whose body is not an object but an array, a
    string, a number or a boolean (an API that returns the payload
    directly) yields a success envelope whose data is that body, falsy or
    not, with no message. *)
Theorem bare_payload_is_data (c : ApiClient.t) (st : Browser.State) (endpoint : string)
    (options : ApiClient.RequestInit) (t t' : N) (status : Z) (body : jsval) :
  (t < ApiClient.timeout c)%N ->
  200 <= status <= 299 ->
  Laws.bare body ->
  ApiClient.request c st (answering t t' status body) endpoint options
  = Fulfilled t'
      {| ApiClient.success := true;
         ApiClient.data := body;
         ApiClient.message := JUndefined;
         ApiClient.errors := JUndefined |}.
Proof.
  intros Ht Hstatus Hbare. unfold ApiClient.request, ApiClient.attempt, answering.
  rewrite (fetch_answered c t _ Ht). cbn [await json try_catch].
  assert (Hok : ok {| status := status; json := Fulfilled t' body |} = true).
  { unfold ok. cbn [Browser.status].
    destruct (Z.leb_spec 200 status), (Z.leb_spec status 299); simpl; (reflexivity || lia). }
  rewrite Hok. destruct body; try contradiction; reflexivity.
Qed.

Lemma bare_payload_is_data_witness :
  ApiClient.getPostComments Sample.client Sample.cfg (answering 120 150 200 (JArr [])) Sample.browser 42
  = Fulfilled 150
      {| ApiClient.success := true;
         ApiClient.data := JArr [];
         ApiClient.message := JUndefined;
         ApiClient.errors := JUndefined |}.
Proof.
  exact (bare_payload_is_data Sample.client Sample.browser
           (ApiClient.comment_endpoint Sample.cfg 42) ApiClient.no_options
           120 150 200 (JArr []) eq_refl (conj (Zle_bool_imp_le 200 200 eq_refl)
                                             (Zle_bool_imp_le 200 299 eq_refl)) I).
Defined.

(** X9.  A call that gets no response in time (the connection fails, or
    nothing arrives before the abort) returns a failure envelope no later
    than the timeout. *)
Theorem no_response_fails_within_budget (c : ApiClient.t) (st : Browser.State)
    (net : FetchCall -> Settle Response) (endpoint : string)
    (options : ApiClient.RequestInit) :
  (forall t r, net (ApiClient.request_call c st endpoint options) = Fulfilled t r ->
               (ApiClient.timeout c <= t)%N) ->
  exists t env,
    ApiClient.request c st net endpoint options = Fulfilled t env
    /\ (t <= ApiClient.timeout c)%N
    /\ ApiClient.success env = false
    /\ ApiClient.data env = JUndefined.
Proof.
  intros Hnone. unfold ApiClient.request, ApiClient.attempt, fetch.
  destruct (net (ApiClient.request_call c st endpoint options)) as [t r | t e |] eqn:Hnet.
  - specialize (Hnone t r eq_refl).
    destruct (N.ltb_spec t (ApiClient.timeout c)) as [Hlt | _]; [lia |].
    exists (ApiClient.timeout c), Facts.timeout_envelope. repeat split. lia.
  - destruct (N.ltb_spec t (ApiClient.timeout c)) as [Hlt | _]; cbn [await try_catch].
    + exists t, (ApiClient.on_error e).
      destruct (on_error_is_fault e) as (d & _ & ->). repeat split. lia.
    + exists (ApiClient.timeout c), Facts.timeout_envelope. repeat split. lia.
  - exists (ApiClient.timeout c), Facts.timeout_envelope. repeat split. lia.
Qed.

Lemma no_response_fails_within_budget_witness :
  exists t env,
    ApiClient.request Sample.client Sample.browser Sample.refuses "/me" ApiClient.no_options
    = Fulfilled t env
    /\ (t <= ApiClient.timeout Sample.client)%N
    /\ ApiClient.success env = false
    /\ ApiClient.data env = JUndefined.
Proof.
  apply (no_response_fails_within_budget Sample.client Sample.browser Sample.refuses "/me"
           ApiClient.no_options).
  intros t r H. discriminate H.
Defined.

(** ** Endpoints *)

Lemma length_append (s t : string) :
  String.length (s +:+ t) = (String.length s + String.length t)%nat.
Proof. induction s as [| a s IH]; simpl; [reflexivity | rewrite IH; reflexivity]. Qed.

Lemma append_cancel_r (s1 s2 t : string) : s1 +:+ t = s2 +:+ t -> s1 = s2.
Proof.
  revert s2. induction s1 as [| a s1 IH]; intros [| b s2] H; simpl in *.
  - reflexivity.
  - apply (f_equal String.length) in H. rewrite !length_append in H. simpl in H. lia.
  - apply (f_equal String.length) in H. rewrite !length_append in H. simpl in H. lia.
  - injection H as -> H. f_equal. apply IH. exact H.
Qed.

Lemma chars_append (s t : string) :
  list_ascii_of_string (s +:+ t) = list_ascii_of_string s ++ list_ascii_of_string t.
Proof. induction s as [| a s IH]; simpl; [reflexivity | rewrite IH; reflexivity]. Qed.

(** X10.  The like and comment endpoints of two posts are the same only
    if the posts are the same, and no like endpoint is a comment
    endpoint. *)
Theorem post_endpoints_distinct (cfg : ApiConfig) (a b : Z) :
  (ApiClient.like_endpoint cfg a = ApiClient.like_endpoint cfg b -> a = b)
  /\ (ApiClient.comment_endpoint cfg a = ApiClient.comment_endpoint cfg b -> a = b)
  /\ ApiClient.like_endpoint cfg a <> ApiClient.comment_endpoint cfg b.
Proof.
  unfold ApiClient.like_endpoint, ApiClient.comment_endpoint.
  split; [| split].
  - intros H. apply String.app_inj in H. apply String.app_inj in H.
    apply append_cancel_r in H. apply (inj pretty) in H. exact H.
  - intros H. apply String.app_inj in H. apply String.app_inj in H.
    apply append_cancel_r in H. apply (inj pretty) in H. exact H.
  - intros H. apply String.app_inj in H. apply String.app_inj in H.
    apply (f_equal (fun s => List.last (list_ascii_of_string s) "x"%char)) in H.
    rewrite !chars_append in H.
    change (list_ascii_of_string "/like")
      with (list_ascii_of_string "/lik" ++ ["e"%char]) in H.
    change (list_ascii_of_string "/comment")
      with (list_ascii_of_string "/commen" ++ ["t"%char]) in H.
    rewrite !List.app_assoc, !List.last_last in H. discriminate H.
Qed.

(** ** Pagination, continued *)

Lemma loadMorePosts_cases (r : Dashboard.State) :
  (Handler.issued (Dashboard.loadMorePosts r) = None
   /\ Dashboard.loadMorePosts r = Handler.Done (fun s => s)
   /\ (Dashboard.pagination r = None \/ Dashboard.hasMorePosts r = false
       \/ Dashboard.isLoadingMore r = true))
  \/ (exists pg,
        Dashboard.pagination r = Some pg /\ Dashboard.hasMorePosts r = true
        /\ Dashboard.isLoadingMore r = false
        /\ Dashboard.loadMorePosts r
           = Handler.Await (Dashboard.setIsLoadingMore true)
               (Handler.getPosts (current_page pg + 1) 10)
               (fun o s =>
                  Dashboard.setIsLoadingMore false
                    match o with
                    | Handler.Resolved response => Dashboard.loaded response s
                    | Handler.Threw =>
                        Dashboard.setError (Some "Network error. Please try again.") s
                    end)).
Proof.
  unfold Dashboard.loadMorePosts.
  destruct (Dashboard.pagination r) as [pg |]; [| left; auto].
  destruct (Dashboard.hasMorePosts r); [| left; auto].
  destruct (Dashboard.isLoadingMore r); [left; auto |].
  right. exists pg. auto.
Qed.

(** X11.  [loadMorePosts] sends nothing and changes nothing exactly when
    no page has been loaded yet, the last response said there are no more
    pages, or a page fetch is in flight; otherwise it asks [getPosts] for
    the page after the current one, ten posts a page.  The scroll
    observer sends nothing when its target is not in view or
    [loadMorePosts] would send nothing. *)
Theorem loadMorePosts_issues_iff (r s : Dashboard.State)
    (o : Handler.Outcome PostsResponse) (isIntersecting : bool) :
  let h := Dashboard.loadMorePosts r in
  (Handler.issued h = None
   <-> Dashboard.pagination r = None \/ Dashboard.hasMorePosts r = false
       \/ Dashboard.isLoadingMore r = true)
  /\ (forall pg,
        Dashboard.pagination r = Some pg -> Handler.issued h <> None ->
        Handler.issued h = Some (Handler.getPosts (current_page pg + 1) 10))
  /\ (Handler.issued h = None -> Handler.run h o s = s)
  /\ (Handler.issued (Page.onIntersect r isIntersecting) = None
      <-> isIntersecting = false \/ Handler.issued h = None).
Proof.
  cbv zeta. unfold Page.onIntersect.
  destruct (loadMorePosts_cases r) as [(Hnone & Hdone & Hwhy) | (pg & Hpg & Hmore & Hload & Hawait)].
  - rewrite Hdone. simpl. split; [tauto |]. split; [intros pg _ H; contradiction |].
    split; [reflexivity |].
    destruct (isIntersecting && Dashboard.hasMorePosts r && negb (Dashboard.isLoadingMore r));
      simpl; tauto.
  - rewrite Hawait, Hpg, Hmore, Hload. simpl. split.
    + split; [discriminate | intros [H | [H | H]]; discriminate].
    + split; [intros pg' [= <-] _; reflexivity |].
      split; [discriminate |].
      destruct isIntersecting; simpl; split; auto; try discriminate.
      intros [H | H]; discriminate.
Qed.

(** X12.  When a page fetch fails (a failure envelope, no payload, or a
    throw), the feed, the cursor and the has-more flag are what they were,
    the in-flight flag is cleared and the error shown is the envelope's
    message (or "Failed to load more posts"), resp. the network-error
    text; a new trigger from the resulting render asks for the same page
    again. *)
Theorem loadMorePosts_failure_keeps_cursor (r s : Dashboard.State)
    (o : Handler.Outcome PostsResponse) :
  Laws.unloaded o ->
  let h := Dashboard.loadMorePosts r in
  Laws.cursor (Handler.run h o s) = Laws.cursor s
  /\ (Handler.issued h <> None ->
      Dashboard.isLoadingMore (Handler.run h o s) = false
      /\ Dashboard.error (Handler.run h o s)
         = Some (Laws.shown_error "Failed to load more posts" o)
      /\ Handler.issued (Dashboard.loadMorePosts (Handler.run h o r)) = Handler.issued h).
Proof.
  intros Ho h. subst h.
  destruct (loadMorePosts_cases r) as [(Hnone & Hdone & Hwhy) | (pg & Hpg & Hmore & Hload & Hawait)].
  - rewrite Hdone. simpl. split; [reflexivity | intros H; contradiction].
  - rewrite Hawait. unfold Handler.run. simpl.
    assert (Hfail : forall s0,
               match o with
               | Handler.Resolved response => Dashboard.loaded response s0
               | Handler.Threw =>
                   Dashboard.setError (Some "Network error. Please try again.") s0
               end
               = Dashboard.setError (Some (Laws.shown_error "Failed to load more posts" o)) s0).
    { intros s0. destruct o as [resp |]; simpl in *; [| reflexivity].
      unfold Dashboard.loaded. destruct Ho as [Hno | Hno]; rewrite Hno; [reflexivity |].
      destruct (success resp); reflexivity. }
    rewrite !Hfail. simpl. split; [reflexivity |]. intros _.
    split; [reflexivity |]. split; [reflexivity |].
    unfold Dashboard.loadMorePosts. simpl. rewrite Hpg, Hmore. reflexivity.
Qed.

Lemma loadMorePosts_failure_keeps_cursor_witness :
  Laws.cursor (Handler.run (Dashboard.loadMorePosts Sample.feed) Handler.Threw Sample.feed)
  = ([Sample.post42; Sample.post43], Some (Sample.page 1 3), true).
Proof.
  exact (proj1 (loadMorePosts_failure_keeps_cursor Sample.feed Sample.feed Handler.Threw I)).
Defined.

(** X13.  When a page fetch succeeds, the new posts are appended after the
    ones shown (which keep their places), the cursor is the one of the
    response, the has-more flag says whether its current page is before
    its last page, the in-flight flag is cleared and the error shown is
    left alone; when the response's current page is not before its last
    page, the next trigger sends nothing. *)
Theorem loadMorePosts_success_appends (r s : Dashboard.State)
    (response : ApiResponse PostsResponse) (d : PostsResponse) :
  success response = true -> data response = Some d ->
  Handler.issued (Dashboard.loadMorePosts r) <> None ->
  let s' := Handler.run (Dashboard.loadMorePosts r) (Handler.Resolved response) s in
  Dashboard.posts s' = Dashboard.posts s ++ posts_of d
  /\ (forall (i : nat) p, Dashboard.posts s !! i = Some p -> Dashboard.posts s' !! i = Some p)
  /\ Dashboard.pagination s' = Some (pagination_of d)
  /\ Dashboard.hasMorePosts s'
     = (current_page (pagination_of d) <? last_page (pagination_of d))
  /\ Dashboard.isLoadingMore s' = false
  /\ Dashboard.error s' = Dashboard.error s
  /\ (last_page (pagination_of d) <= current_page (pagination_of d) ->
      Handler.issued (Dashboard.loadMorePosts s') = None).
Proof.
  intros Hok Hd Hissued s'. subst s'.
  destruct (loadMorePosts_cases r) as [(Hnone & _) | (pg & Hpg & Hmore & Hload & Hawait)];
    [contradiction |].
  rewrite Hawait. unfold Handler.run, Dashboard.loaded. simpl. rewrite Hok, Hd. simpl.
  split; [reflexivity |]. split; [intros i p Hi; apply lookup_app_l_Some; exact Hi |].
  split; [reflexivity |]. split; [reflexivity |]. split; [reflexivity |].
  split; [reflexivity |].
  intros Hlast. unfold Dashboard.loadMorePosts. simpl.
  destruct (Z.ltb_spec (current_page (pagination_of d)) (last_page (pagination_of d)));
    [lia | reflexivity].
Qed.

Lemma loadMorePosts_success_appends_witness :
  Dashboard.posts
    (Handler.run (Dashboard.loadMorePosts Sample.feed)
       (Handler.Resolved
          (Sample.success_with
             {| posts_of := [Sample.post43]; pagination_of := Sample.page 3 3 |}))
       Sample.feed)
  = [Sample.post42; Sample.post43; Sample.post43].
Proof.
  exact (proj1 (loadMorePosts_success_appends Sample.feed Sample.feed
                  (Sample.success_with
                     {| posts_of := [Sample.post43]; pagination_of := Sample.page 3 3 |})
                  {| posts_of := [Sample.post43]; pagination_of := Sample.page 3 3 |}
                  eq_refl eq_refl
                  (fun H : Handler.issued (Dashboard.loadMorePosts Sample.feed) = None =>
                     eq_ind (Some (Handler.getPosts 2 10))
                       (fun x => match x with Some _ => True | None => False end) I None H))).
Defined.

(** X14.  While a page fetch is in flight, a render of the state it left
    sends no second one, whether [loadMorePosts] is called directly or by
    the scroll observer; and while the refresh after a new post is in
    flight, no page fetch is sent either. *)
Theorem no_overlapping_page_fetch (r s : Dashboard.State) (isIntersecting : bool) :
  (Handler.issued (Dashboard.loadMorePosts r) <> None ->
   let inflight := Handler.before (Dashboard.loadMorePosts r) s in
   Handler.issued (Dashboard.loadMorePosts inflight) = None
   /\ Handler.issued (Page.onIntersect inflight isIntersecting) = None)
  /\ (let refreshing := Handler.before Dashboard.handlePostCreated s in
      Handler.issued (Dashboard.loadMorePosts refreshing) = None
      /\ Handler.issued (Page.onIntersect refreshing isIntersecting) = None).
Proof.
  split.
  - intros Hissued.
    destruct (loadMorePosts_cases r) as [(Hnone & _) | (pg & Hpg & Hmore & Hload & Hawait)];
      [contradiction |].
    rewrite Hawait. cbv zeta. unfold Page.onIntersect, Dashboard.loadMorePosts. simpl.
    destruct (Dashboard.pagination s); simpl;
      destruct (Dashboard.hasMorePosts s); simpl;
      rewrite ?andb_false_r; split; reflexivity.
  - cbv zeta. unfold Page.onIntersect, Dashboard.loadMorePosts. simpl.
    destruct isIntersecting, (Dashboard.isLoadingMore s); split; reflexivity.
Qed.

(** X15.  [fetchPosts] first clears the error and raises the loading flag,
    keeping the posts shown.  When the call succeeds with a payload, the
    feed is replaced by the page received (nothing of the old feed is
    kept), the cursor is the response's and no error is shown; when it
    fails, the feed and the cursor are what they were and the error is the
    envelope's message (or "Failed to load posts"), resp. the
    network-error text.  The loading flag is cleared either way. *)
Theorem fetchPosts_replaces_or_keeps (s : Dashboard.State)
    (o : Handler.Outcome PostsResponse) :
  let h := Dashboard.fetchPosts in
  Dashboard.isLoadingPosts (Handler.before h s) = true
  /\ Dashboard.error (Handler.before h s) = None
  /\ Laws.cursor (Handler.before h s) = Laws.cursor s
  /\ Dashboard.isLoadingPosts (Handler.run h o s) = false
  /\ (forall response d,
        o = Handler.Resolved response -> success response = true -> data response = Some d ->
        Laws.cursor (Handler.run h o s)
        = (posts_of d, Some (pagination_of d),
           current_page (pagination_of d) <? last_page (pagination_of d))
        /\ Dashboard.error (Handler.run h o s) = None)
  /\ (Laws.unloaded o ->
      Laws.cursor (Handler.run h o s) = Laws.cursor s
      /\ Dashboard.error (Handler.run h o s)
         = Some (Laws.shown_error "Failed to load posts" o)).
Proof.
  cbv zeta. unfold Handler.run. simpl.
  split; [reflexivity |]. split; [reflexivity |]. split; [reflexivity |].
  split; [reflexivity |]. split.
  - intros response d -> Hok Hd. unfold Dashboard.fetched. rewrite Hok, Hd. simpl.
    split; reflexivity.
  - intros Ho. destruct o as [resp |]; simpl in *; [| split; reflexivity].
    unfold Dashboard.fetched. destruct Ho as [Hno | Hno]; rewrite Hno;
      [| destruct (success resp)]; split; reflexivity.
Qed.

(** X16.  After a post was created the cursor is reset at once (no cursor,
    more pages assumed) and the first page is fetched again.  When that
    fetch succeeds the feed is the page received, not merged with what
    was shown; when it fails the feed shown is kept, but the cursor stays
    reset, so that scrolling loads nothing until a fetch succeeds. *)
Theorem handlePostCreated_resets (s : Dashboard.State)
    (o : Handler.Outcome PostsResponse) :
  let h := Dashboard.handlePostCreated in
  Handler.issued h = Some (Handler.getPosts 1 10)
  /\ Dashboard.pagination (Handler.before h s) = None
  /\ Dashboard.hasMorePosts (Handler.before h s) = true
  /\ Dashboard.posts (Handler.before h s) = Dashboard.posts s
  /\ (forall response d,
        o = Handler.Resolved response -> success response = true -> data response = Some d ->
        Dashboard.posts (Handler.run h o s) = posts_of d
        /\ Dashboard.pagination (Handler.run h o s) = Some (pagination_of d))
  /\ (Laws.unloaded o ->
      Dashboard.posts (Handler.run h o s) = Dashboard.posts s
      /\ Dashboard.pagination (Handler.run h o s) = None
      /\ Dashboard.hasMorePosts (Handler.run h o s) = true
      /\ Handler.issued (Dashboard.loadMorePosts (Handler.run h o s)) = None).
Proof.
  cbv zeta. unfold Handler.run. simpl.
  split; [reflexivity |]. split; [reflexivity |]. split; [reflexivity |].
  split; [reflexivity |]. split.
  - intros response d -> Hok Hd. unfold Dashboard.fetched. rewrite Hok, Hd. simpl.
    split; reflexivity.
  - intros Ho. destruct o as [resp |]; simpl in *; [| repeat split].
    unfold Dashboard.fetched. destruct Ho as [Hno | Hno]; rewrite Hno;
      [| destruct (success resp)]; repeat split.
Qed.

(** ** Likes, continued *)

Lemma setPosts_id (s : Dashboard.State) : Dashboard.setPosts (fun ps => ps) s = s.
Proof. destruct s; reflexivity. Qed.

Lemma find_toggled (postId : Z) (feed : list Post.t) :
  List.find (fun p => Post.id p =? postId) feed <> None ->
  List.find (fun p => Post.id p =? postId) (List.map (Dashboard.like_toggle postId) feed)
  <> None.
Proof.
  induction feed as [| p feed IH]; simpl; [auto |].
  unfold Dashboard.like_toggle at 1.
  destruct (Post.id p =? postId) eqn:Hp; simpl; [rewrite Hp; discriminate |].
  rewrite Hp. exact IH.
Qed.

Lemma like_click_succeeds (postId : Z) (o : Handler.Outcome LikeResponse)
    (s : Dashboard.State) :
  Dashboard.may_not_like s = false ->
  List.find (fun p => Post.id p =? postId) (Dashboard.posts s) <> None ->
  Laws.succeeded o ->
  Handler.run (Dashboard.handleLike s postId) o s
  = Dashboard.setPosts (List.map (Dashboard.like_toggle postId)) s.
Proof.
  intros Hmay Hfind Ho. unfold Dashboard.handleLike. rewrite Hmay.
  destruct (List.find _ (Dashboard.posts s)) as [post |]; [| contradiction].
  unfold Handler.run. simpl. destruct o as [resp |]; simpl in *; [| contradiction].
  rewrite Ho. reflexivity.
Qed.

(** X17.  A series of like clicks on a post of the feed by a user who may
    like, each settled with success before the next, leaves the dashboard
    as it was when the number of clicks is even, and with exactly one
    toggle applied (flag negated, counter one off) when it is odd: the
    counter never drifts. *)
Theorem like_clicks_parity (postId : Z) (outcomes : list (Handler.Outcome LikeResponse))
    (s : Dashboard.State) :
  Dashboard.may_not_like s = false ->
  List.find (fun p => Post.id p =? postId) (Dashboard.posts s) <> None ->
  List.Forall Laws.succeeded outcomes ->
  Laws.like_clicks postId outcomes s
  = if Nat.even (length outcomes) then s
    else Dashboard.setPosts (List.map (Dashboard.like_toggle postId)) s.
Proof.
  intros Hmay Hfind Hall.
  assert (Hgen : forall os s0,
             Dashboard.may_not_like s0 = false ->
             List.find (fun p => Post.id p =? postId) (Dashboard.posts s0) <> None ->
             List.Forall Laws.succeeded os ->
             Laws.like_clicks postId os s0
             = Dashboard.setPosts
                 (fun ps => if Nat.even (length os) then ps
                            else List.map (Dashboard.like_toggle postId) ps) s0).
  { induction os as [| o os IH]; intros s0 Hm Hf Hos.
    - simpl. symmetry. apply setPosts_id.
    - apply List.Forall_cons_iff in Hos as [Ho Hos].
      unfold Laws.like_clicks in *. cbn [fold_left].
      rewrite (like_click_succeeds postId o s0 Hm Hf Ho).
      rewrite IH; [| exact Hm | apply find_toggled; exact Hf | exact Hos].
      unfold Dashboard.setPosts. cbn [length]. rewrite Nat.even_succ, <- Nat.negb_even.
      cbn -[Nat.even]. destruct (Nat.even (length os)); cbn; [reflexivity |].
      f_equal. rewrite List.map_map. rewrite <- (List.map_id (Dashboard.posts s0)) at 2.
      apply List.map_ext. intros p. apply like_toggle_twice. }
  rewrite (Hgen outcomes s Hmay Hfind Hall).
  destruct (Nat.even (length outcomes)); [apply setPosts_id | reflexivity].
Qed.

Lemma like_clicks_parity_witness :
  Laws.like_clicks 42
    [Handler.Resolved (Sample.success_with {| liked_of := true; count_of := 11 |});
     Handler.Resolved (Sample.success_with {| liked_of := false; count_of := 10 |});
     Handler.Resolved (Sample.success_with {| liked_of := true; count_of := 11 |})]
    Sample.feed
  = Dashboard.setPosts (List.map (Dashboard.like_toggle 42)) Sample.feed.
Proof.
  refine (like_clicks_parity 42
            [Handler.Resolved (Sample.success_with {| liked_of := true; count_of := 11 |});
             Handler.Resolved (Sample.success_with {| liked_of := false; count_of := 10 |});
             Handler.Resolved (Sample.success_with {| liked_of := true; count_of := 11 |})]
            Sample.feed eq_refl _ _).
  - discriminate.
  - repeat constructor.
Defined.

(** A like by a user without the permission (or with no user loaded)
    sends nothing, scrolls to the top and shows "You do not have
    permission to like posts."; a like on a post that the render does
    not show sends nothing and changes nothing.  The feed is untouched in
    both cases. *)
Theorem handleLike_refused (r s : Dashboard.State) (postId : Z)
    (o : Handler.Outcome LikeResponse) :
  let h := Dashboard.handleLike r postId in
  (Dashboard.may_not_like r = true ->
   Handler.issued h = None
   /\ Handler.run h o s
      = Dashboard.setError (Some "You do not have permission to like posts.")
          (Dashboard.scrollTo 0 s))
  /\ (Dashboard.may_not_like r = false ->
      (forall p, In p (Dashboard.posts r) -> Post.id p <> postId) ->
      Handler.issued h = None /\ Handler.run h o s = s)
  /\ (Dashboard.user r = None -> Dashboard.may_not_like r = true)
  /\ (Handler.issued h = None -> Dashboard.posts (Handler.run h o s) = Dashboard.posts s).
Proof.
  cbv zeta. unfold Dashboard.handleLike.
  split; [intros ->; split; reflexivity |]. split.
  - intros -> Hnone.
    destruct (List.find _ (Dashboard.posts r)) as [post |] eqn:Hfind; [| split; reflexivity].
    apply List.find_some in Hfind as [Hin Hid]. apply Z.eqb_eq in Hid.
    exfalso. exact (Hnone post Hin Hid).
  - split; [unfold Dashboard.may_not_like; intros ->; reflexivity |].
    destruct (Dashboard.may_not_like r); [reflexivity |].
    destruct (List.find _ (Dashboard.posts r)); [discriminate | reflexivity].
Qed.

(** ** The comment box *)

(** X18.  For a signed-in user the Post button of a post is disabled
    exactly when [handleComment] would send nothing; when it is enabled,
    the request carries the trimmed text, whatever the user's permissions
    are and whether or not the post is in the feed.  The comment input is
    rendered only when a user is loaded, and without a user
    [handleComment] sends nothing. *)
Theorem comment_submit_guard (a : Dashboard.Ambient) (r : Dashboard.State) (postId : Z) :
  let h := Dashboard.handleComment a r postId in
  (forall u, Dashboard.user r = Some u ->
     (Page.postDisabled r postId = true <-> Handler.issued h = None)
     /\ (forall raw, Dashboard.newComment r !! postId = Some raw ->
         Page.postDisabled r postId = false ->
         Handler.issued h = Some (Handler.createComment postId (Text.trim raw))))
  /\ (Dashboard.user r = None -> Handler.issued h = None)
  /\ (Page.showsCommentInput r = true -> Dashboard.user r <> None).
Proof.
  cbv zeta. unfold Dashboard.handleComment, Page.postDisabled, Page.showsCommentInput,
    Dashboard.commentText.
  split; [| split].
  - intros u ->. destruct (Dashboard.newComment r !! postId) as [raw |]; simpl.
    + destruct (String.eqb (Text.trim raw) "") eqn:Hblank; simpl.
      * split; [tauto |]. intros raw' _ H. discriminate H.
      * split; [split; discriminate |]. intros raw' [= <-] _. reflexivity.
    + split; [tauto |]. intros raw H. discriminate H.
  - intros ->. destruct (Text.trim <$> Dashboard.newComment r !! postId); reflexivity.
  - destruct (Dashboard.user r); [discriminate | discriminate].
Qed.

(** X19.  An edit of a comment box writes the render's map with one entry
    changed.  So of two edits in different boxes made from the same
    render, the second undoes the first; made from successive renders,
    both are kept.  A submission from the render that shows the edit
    sends the trimmed text, if that is not empty and a user is loaded. *)
Theorem comment_input_snapshot (a : Dashboard.Ambient) (r s : Dashboard.State)
    (p1 p2 : Z) (v1 v2 : string) :
  p1 <> p2 ->
  let stale := Dashboard.handleCommentChange r p2 v2 (Dashboard.handleCommentChange r p1 v1 s) in
  let first := Dashboard.handleCommentChange r p1 v1 s in
  let fresh := Dashboard.handleCommentChange first p2 v2 first in
  Dashboard.newComment stale !! p1 = Dashboard.newComment r !! p1
  /\ Dashboard.newComment stale !! p2 = Some v2
  /\ Dashboard.newComment fresh !! p1 = Some v1
  /\ Dashboard.newComment fresh !! p2 = Some v2
  /\ (Dashboard.user s <> None -> Text.trim v1 <> "" ->
      Handler.issued (Dashboard.handleComment a first p1)
      = Some (Handler.createComment p1 (Text.trim v1))).
Proof.
  intros Hne. cbv zeta. unfold Dashboard.handleCommentChange. simpl.
  rewrite !lookup_insert_eq, !lookup_insert_ne by congruence.
  rewrite lookup_insert_eq.
  split; [reflexivity |]. split; [reflexivity |]. split; [reflexivity |].
  split; [reflexivity |].
  intros Huser Htext. unfold Dashboard.handleComment, Dashboard.commentText. simpl.
  rewrite lookup_insert_eq. simpl.
  destruct (Dashboard.user s); [| contradiction].
  destruct (String.eqb_spec (Text.trim v1) ""); [contradiction | reflexivity].
Qed.

Lemma comment_input_snapshot_witness :
  Dashboard.newComment
    (Dashboard.handleCommentChange Sample.feed 43 "second"
       (Dashboard.handleCommentChange Sample.feed 42 "first" Sample.feed)) !! 42
  = Some "  nice one ".
Proof.
  exact (proj1 (comment_input_snapshot Sample.ambient Sample.feed Sample.feed 42 43
                  "first" "second"
                  (fun H : 42 = 43 =>
                     eq_ind 42 (fun z => match z with 42 => True | _ => False end) I 43 H))).
Defined.

(** X20.  Toggling the comments of a post negates its expanded flag and
    leaves the flag of every other post, and everything else on the
    dashboard, alone; toggling twice shows every post as before. *)
Theorem toggleComments_flips (s : Dashboard.State) (postId other : Z) :
  Page.expanded (Page.toggleComments postId s) postId = negb (Page.expanded s postId)
  /\ (other <> postId ->
      Page.expanded (Page.toggleComments postId s) other = Page.expanded s other)
  /\ Page.expanded (Page.toggleComments postId (Page.toggleComments postId s)) other
     = Page.expanded s other
  /\ Dashboard.posts (Page.toggleComments postId s) = Dashboard.posts s
  /\ Dashboard.newComment (Page.toggleComments postId s) = Dashboard.newComment s.
Proof.
  unfold Page.expanded, Page.toggleComments. simpl.
  split; [rewrite lookup_insert_eq; reflexivity |].
  split; [intros Hne; rewrite lookup_insert_ne by congruence; reflexivity |].
  split; [| split; reflexivity].
  destruct (Z.eq_dec other postId) as [-> | Hne].
  - rewrite !lookup_insert_eq. simpl. apply negb_involutive.
  - rewrite !lookup_insert_ne by congruence. reflexivity.
Qed.

Lemma slice_last_snoc {A : Type} (n : nat) (cs : list A) (c : A) :
  (0 < n)%nat -> last (Page.slice_last n (cs ++ [c])) = Some c.
Proof.
  intros Hn. unfold Page.slice_last.
  rewrite List.length_app. simpl.
  rewrite List.skipn_app.
  replace (length cs + 1 - n - length cs)%nat with 0%nat by lia.
  simpl. apply last_snoc.
Qed.

(** X21.  The comments rendered under a post are always a suffix of its
    comments: all of them when the post is expanded, the last two (or
    fewer, if it has fewer) when it is not; the toggle button is rendered
    exactly when the collapsed view hides a comment.  A comment just
    appended by a submission is therefore always the last one rendered. *)
Theorem visible_comments (r : Dashboard.State) (post : Post.t) (temp : Comment.t) :
  (exists hidden, Post.comments post = hidden ++ Page.visibleComments r post)
  /\ (Page.expanded r (Post.id post) = true ->
      Page.visibleComments r post = Post.comments post)
  /\ (Page.expanded r (Post.id post) = false ->
      length (Page.visibleComments r post) = Nat.min 2 (length (Post.comments post))
      /\ (Page.showsToggle post = true
          <-> (length (Page.visibleComments r post) < length (Post.comments post))%nat))
  /\ last (Page.visibleComments r (Dashboard.comment_append (Post.id post) temp post))
     = Some temp.
Proof.
  unfold Page.visibleComments, Page.showsToggle.
  split; [| split; [| split]].
  - destruct (Page.expanded r (Post.id post)).
    + exists []. reflexivity.
    + exists (firstn (length (Post.comments post) - 2) (Post.comments post)).
      unfold Page.slice_last. symmetry. apply List.firstn_skipn.
  - intros ->. reflexivity.
  - intros ->. unfold Page.slice_last. rewrite List.length_skipn.
    split; [lia |].
    destruct (Nat.ltb_spec 2 (length (Post.comments post))); split; intros; (lia || congruence).
  - unfold Dashboard.comment_append. rewrite Z.eqb_refl. simpl.
    destruct (Page.expanded r (Post.id post)); [apply last_snoc |].
    apply slice_last_snoc. lia.
Qed.

(** ** The route guard *)

Lemma middleware_redirect (pathname : string) (token : option string)
    (target : string) (redirect : option string) :
  Middleware.middleware pathname token = Middleware.Redirect target redirect ->
  (target = "/login" /\ Middleware.present token = false)
  \/ (target = "/dashboard" /\ Middleware.present token = true /\ redirect = None).
Proof.
  unfold Middleware.middleware, Middleware.protectedRoutes, Middleware.publicRoutes.
  cbn [existsb]. rewrite !orb_false_r.
  destruct (Middleware.present token); cbn [negb]; rewrite ?andb_false_r, ?andb_true_r.
  - destruct (String.eqb pathname "/login" || String.eqb pathname "/register");
      [intros [= <- <-]; auto |].
    destruct (String.eqb pathname "/"); [intros [= <- <-]; auto | discriminate].
  - destruct (String.prefix "/dashboard" pathname); [intros [= <- <-]; auto |].
    destruct (String.eqb pathname "/"); [intros [= <- <-]; auto | discriminate].
Qed.

(** X22.  The guard never redirects twice in a row: the path it redirects
    to is let through for the same cookie.  It redirects only to "/login",
    when there is no token, or to "/dashboard", when there is one; a
    cookie with an empty value counts as no token. *)
Theorem middleware_no_redirect_loop (pathname : string) (token : option string)
    (target : string) (redirect : option string) :
  Middleware.middleware pathname token = Middleware.Redirect target redirect ->
  Middleware.middleware target token = Middleware.Next
  /\ ((target = "/login" /\ Middleware.present token = false)
      \/ (target = "/dashboard" /\ Middleware.present token = true /\ redirect = None))
  /\ Middleware.middleware pathname (Some "") = Middleware.middleware pathname None.
Proof.
  intros H. split; [| split; [exact (middleware_redirect _ _ _ _ H) | reflexivity]].
  destruct (middleware_redirect _ _ _ _ H) as [[-> Hp] | (-> & Hp & _)];
    unfold Middleware.middleware; rewrite Hp; reflexivity.
Qed.

Lemma middleware_no_redirect_loop_witness :
  Middleware.middleware "/login" None = Middleware.Next.
Proof.
  exact (proj1 (middleware_no_redirect_loop "/dashboard/settings" None "/login"
                  (Some "/dashboard/settings") eq_refl)).
Defined.

(** X23.  What the guard lets through: a path under "/dashboard" only with
    a token, "/login" and "/register" only without one, and "/" never.  A
    redirect away from a protected path goes to "/login" and remembers the
    path asked for; every other path is let through whatever the cookie. *)
Theorem middleware_guards (pathname : string) (token : option string) :
  (Middleware.middleware pathname token = Middleware.Next ->
   (String.prefix "/dashboard" pathname = true -> Middleware.present token = true)
   /\ (pathname = "/login" \/ pathname = "/register" -> Middleware.present token = false)
   /\ pathname <> "/")
  /\ (String.prefix "/dashboard" pathname = true -> Middleware.present token = false ->
      Middleware.middleware pathname token = Middleware.Redirect "/login" (Some pathname))
  /\ (String.prefix "/dashboard" pathname = false ->
      pathname <> "/login" -> pathname <> "/register" -> pathname <> "/" ->
      Middleware.middleware pathname token = Middleware.Next).
Proof.
  unfold Middleware.middleware, Middleware.protectedRoutes, Middleware.publicRoutes.
  cbn [existsb]. rewrite !orb_false_r.
  destruct (String.prefix "/dashboard" pathname) eqn:Hprot;
    destruct (Middleware.present token) eqn:Hpresent; cbn [andb negb orb].
  - (* protected, token *)
    assert (Hpub : String.eqb pathname "/login" || String.eqb pathname "/register" = false).
    { destruct (String.eqb_spec pathname "/login") as [-> | _]; [discriminate Hprot |].
      destruct (String.eqb_spec pathname "/register") as [-> | _];
        [discriminate Hprot | reflexivity]. }
    rewrite Hpub.
    assert (Hroot : String.eqb pathname "/" = false).
    { destruct (String.eqb_spec pathname "/") as [-> | _];
        [discriminate Hprot | reflexivity]. }
    rewrite Hroot.
    split; [intros _ | split; [discriminate | discriminate]].
    split; [reflexivity |]. split.
    + intros [-> | ->]; discriminate.
    + intros ->. discriminate.
  - split; [discriminate |]. split; [reflexivity | discriminate].
  - split; [| split; [discriminate |]].
    + destruct (String.eqb pathname "/login" || String.eqb pathname "/register") eqn:Hpub;
        [discriminate |].
      destruct (String.eqb_spec pathname "/"); [discriminate |]. intros _.
      split; [discriminate |]. split; [| assumption].
      intros [-> | ->]; discriminate.
    + intros _ H1 H2 H3.
      destruct (String.eqb_spec pathname "/login"); [contradiction |].
      destruct (String.eqb_spec pathname "/register"); [contradiction |].
      destruct (String.eqb_spec pathname "/"); [contradiction | reflexivity].
  - split; [| split; [discriminate |]].
    + rewrite andb_false_r.
      destruct (String.eqb_spec pathname "/"); [discriminate |]. intros _.
      split; [discriminate |]. split; [reflexivity | assumption].
    + intros _ H1 H2 H3. rewrite andb_false_r.
      destruct (String.eqb_spec pathname "/"); [contradiction | reflexivity].
Qed.

(** A token that begins with [;] leaves an empty cookie: the client
    counts a session, the guard sees none and sends "/dashboard" to
    "/login". *)
Example unescaped_token_locks_out :
  ApiClient.isAuthenticated (ApiClient.setToken ";x" Sample.browser) = true
  /\ Middleware.guard (ApiClient.setToken ";x" Sample.browser) "/dashboard"
     = Middleware.Redirect "/login" (Some "/dashboard").
Proof. split; reflexivity. Qed.

(** X24.  The client and the guard agree.  While the store is mirrored in
    a browser, the guard sees a token exactly when the client counts a
    session.  Once a non-empty token made of cookie octets is stored the
    guard lets "/dashboard" through and sends "/login" to "/dashboard";
    once it is removed the guard sends "/dashboard" to "/login" and lets
    "/login" through. *)
Theorem session_drives_guard (st : Browser.State) (token : string) :
  window st = true ->
  Browser.plain token = true ->
  token <> "" ->
  (Laws.mirrored st ->
   Middleware.present (cookies st !! "auth_token") = ApiClient.isAuthenticated st)
  /\ Middleware.guard (ApiClient.setToken token st) "/dashboard" = Middleware.Next
  /\ Middleware.guard (ApiClient.setToken token st) "/login"
     = Middleware.Redirect "/dashboard" None
  /\ Middleware.guard (ApiClient.removeToken (ApiClient.setToken token st)) "/dashboard"
     = Middleware.Redirect "/login" (Some "/dashboard")
  /\ Middleware.guard (ApiClient.removeToken (ApiClient.setToken token st)) "/login"
     = Middleware.Next.
Proof.
  intros Hw Hplain Htoken.
  unfold Middleware.guard, ApiClient.removeToken, ApiClient.setToken,
    ApiClient.isAuthenticated, ApiClient.getToken, Laws.mirrored.
  rewrite Hw. cbn [window cookies localStorage]. rewrite ?Hw. cbn [window cookies localStorage].
  rewrite !lookup_delete_eq, !lookup_insert_eq, (plain_cookie_value token Hplain).
  split; [intros ->; reflexivity |].
  unfold Middleware.middleware. cbn [Middleware.present].
  destruct (String.eqb_spec token ""); [contradiction |]. repeat split.
Qed.

Lemma session_drives_guard_witness :
  Middleware.guard (ApiClient.setToken "fresh" Sample.browser) "/login"
  = Middleware.Redirect "/dashboard" None.
Proof.
  exact (proj1 (proj2 (proj2
    (session_drives_guard Sample.browser "fresh" eq_refl eq_refl
       (fun H : "fresh" = "" =>
          eq_ind "fresh" (fun x => match x with
                                   | EmptyString => False
                                   | String _ _ => True
                                   end) I "" H))))).
Defined.

(** ** Logging out and mounting *)

Lemma logout_settles (c : ApiClient.t) (cfg : ApiConfig)
    (net : FetchCall -> Settle Response) (st : Browser.State) :
  ~ Facts.body_stalls c
      (net (ApiClient.request_call c st (LOGOUT (ENDPOINTS cfg)) (ApiClient.with_method "POST"))) ->
  exists t env,
    ApiClient.logout c cfg net st
    = (Fulfilled t env, if ApiClient.success env then ApiClient.removeToken st else st).
Proof.
  intros Hbody. destruct (try_catch_settles c net _ Hbody) as (t & env & Hreq).
  exists t, env. unfold ApiClient.logout, ApiClient.request. rewrite Hreq. reflexivity.
Qed.

(** X25.  The dashboard's logout does nothing while a logout is under way
    or when the user declines the confirmation.  Otherwise, once the call
    settles, with success or not, the credential is gone from local
    storage and from the cookie jar, the router is sent to "/login", which
    the guard then lets through, and the button stays disabled. *)
Theorem handleLogout_always_clears (c : ApiClient.t) (cfg : ApiConfig)
    (net : FetchCall -> Settle Response) (r : Dashboard.State) (w : Page.World) :
  window (Page.store w) = true ->
  ~ Facts.body_stalls c
      (net (ApiClient.request_call c (Page.store w) (LOGOUT (ENDPOINTS cfg))
              (ApiClient.with_method "POST"))) ->
  (Dashboard.isLoggingOut r = true -> forall confirmed,
     Page.handleLogout c cfg net r confirmed w = w)
  /\ Page.handleLogout c cfg net r false w = w
  /\ (Dashboard.isLoggingOut r = false ->
      let w' := Page.handleLogout c cfg net r true w in
      ApiClient.isAuthenticated (Page.store w') = false
      /\ localStorage (Page.store w') !! "auth_token" = None
      /\ cookies (Page.store w') !! "auth_token" = None
      /\ Page.route w' = Some "/login"
      /\ Middleware.guard (Page.store w') "/login" = Middleware.Next
      /\ Dashboard.isLoggingOut (Page.ui w') = true
      /\ Dashboard.posts (Page.ui w') = Dashboard.posts (Page.ui w)).
Proof.
  intros Hw Hbody. unfold Page.handleLogout.
  split; [intros -> confirmed; reflexivity |].
  split; [destruct (Dashboard.isLoggingOut r); reflexivity |].
  intros ->. cbn [negb Page.on_ui Page.store].
  destruct (logout_settles c cfg net (Page.store w) Hbody) as (t & env & ->).
  cbv zeta. cbn [Page.push Page.on_store Page.store Page.route Page.ui].
  assert (Hgone : forall st, window st = true ->
             localStorage (ApiClient.removeToken st) !! "auth_token" = None
             /\ cookies (ApiClient.removeToken st) !! "auth_token" = None
             /\ window (ApiClient.removeToken st) = true).
  { intros st Hst. unfold ApiClient.removeToken. rewrite Hst. simpl.
    rewrite !lookup_delete_eq. auto. }
  assert (Hst : window (if ApiClient.success env then ApiClient.removeToken (Page.store w)
                        else Page.store w) = true).
  { destruct (ApiClient.success env); [apply (Hgone _ Hw) | exact Hw]. }
  destruct (Hgone _ Hst) as (Hlocal & Hcookie & Hwin).
  unfold ApiClient.isAuthenticated, ApiClient.getToken, Middleware.guard.
  rewrite Hwin, Hlocal, Hcookie. repeat split.
Qed.

Lemma handleLogout_always_clears_witness :
  Page.store
    (Page.handleLogout Sample.client Sample.cfg Sample.refuses Sample.feed true
       {| Page.ui := Sample.feed; Page.store := Sample.browser; Page.route := None |})
  = {| window := true; localStorage := ∅; cookies := ∅ |}
  /\ Page.route
       (Page.handleLogout Sample.client Sample.cfg Sample.refuses Sample.feed true
          {| Page.ui := Sample.feed; Page.store := Sample.browser; Page.route := None |})
     = Some "/login".
Proof.
  pose proof (handleLogout_always_clears Sample.client Sample.cfg Sample.refuses Sample.feed
                {| Page.ui := Sample.feed; Page.store := Sample.browser; Page.route := None |}
                eq_refl) as H.
  assert (Hbody : ~ Facts.body_stalls Sample.client
                      (Sample.refuses
                         (ApiClient.request_call Sample.client Sample.browser
                            (LOGOUT (ENDPOINTS Sample.cfg)) (ApiClient.with_method "POST")))).
  { intros (t & resp & Heq & _). discriminate Heq. }
  destruct (H Hbody) as (_ & _ & Hdone).
  destruct (Hdone eq_refl) as (_ & _ & _ & Hroute & _).
  split; [reflexivity | exact Hroute].
Defined.

(** X26.  The early profile page's logout only navigates to "/" once the
    call settles, and clears nothing itself.  In a browser whose store is
    mirrored, the guard then sends the user to "/login" when the remote
    logout succeeded or there was no session, and back to "/dashboard",
    still signed in, when there was a session and the remote logout
    failed. *)
Theorem early_logout_can_bounce (c : ApiClient.t) (cfg : ApiConfig)
    (net : FetchCall -> Settle Response) (st : Browser.State) (route : option string) :
  window st = true ->
  Laws.mirrored st ->
  ~ Facts.body_stalls c
      (net (ApiClient.request_call c st (LOGOUT (ENDPOINTS cfg)) (ApiClient.with_method "POST"))) ->
  let after := ProfilePage.handleLogout c cfg net (st, route) in
  snd after = Some "/"
  /\ fst after = snd (ApiClient.logout c cfg net st)
  /\ Middleware.guard (fst after) "/"
     = if Facts.succeeded (fst (ApiClient.logout c cfg net st)) then
         Middleware.Redirect "/login" None
       else if ApiClient.isAuthenticated st then Middleware.Redirect "/dashboard" None
       else Middleware.Redirect "/login" None.
Proof.
  intros Hw Hm Hbody. cbv zeta. unfold ProfilePage.handleLogout. cbn [fst snd].
  destruct (logout_settles c cfg net st Hbody) as (t & env & ->). cbn [fst snd Facts.succeeded].
  split; [reflexivity |]. split; [reflexivity |].
  unfold Middleware.guard, Middleware.middleware. cbn [existsb Middleware.protectedRoutes
    Middleware.publicRoutes]. cbn.
  destruct (ApiClient.success env).
  - unfold ApiClient.removeToken. rewrite Hw. cbn [cookies].
    rewrite lookup_delete_eq. reflexivity.
  - unfold ApiClient.isAuthenticated, ApiClient.getToken. rewrite Hw.
    unfold Laws.mirrored in Hm. rewrite Hm.
    destruct (cookies st !! "auth_token") as [v |]; cbn; [| reflexivity].
    destruct (String.eqb v ""); reflexivity.
Qed.

Lemma early_logout_can_bounce_witness :
  Middleware.guard
    (fst (ProfilePage.handleLogout Sample.client Sample.cfg Sample.refuses
            (Sample.browser, None))) "/"
  = Middleware.Redirect "/dashboard" None.
Proof.
  assert (Hbody : ~ Facts.body_stalls Sample.client
                      (Sample.refuses
                         (ApiClient.request_call Sample.client Sample.browser
                            (LOGOUT (ENDPOINTS Sample.cfg)) (ApiClient.with_method "POST")))).
  { intros (t & resp & Heq & _). discriminate Heq. }
  exact (proj2 (proj2 (early_logout_can_bounce Sample.client Sample.cfg Sample.refuses
                         Sample.browser None eq_refl eq_refl Hbody))).
Defined.


(** ** The post form, continued *)

Section Form.
Variable Parent : Type.
Variable onPostCreated : Parent -> Parent.
Variable onError : string -> Parent -> Parent.

Lemma handleFileChange_cases (file : option File) (s : PostForm.State * Parent) :
  let s' := PostFormFields.handleFileChange Parent onError file s in
  match file with
  | None => s' = s
  | Some f =>
      if PostFormFields.acceptable f then
        s' = (PostFormFields.setSelectedFile (Some f) (fst s), snd s)
      else
        exists text, s' = (fst s, onError text (snd s))
                     /\ (text = "Please select a valid image file"
                         \/ text = "Image size must be less than 10MB")
  end.
Proof.
  cbv zeta. unfold PostFormFields.handleFileChange, PostFormFields.acceptable.
  destruct file as [f |]; [| reflexivity].
  destruct (String.prefix "image/" (file_type f)); simpl.
  - destruct (PostFormFields.maxSize <? file_size f); simpl; [| reflexivity].
    eexists. split; [reflexivity | auto].
  - eexists. split; [reflexivity | auto].
Qed.

(** X28.  The file input keeps a file only if its type starts with
    "image/" and its size is at most 10 MiB (10485760 bytes, inclusive);
    any other file is refused with an error and the earlier choice stays.
    So after any series of choices the form holds no invalid file, and
    what [handleSubmit] uploads is always such an image, sent together
    with the untrimmed text. *)
Theorem file_choice_is_validated (files : list (option File)) (s : PostForm.State * Parent) :
  Laws.holds_valid_file (fst s) ->
  let chosen := fold_left (fun s f => PostFormFields.handleFileChange Parent onError f s)
                  files s in
  Laws.holds_valid_file (fst chosen)
  /\ PostForm.formData (fst chosen) = PostForm.formData (fst s)
  /\ (forall fields,
        Handler.issued (PostForm.handleSubmit Parent onPostCreated onError (fst chosen))
        = Some (Handler.createPostWithFile fields) ->
        exists f,
          fields = [("content", FormText (PostForm.content (PostForm.formData (fst s))));
                    ("image", FormFile f)]
          /\ String.prefix "image/" (file_type f) = true
          /\ file_size f <= 10485760).
Proof.
  intros Hvalid chosen.
  assert (Hinv : Laws.holds_valid_file (fst chosen)
                 /\ PostForm.formData (fst chosen) = PostForm.formData (fst s)).
  { subst chosen. revert s Hvalid. induction files as [| file files IH]; intros s Hvalid.
    - split; [exact Hvalid | reflexivity].
    - cbn [fold_left].
      pose proof (handleFileChange_cases file s) as Hcase. cbv zeta in Hcase.
      destruct file as [f |].
      + destruct (PostFormFields.acceptable f) eqn:Hf.
        * rewrite Hcase. destruct (IH (PostFormFields.setSelectedFile (Some f) (fst s), snd s))
            as [H1 H2]; [exact Hf |]. split; [exact H1 | exact H2].
        * destruct Hcase as (text & -> & _).
          destruct (IH (fst s, onError text (snd s))) as [H1 H2]; [exact Hvalid |].
          split; [exact H1 | exact H2].
      + rewrite Hcase. apply IH. exact Hvalid. }
  destruct Hinv as [Hfile Hdata]. split; [exact Hfile |]. split; [exact Hdata |].
  intros fields. unfold PostForm.handleSubmit. unfold Laws.holds_valid_file in Hfile.
  destruct (PostForm.selectedFile (fst chosen)) as [f |]; [| discriminate].
  destruct (String.eqb _ ""); [discriminate |].
  intros [= <-]. exists f. rewrite Hdata. split; [reflexivity |].
  unfold PostFormFields.acceptable in Hfile. apply andb_true_iff in Hfile as [Htype Hsize].
  split; [exact Htype |].
  apply negb_true_iff, Z.ltb_ge in Hsize. exact Hsize.
Qed.

(** X29.  A submission that is sent marks the form as submitting, which
    disables the submit button.  When the call succeeds the form is
    emptied and closed and the parent is told once that a post was
    created; when it fails or throws the text, the file and the open form
    are kept for another try and the parent is given the envelope's
    message (or "Failed to create post"), resp. the network-error text.
    The submitting mark is cleared either way.  An enabled submit button
    always sends, and what is sent is the text as typed, not trimmed. *)
Theorem handleSubmit_outcomes (r : PostForm.State) (parent : Parent)
    (o : Handler.Outcome Post.t) :
  let h := PostForm.handleSubmit Parent onPostCreated onError r in
  (PostFormFields.submitDisabled r = false -> Handler.issued h <> None)
  /\ (forall v file,
        PostForm.selectedFile r = Some file -> Text.trim v <> "" ->
        Handler.issued
          (PostForm.handleSubmit Parent onPostCreated onError
             (PostFormFields.handleInputChange "content" v r))
        = Some (Handler.createPostWithFile
                  [("content", FormText v); ("image", FormFile file)]))
  /\ (Handler.issued h <> None ->
      PostFormFields.submitDisabled (fst (Handler.before h (r, parent))) = true
      /\ snd (Handler.before h (r, parent)) = parent
      /\ PostForm.isSubmitting (fst (Handler.run h o (r, parent))) = false
      /\ (Laws.succeeded o ->
          PostForm.formData (fst (Handler.run h o (r, parent)))
          = {| PostForm.content := ""; PostForm.image := "" |}
          /\ PostForm.selectedFile (fst (Handler.run h o (r, parent))) = None
          /\ PostForm.imagePreview (fst (Handler.run h o (r, parent))) = None
          /\ PostForm.isOpen (fst (Handler.run h o (r, parent))) = false
          /\ snd (Handler.run h o (r, parent)) = onPostCreated parent)
      /\ (Facts.failed o ->
          PostForm.formData (fst (Handler.run h o (r, parent))) = PostForm.formData r
          /\ PostForm.selectedFile (fst (Handler.run h o (r, parent))) = PostForm.selectedFile r
          /\ PostForm.isOpen (fst (Handler.run h o (r, parent))) = PostForm.isOpen r
          /\ snd (Handler.run h o (r, parent))
             = onError match o with
                       | Handler.Resolved response =>
                           Text.or_else (message response) "Failed to create post"
                       | Handler.Threw => "Network error. Please try again."
                       end parent)).
Proof.
  cbv zeta.
  assert (Htyped : forall v file,
             PostForm.selectedFile r = Some file -> Text.trim v <> "" ->
             Handler.issued
               (PostForm.handleSubmit Parent onPostCreated onError
                  (PostFormFields.handleInputChange "content" v r))
             = Some (Handler.createPostWithFile
                       [("content", FormText v); ("image", FormFile file)])).
  { intros v file Hfile Hv. unfold PostForm.handleSubmit, PostFormFields.handleInputChange.
    cbn. rewrite Hfile. change (Text.trimEnd (Text.trimStart v)) with (Text.trim v).
    destruct (String.eqb_spec (Text.trim v) ""); [contradiction |].
    reflexivity. }
  unfold PostForm.handleSubmit, PostFormFields.submitDisabled.
  destruct (PostForm.selectedFile r) as [file |] eqn:Hfile.
  - destruct (String.eqb (Text.trim (PostForm.content (PostForm.formData r))) "") eqn:Hblank.
    + split; [rewrite orb_true_r; discriminate |].
      split; [exact Htyped | intros H; contradiction].
    + split; [discriminate |]. split; [exact Htyped |].
      intros _. unfold Handler.run. cbn.
      split; [reflexivity |]. split; [reflexivity |].
      split; [destruct o as [resp |]; [destruct (success resp) |]; reflexivity |].
      split.
      * intros Ho. destruct o as [resp |]; simpl in Ho; [| contradiction].
        rewrite Ho. cbn. repeat split.
      * intros Ho. destruct o as [resp |]; simpl in Ho; [rewrite Ho |]; cbn;
          rewrite ?Hfile; repeat split.
  - split; [rewrite orb_true_r; discriminate |].
    split; [exact Htyped | intros H; contradiction].
Qed.

End Form.

(** ** The image with fallback *)

Section Image.
Variable encodeURIComponent : string -> string.

Lemma errors_once (n : nat) (p : SafeImage.Props) (s : SafeImage.State) :
  SafeImage.hasError s = true -> SafeImage.errors encodeURIComponent n p s = s.
Proof.
  revert s. induction n as [| n IH]; intros s Hs; [reflexivity |].
  cbn [SafeImage.errors]. unfold SafeImage.handleError. rewrite Hs. cbn [negb].
  apply IH. exact Hs.
Qed.

(** X30.  Only the first load error of an image changes its state.
    Without the proxy the image shows its source until the first error
    and the fallback from then on.  With the proxy, and a source that is
    not a proxy address itself, the image shows the proxied address
    before and after any number of errors, so a fallback that is not a
    proxy address is never shown; with the proxy the image is always
    marked unoptimized. *)
Theorem safe_image_sources (p : SafeImage.Props) (n : nat) :
  let shown := SafeImage.finalSrc encodeURIComponent p
                 (SafeImage.errors encodeURIComponent n p (SafeImage.initial p)) in
  SafeImage.errors encodeURIComponent (S n) p (SafeImage.initial p)
  = SafeImage.errors encodeURIComponent 1 p (SafeImage.initial p)
  /\ (SafeImage.useProxy p = false ->
      shown = match n with O => SafeImage.src p | S _ => SafeImage.fallbackSrc p end)
  /\ (SafeImage.useProxy p = true ->
      SafeImage.includes "/api/image-proxy" (SafeImage.src p) = false ->
      shown = "/api/image-proxy?url=" +:+ encodeURIComponent (SafeImage.src p)
      /\ SafeImage.includes "/api/image-proxy" shown = true
      /\ (SafeImage.includes "/api/image-proxy" (SafeImage.fallbackSrc p) = false ->
          shown <> SafeImage.fallbackSrc p))
  /\ (SafeImage.useProxy p = true ->
      SafeImage.unoptimized encodeURIComponent p
        (SafeImage.errors encodeURIComponent n p (SafeImage.initial p)) = true).
Proof.
  cbv zeta.
  assert (Hfirst : SafeImage.hasError
                     (SafeImage.handleError encodeURIComponent p (SafeImage.initial p)
                        (SafeImage.initial p)) = true).
  { unfold SafeImage.handleError. simpl.
    destruct (SafeImage.useProxy p && _); reflexivity. }
  split; [| split; [| split]].
  - cbn [SafeImage.errors]. apply errors_once. exact Hfirst.
  - intros Hproxy. unfold SafeImage.finalSrc. rewrite Hproxy. cbn [andb].
    destruct n as [| n]; [reflexivity |].
    cbn [SafeImage.errors]. rewrite (errors_once n p _ Hfirst).
    unfold SafeImage.handleError. rewrite Hproxy. reflexivity.
  - intros Hproxy Hsrc. unfold SafeImage.finalSrc. rewrite Hproxy, Hsrc. cbn [andb negb].
    split; [reflexivity |]. split; [reflexivity |].
    intros Hfallback Heq. rewrite <- Heq in Hfallback. discriminate Hfallback.
  - intros Hproxy. unfold SafeImage.unoptimized. rewrite Hproxy. reflexivity.
Qed.

End Image.

Lemma file_choice_is_validated_witness :
  PostForm.selectedFile
    (fst (fold_left
            (fun s f => PostFormFields.handleFileChange (option string) (fun m _ => Some m) f s)
            [Some Sample.picture;
             Some {| file_name := "film.mp4"; file_type := "video/mp4"; file_size := 4096 |};
             Some {| file_name := "huge.png"; file_type := "image/png";
                     file_size := 10485761 |};
             None]
            (Sample.form "a caption" None, None)))
  = Some Sample.picture
  /\ Laws.holds_valid_file
       (fst (fold_left
               (fun s f => PostFormFields.handleFileChange (option string) (fun m _ => Some m) f s)
               [Some Sample.picture;
                Some {| file_name := "film.mp4"; file_type := "video/mp4"; file_size := 4096 |};
                Some {| file_name := "huge.png"; file_type := "image/png";
                        file_size := 10485761 |};
                None]
               (Sample.form "a caption" None, None))).
Proof.
  split; [reflexivity |].
  exact (proj1 (file_choice_is_validated (option string) (fun p => p) (fun m _ => Some m)
                  [Some Sample.picture;
                   Some {| file_name := "film.mp4"; file_type := "video/mp4";
                           file_size := 4096 |};
                   Some {| file_name := "huge.png"; file_type := "image/png";
                           file_size := 10485761 |};
                   None]
                  (Sample.form "a caption" None, None) I)).
Defined.
